(** * TgVk: a shallow embedding of the Telegram -> VK cross-posting pipeline

    The development follows the Python sources:
    - [config/init.py]                      ([format_owner_id]),
    - [services/vk/client.py]               ([VkClient]),
    - [services/database/repository.py]     ([DatabaseRepository]),
    - [utils/file_utils.py]                 ([FileManager]),
    - [handlers/telegram/*.py]              (the handlers).

    Python code that talks to the outside world (the VK API, the identity
    provider, Telegram, the settings store, the local disk, the clock) is
    written in a reader/state/exception monad [M].  The outside world answers
    through oracles that see the whole history of earlier interactions, so a
    theorem that quantifies over the environment covers every behaviour of the
    network. *)

From Stdlib Require Import ZArith List String Ascii Bool QArith Lia Lqa.
From Stdlib Require Import DecimalString DecimalPos DecimalZ.
Import ListNotations.

Open Scope string_scope.
Open Scope Z_scope.

(** ** Python values used by the code *)

(** [str(n)] for an [int]. *)
Definition str_of_Z (z : Z) : string := NilZero.string_of_int (Z.to_int z).

(** [int(s)] for a [str] made of an optional ['-'] and ASCII digits, which
    is what [str] of an [int] and the slicing and prefixing of such strings
    give; [None] stands for [ValueError].  (Python's [int] also accepts
    surrounding white space, a ['+'], underscores between digits and other
    Unicode digits.  The statements below that reach [int] with text read
    from the store take that text to be [str] of an [int], which is what
    the code stores, or empty.) *)
Definition int_of_str (s : string) : option Z :=
  option_map Z.of_int (NilZero.int_of_string s).

(** ASCII white space, as removed by [str.strip()]. *)
Definition is_space (c : ascii) : bool :=
  let n := nat_of_ascii c in
  ((9 <=? n) && (n <=? 13) || (n =? 32) || ((28 <=? n) && (n <=? 31)))%nat.

Fixpoint lstrip (s : string) : string :=
  match s with
  | EmptyString => EmptyString
  | String c s' => if is_space c then lstrip s' else s
  end.

Fixpoint rstrip (s : string) : string :=
  match s with
  | EmptyString => EmptyString
  | String c s' =>
      match rstrip s' with
      | EmptyString => if is_space c then EmptyString else String c EmptyString
      | r => String c r
      end
  end.

Definition strip (s : string) : string := rstrip (lstrip s).

(** [s.startswith(p)] *)
Definition startswith (p s : string) : bool := String.prefix p s.

(** [sep.join(l)] *)
Fixpoint join (sep : string) (l : list string) : string :=
  match l with
  | [] => ""
  | [x] => x
  | x :: rest => x ++ sep ++ join sep rest
  end.

(** [s.split('/')] *)
Fixpoint split_slash (s : string) : list string :=
  match s with
  | EmptyString => [""]
  | String c rest =>
      match split_slash rest with
      | first :: others =>
          if Ascii.eqb c "/"%char then "" :: first :: others
          else String c first :: others
      | [] => [String c ""]
      end
  end.

(** Truth value of an [Optional[str]]: [None] and [''] are falsy. *)
Definition truthy_str (s : option string) : bool :=
  match s with
  | Some s => negb (s =? "")%string
  | None => false
  end.

(** Truth value of an [Optional[int]]: [None] and [0] are falsy. *)
Definition truthy_int (z : option Z) : bool :=
  match z with
  | Some z => negb (z =? 0)
  | None => false
  end.

Definition opt_str_eqb (a b : option string) : bool :=
  match a, b with
  | Some x, Some y => (x =? y)%string
  | None, None => true
  | _, _ => false
  end.

(** ** Exceptions *)

Inductive exn_class :=
| VkApiError | ValueError | TypeError | AttributeError | KeyError | IndexError
| NameError | FileNotFoundError | OSError | ConnectionError.

Record exn := mkExn { exn_cls : exn_class; exn_msg : string }.

Definition is_VkApiError (e : exn) : bool :=
  match exn_cls e with VkApiError => true | _ => false end.

Inductive res (A : Type) :=
| Ret (a : A)
| Raise (e : exn).
Arguments Ret {A} a.
Arguments Raise {A} e.

(** ** config/init.py *)

(** [format_owner_id]: the [except (ValueError, TypeError)] branch is taken
    when [int(str_id)] fails. *)
Definition format_owner_id (target_id : Z) : Z :=
  let str_id := strip (str_of_Z target_id) in
  let fallback := -1 * Z.abs target_id in
  if startswith "-" str_id then
    match int_of_str str_id with
    | Some n => n
    | None => fallback
    end
  else
    match int_of_str str_id with
    | Some n => -1 * n
    | None => fallback
    end.

(** ** Data exchanged with the outside world *)

(** *** VK API *)

(** Parameters of [wall.post] as built by [create_post]. *)
Record post_params := mkPostParams {
  pp_owner_id : option Z;
  pp_from_group : option Z;
  pp_message : string;
  pp_attachments : string;
  pp_copyright : option string
}.

(** Parameters of [wall.edit] as built by [edit_post]. *)
Record edit_params := mkEditParams {
  ep_owner_id : option Z;
  ep_post_id : Z;
  ep_message : string;
  ep_attachments : string;
  ep_copyright : option string
}.

(** The [wall.post] answer is a dict read with [.get('post_id')]. *)
Record post_response := mkPostResponse { resp_post_id : option Z }.

(** The dict found under [attachment[attach_type]], read with
    [.get('owner_id')] and [.get('id')]. *)
Record attach_body := mkAttachBody {
  ab_owner_id : option Z;
  ab_id : option Z
}.

(** One entry of a post's ['attachments'] list: its ['type'] (if any) and
    the other keys of the dict that hold an object. *)
Record attachment := mkAttachment {
  att_type : option string;
  att_objects : list (string * attach_body)
}.

(** One post as returned by [wall.getById]; the ['attachments'] key may be
    missing. *)
Record vk_post := mkVkPost { wp_attachments : option (list attachment) }.

(** What the [VkUpload] methods return.  Keys may be missing; ids are
    integers. *)
Record media_obj := mkMediaObj {
  mo_owner_id : option Z;
  mo_id : option Z;             (* ['id'] *)
  mo_video_id : option Z;       (* ['video_id'] *)
  mo_doc : option attach_body   (* ['doc'] *)
}.

Inductive upload_result :=
| UNone                          (* [None] *)
| UList (l : list media_obj)     (* a list of dicts, as [photo_wall] returns *)
| UDict (nonempty : bool) (d : media_obj). (* a dict; [nonempty] is its truth value *)

Inductive vk_request :=
| WallPost (p : post_params)
| WallGetById (posts : string)
| WallEdit (p : edit_params)
| Upload (media_type : string) (file_path : string)
         (kwargs : list (string * option string)).

(** *** Identity provider *)

Record token_body := mkTokenBody {
  tb_access_token : option string;
  tb_refresh_token : option string;
  tb_expires_in : option Q        (* [None]: key absent, default 3300 *)
}.

Record http_response := mkHttpResponse {
  status_code : Z;
  json_body : option token_body  (* [None]: [response.json()] raises *)
}.

(** *** Settings store (supabase) *)

Inductive stored_expiry :=
| ExpNone                 (* NULL or the empty string *)
| ExpTime (t : Q)         (* an ISO timestamp, as seconds since the epoch *)
| ExpMalformed.           (* a string [datetime.fromisoformat] rejects *)

Record vk_target := mkVkTarget {
  vt_target_id : Z;
  vt_is_active : bool;
  vt_access_token : option string;
  vt_refresh_token : option string;
  vt_expires_at : stored_expiry
}.

Record post_row := mkPostRow {
  pr_telegram_message_id : Z;
  pr_user_id : Z;
  pr_vk_post_id : string;
  pr_status : string;
  pr_published_at : Q;
  pr_content : option string;
  pr_media_group_id : option string;
  pr_telegram_channel_id : option Z;
  pr_processing_attempts : option Z
}.

Record channel_row := mkChannelRow {
  ch_id : Z;
  ch_channel_id : option Z;
  ch_channel_username : option string
}.

(** *** Telegram *)

Record tg_file := mkTgFile { tf_file_size : Z; tf_file_path : string }.

(** How [bot.download_file] ends: the file is written, or the call raises
    with or without having created the destination. *)
Inductive download_outcome :=
| DlOk
| DlRaise (e : exn) (file_left : bool).

(** A photo size, video, video note or document of a message. *)
Record tg_media := mkTgMedia {
  file_id : string;
  file_size : Z;
  file_name : option string
}.

Inductive ContentType :=
| PHOTO | VIDEO | DOCUMENT | VIDEO_NOTE | TEXT | AUDIO | STICKER.

Record Message := mkMessage {
  message_id : Z;
  chat_id : Z;
  text : option string;
  caption : option string;
  forward_from : bool;         (* [message.forward_from is not None] *)
  forward_from_chat : bool;    (* [message.forward_from_chat is not None] *)
  content_type : ContentType;
  photo : list tg_media;       (* sizes, largest last *)
  video : option tg_media;
  video_note : option tg_media;
  document : option tg_media
}.

(** The chat returned by [bot.get_chat]. *)
Record Chat := mkChat { chat_ident : Z; chat_username : option string }.

(** The channel settings dict. *)
Record Settings := mkSettings {
  st_user_id : Z;
  st_channel_id : Z;
  st_is_active : bool;               (* truth value of [.get('is_active')] *)
  st_access_token : option string;
  st_target_id : Z;
  st_post_as_group : option Z        (* [None]: key absent, default 1 *)
}.

(** ** Events, environment and state *)

Inductive event :=
| EvSleep (secs : Z)                               (* [asyncio.sleep] *)
| EvVk (req : vk_request)                          (* a VK API or upload call *)
| EvHttpRefresh (refresh_token : option string)    (* GET oauth.vk.com/access_token *)
| EvGetFile (file_id : string)                     (* [bot.get_file] *)
| EvDownload (file_path dest : string)             (* [bot.download_file] *)
| EvGetChat (chat : Z).                            (* [bot.get_chat] *)

Definition history := list event.

Record Config := mkConfig {
  cfg_access_token : option (option string);  (* outer [None]: key absent *)
  cfg_target_id : option Z;
  cfg_post_as_group : option Z
}.

Definition empty_config : Config := mkConfig None None None.

(** The mutable part: the [VkClient] object, the tables, the disk, the
    clock and the history. *)
Record World := mkWorld {
  api : bool;                 (* [self._api is not None] *)
  upload : bool;              (* [self._upload is not None] *)
  config : Config;            (* [self._config] *)
  vk_targets : list vk_target;
  posts : list post_row;
  telegram_channels : list channel_row;
  data_txt : option (list (Z * Z)); (* the [m:p] lines of data.txt, if it exists *)
  fs : list string;           (* scratch files present on disk *)
  active_files : list string; (* [FileManager.active_files] *)
  now : Q;                    (* [time.time()] *)
  trace : history
}.

(** The three places where [data.txt] is opened: the append of
    [save_post_mapping], the append of its [except] handler, and the read of
    [get_post_by_message_id]. *)
Inductive data_txt_use := DtAppend | DtAppendAgain | DtRead.

(** The immutable part: module constants and the oracles. *)
Record Env := mkEnv {
  supabase : bool;                      (* [config.supabase] is not [None] *)
  VK_CLIENT_ID : option string;
  VK_CLIENT_SECRET : option string;
  MAX_FILE_SIZE : Z;
  max_retries : Z;                      (* [VkClient.max_retries] *)
  db_exec : history -> option exn;      (* [.execute()] raises? *)
  vk_session : history -> option string -> option exn; (* [VkApi(token=...)] raises? *)
  wall_post : history -> post_params -> res post_response;
  wall_getById : history -> string -> res (list vk_post);
  wall_edit : history -> edit_params -> res unit;
  vk_upload : history -> string -> string -> res upload_result;
  http_refresh : history -> option string -> res http_response;
  tg_get_file : history -> string -> res tg_file;
  tg_download : history -> string -> string -> download_outcome;
  os_getsize : history -> string -> Z;  (* [os.path.getsize] *)
  guess_type : string -> option string; (* [mimetypes.guess_type(path)[0]] *)
  uuid4_hex : history -> string;        (* [uuid.uuid4().hex] *)
  tg_get_chat : history -> Z -> res Chat;  (* [bot.get_chat] *)
  (* imported by base_handler.py from a module that does not define it *)
  get_channel_settings_by_id : history -> Z -> res (option Settings);
  unlink_error : history -> string -> option exn;  (* [path.unlink()] raises? *)
  (* opening data.txt raises? *)
  data_txt_error : history -> data_txt_use -> option exn
}.

(** ** The monad *)

Definition M (A : Type) : Type := Env -> World -> res A * World.

Definition ret {A} (a : A) : M A := fun _ w => (Ret a, w).

Definition raise {A} (e : exn) : M A := fun _ w => (Raise e, w).

Definition bind {A B} (m : M A) (k : A -> M B) : M B :=
  fun env w =>
    match m env w with
    | (Ret a, w') => k a env w'
    | (Raise e, w') => (Raise e, w')
    end.

(** [try: m except Exception as e: h e] *)
Definition try_except {A} (m : M A) (h : exn -> M A) : M A :=
  fun env w =>
    match m env w with
    | (Ret a, w') => (Ret a, w')
    | (Raise e, w') => h e env w'
    end.

(** [try: m finally: c] *)
Definition try_finally {A} (m : M A) (c : M unit) : M A :=
  fun env w =>
    match m env w with
    | (r, w') =>
        match c env w' with
        | (Ret _, w'') => (r, w'')
        | (Raise e, w'') => (Raise e, w'')
        end
    end.

Definition ask : M Env := fun env w => (Ret env, w).
Definition get : M World := fun _ w => (Ret w, w).
Definition modify (f : World -> World) : M unit := fun _ w => (Ret tt, f w).

Declare Scope monad_scope.
Delimit Scope monad_scope with monad.
Notation "x <- m ;; k" := (bind m (fun x => k))
  (at level 100, m at next level, right associativity) : monad_scope.
Notation "m ;;; k" := (bind m (fun _ => k))
  (at level 100, right associativity) : monad_scope.
Open Scope monad_scope.

(** *** State updates *)

Definition set_api (a u : bool) (w : World) : World :=
  mkWorld a u (config w) (vk_targets w) (posts w) (telegram_channels w)
          (data_txt w) (fs w) (active_files w) (now w) (trace w).

Definition set_config (c : Config) (w : World) : World :=
  mkWorld (api w) (upload w) c (vk_targets w) (posts w) (telegram_channels w)
          (data_txt w) (fs w) (active_files w) (now w) (trace w).

Definition set_vk_targets (t : list vk_target) (w : World) : World :=
  mkWorld (api w) (upload w) (config w) t (posts w) (telegram_channels w)
          (data_txt w) (fs w) (active_files w) (now w) (trace w).

Definition set_posts (p : list post_row) (w : World) : World :=
  mkWorld (api w) (upload w) (config w) (vk_targets w) p (telegram_channels w)
          (data_txt w) (fs w) (active_files w) (now w) (trace w).

Definition set_data_txt (d : option (list (Z * Z))) (w : World) : World :=
  mkWorld (api w) (upload w) (config w) (vk_targets w) (posts w)
          (telegram_channels w) d (fs w) (active_files w) (now w) (trace w).

Definition set_fs (f : list string) (w : World) : World :=
  mkWorld (api w) (upload w) (config w) (vk_targets w) (posts w)
          (telegram_channels w) (data_txt w) f (active_files w) (now w) (trace w).

Definition set_active_files (a : list string) (w : World) : World :=
  mkWorld (api w) (upload w) (config w) (vk_targets w) (posts w)
          (telegram_channels w) (data_txt w) (fs w) a (now w) (trace w).

(** An interaction is appended to the history. *)
Definition log_event (e : event) (w : World) : World :=
  mkWorld (api w) (upload w) (config w) (vk_targets w) (posts w)
          (telegram_channels w) (data_txt w) (fs w) (active_files w) (now w)
          (trace w ++ [e])%list.

(** [asyncio.sleep(secs)]: time passes. *)
Definition slept (secs : Z) (w : World) : World :=
  mkWorld (api w) (upload w) (config w) (vk_targets w) (posts w)
          (telegram_channels w) (data_txt w) (fs w) (active_files w)
          (now w + inject_Z secs)%Q (trace w ++ [EvSleep secs])%list.

Definition sleep (secs : Z) : M unit := modify (slept secs).

(** Lift an oracle answer. *)
Definition of_res {A} (r : res A) : M A :=
  match r with
  | Ret a => ret a
  | Raise e => raise e
  end.

(** One blocking VK call: the oracle answers from the history, and the call
    is recorded. *)
Definition vk_call {A} (req : vk_request) (answer : Env -> history -> res A) : M A :=
  fun env w => of_res (answer env (trace w)) env (log_event (EvVk req) w).

(** [.execute()] on a supabase query. *)
Definition execute : M unit :=
  fun env w =>
    match db_exec env (trace w) with
    | None => (Ret tt, w)
    | Some e => (Raise e, w)
    end.

(** [range(n)] *)
Definition range (n : Z) : list Z := map Z.of_nat (seq 0 (Z.to_nat n)).

(** [str(x)] for an [Optional[int]]. *)
Definition str_of_opt_Z (z : option Z) : string :=
  match z with
  | Some z => str_of_Z z
  | None => "None"
  end.

(** ** services/vk/client.py *)

Module VkClient.

Definition _reinitialize_client : M unit :=
  w <- get ;;
  match cfg_access_token (config w) with
  | None => raise (mkExn KeyError "access_token")
  | Some token =>
      env <- ask ;;
      match vk_session env (trace w) token with
      | Some e => raise e
      | None => modify (set_api true true)
      end
  end.

Definition configure (access_token : option string) (target_id : Z)
           (post_as_group : Z) : M unit :=
  if negb (truthy_str access_token && truthy_int (Some target_id)) then
    raise (mkExn ValueError "bad VK configuration")
  else
    let formatted_target_id :=
      if post_as_group =? 1 then Z.abs (format_owner_id target_id)
      else Z.abs target_id in
    modify (set_config (mkConfig (Some access_token)
                                 (Some formatted_target_id)
                                 (Some post_as_group))) ;;;
    _reinitialize_client.

(** The body of the [for attempt in range(self.max_retries)] loop, over
    the attempts that remain. *)
Fixpoint retry_loop {A} (func : M A) (maxr : Z) (attempts : list Z)
  : M (option A) :=
  match attempts with
  | [] => ret None
  | attempt :: rest =>
      fun env w =>
        match func env w with
        | (Ret a, w') => (Ret (Some a), w')
        | (Raise e, w') =>
            if is_VkApiError e then
              if attempt =? maxr - 1 then (Raise e, w')
              else (sleep (2 ^ attempt) ;;; retry_loop func maxr rest) env w'
            else (Raise e, w')
        end
  end.

Definition _execute_with_retry {A} (func : M A) : M (option A) :=
  env <- ask ;;
  retry_loop func (max_retries env) (range (max_retries env)).

Definition select_active_targets (target_id : Z) (w : World) : list vk_target :=
  filter (fun r => (vt_target_id r =? target_id) && vt_is_active r)
         (vk_targets w).

Definition config_get_access_token (c : Config) : option string :=
  match cfg_access_token c with
  | Some v => v
  | None => None
  end.

Definition set_access_token (token : option string) (w : World) : World :=
  set_config (mkConfig (Some token) (cfg_target_id (config w))
                       (cfg_post_as_group (config w))) w.

(** [requests.get("https://oauth.vk.com/access_token", ...)] *)
Definition http_get_access_token (refresh_token : option string)
  : M http_response :=
  fun env w =>
    of_res (http_refresh env (trace w) refresh_token) env
           (log_event (EvHttpRefresh refresh_token) w).

Definition update_target_tokens (target_id : Z) (access refresh : option string)
           (expires_at : Q) (r : vk_target) : vk_target :=
  if (vt_target_id r =? target_id) && vt_is_active r then
    mkVkTarget (vt_target_id r) (vt_is_active r) access refresh
               (ExpTime expires_at)
  else r.

(** [datetime.fromtimestamp(t, tz=timezone.utc)]: a [datetime] has a year
    from 1 to 9999; outside it the call raises ([ValueError], or
    [OverflowError] further out: a subclass of [Exception] either way). *)
Definition in_datetime_range (t : Q) : bool :=
  Qle_bool (inject_Z (-62135596800)) t
  && negb (Qle_bool (inject_Z 253402300800) t).

Definition fromtimestamp (t : Q) : res Q :=
  if in_datetime_range t then Ret t
  else Raise (mkExn ValueError "year is out of range").

Definition _refresh_vk_token (target_id : Z) (refresh_token : option string)
  : M (option string) :=
  try_except
    (env <- ask ;;
     (* [Some rt]: go on with [rt]; [None]: the early [return None] *)
     found <-
       (if negb (truthy_str refresh_token) && supabase env then
          execute ;;;
          w <- get ;;
          match select_active_targets target_id w with
          | [] => ret None
          | r :: _ => ret (Some (vt_refresh_token r))
          end
        else ret (Some refresh_token)) ;;
     match found with
     | None => ret None
     | Some refresh_token =>
         if negb (truthy_str (VK_CLIENT_ID env))
            || negb (truthy_str (VK_CLIENT_SECRET env)) then ret None
         else
           response <- http_get_access_token refresh_token ;;
           if status_code response =? 200 then
             match json_body response with
             | None => raise (mkExn ValueError "json")
             | Some data =>
                 let new_access_token := tb_access_token data in
                 let new_refresh_token := tb_refresh_token data in
                 let expires_in :=
                   match tb_expires_in data with
                   | Some d => d
                   | None => inject_Z 3300
                   end in
                 (if supabase env then
                    w <- get ;;
                    let expires_at := (now w + expires_in)%Q in
                    formatted_expires_at <- of_res (fromtimestamp expires_at) ;;
                    execute ;;;
                    modify (fun w =>
                      set_vk_targets
                        (map (update_target_tokens target_id new_access_token
                                new_refresh_token formatted_expires_at)
                             (vk_targets w)) w)
                  else ret tt) ;;;
                 ret new_access_token
             end
           else ret None
     end)
    (fun _ => ret None).

(** The two places where [refresh_token_if_needed] refreshes. *)
Definition refresh_and_install (target_id : Z) (target_data : vk_target)
  : M bool :=
  let refresh_token := vt_refresh_token target_data in
  new_token <- _refresh_vk_token target_id refresh_token ;;
  if truthy_str new_token then
    modify (set_access_token new_token) ;;;
    _reinitialize_client ;;;
    ret true
  else ret false.

Definition refresh_token_if_needed (target_id : Z) : M bool :=
  env <- ask ;;
  if negb (supabase env) then ret false
  else
    try_except
      (execute ;;;
       w <- get ;;
       match select_active_targets target_id w with
       | [] => ret false
       | target_data :: _ =>
           let buffer_time := 300 in
           let current_time := now w in
           match vt_expires_at target_data with
           | ExpTime expires_timestamp =>
               if Qle_bool expires_timestamp
                           (current_time + inject_Z buffer_time) then
                 refresh_and_install target_id target_data
               else
                 (if negb (opt_str_eqb (config_get_access_token (config w))
                                       (vt_access_token target_data)) then
                    modify (set_access_token (vt_access_token target_data)) ;;;
                    _reinitialize_client
                  else ret tt) ;;;
                 ret true
           | ExpMalformed => raise (mkExn ValueError "fromisoformat")
           | ExpNone => refresh_and_install target_id target_data
           end
       end)
      (fun _ => ret false).

(** [target_id = self._config.get('target_id'); if target_id: await
    self.refresh_token_if_needed(target_id)] *)
Definition refresh_configured_target : M unit :=
  w <- get ;;
  match cfg_target_id (config w) with
  | Some target_id =>
      if target_id =? 0 then ret tt
      else (_ <- refresh_token_if_needed target_id ;; ret tt)
  | None => ret tt
  end.

(** The owner id computed by [create_post] and [edit_post];
    [-abs(None)] is a [TypeError]. *)
Definition owner_id_of (c : Config) : res (option Z) :=
  match cfg_post_as_group c with
  | Some 0 => Ret (cfg_target_id c)
  | _ =>
      match cfg_target_id c with
      | Some t => Ret (Some (- Z.abs t))
      | None => Raise (mkExn TypeError "bad operand type for abs()")
      end
  end.

Definition join_attachments (attachments : option (list string)) : string :=
  match attachments with
  | Some (a :: l) => join "," (a :: l)
  | _ => ""
  end.

(** The elements of a list, if they all are [str]. *)
Fixpoint all_str (l : list (option string)) : option (list string) :=
  match l with
  | [] => Some []
  | Some a :: rest => option_map (cons a) (all_str rest)
  | None :: _ => None
  end.

(** The position of the first [None], counted from [i]. *)
Fixpoint none_index (l : list (option string)) (i : Z) : Z :=
  match l with
  | Some _ :: rest => none_index rest (i + 1)
  | _ => i
  end.

(** [','.join(attachments) if attachments else ''] for a list that may
    hold [None]: [str.join] raises [TypeError] on an item that is not a
    [str]. *)
Definition join_given (attachments : option (list (option string)))
  : res string :=
  match attachments with
  | Some (a :: l) =>
      match all_str (a :: l) with
      | Some items => Ret (join "," items)
      | None =>
          Raise (mkExn TypeError
                       ("sequence item " ++ str_of_Z (none_index (a :: l) 0)
                        ++ ": expected str instance, NoneType found"))
      end
  | _ => Ret ""
  end.

Definition create_post (text : option string)
           (attachments : option (list (option string)))
           (copyright : option string)
  : M (option Z) :=
  w <- get ;;
  if negb (api w) then ret None
  else
    refresh_configured_target ;;;
    w <- get ;;
    owner_id <- of_res (owner_id_of (config w)) ;;
    joined <- of_res (join_given attachments) ;;
    let params :=
      mkPostParams owner_id (cfg_post_as_group (config w))
                   (match text with Some t => if (t =? "")%string then "" else t
                               | None => "" end)
                   joined copyright in
    try_except
      (response <- _execute_with_retry
                     (vk_call (WallPost params)
                              (fun env h => wall_post env h params)) ;;
       match response with
       | Some r => ret (resp_post_id r)
       | None => raise (mkExn AttributeError "NoneType has no attribute get")
       end)
      (fun _ => ret None).

(** *** [upload_media] *)

Definition supported_media : list string := ["photo"; "video"; "audio"; "doc"].

(** [max_sizes.get(media_type, 100 * 1024 * 1024)] *)
Definition max_size_of (media_type : string) : Z :=
  if (media_type =? "photo")%string then 50 * 1024 * 1024
  else if (media_type =? "video")%string then 2 * 1024 * 1024 * 1024
  else if (media_type =? "audio")%string then 200 * 1024 * 1024
  else if (media_type =? "doc")%string then 200 * 1024 * 1024
  else 100 * 1024 * 1024.

(** Truth value of what [_execute_with_retry] returned. *)
Definition truthy_result (r : option upload_result) : bool :=
  match r with
  | Some (UList (_ :: _)) => true
  | Some (UDict nonempty _) => nonempty
  | _ => false
  end.

(** [d[key]] on a dict that may lack the key. *)
Definition subscript {A} (key : string) (v : option A) : res A :=
  match v with
  | Some a => Ret a
  | None => Raise (mkExn KeyError key)
  end.

Definition token (kind : string) (owner_id id : Z) : string :=
  kind ++ str_of_Z owner_id ++ "_" ++ str_of_Z id.

Definition res_bind {A B} (r : res A) (k : A -> res B) : res B :=
  match r with
  | Ret a => k a
  | Raise e => Raise e
  end.

(** The [if media_type == ... and result: return f"..."] chain. *)
Definition format_attachment (media_type : string)
           (result : option upload_result) : res (option string) :=
  if negb (truthy_result result) then Ret None
  else if (media_type =? "photo")%string then
    match result with
    | Some (UList (first :: _)) =>
        res_bind (subscript "owner_id" (mo_owner_id first)) (fun o =>
        res_bind (subscript "id" (mo_id first)) (fun i =>
        Ret (Some (token "photo" o i))))
    | _ => Raise (mkExn KeyError "0")
    end
  else if (media_type =? "video")%string then
    match result with
    | Some (UDict _ d) =>
        res_bind (subscript "owner_id" (mo_owner_id d)) (fun o =>
        res_bind (subscript "video_id" (mo_video_id d)) (fun i =>
        Ret (Some (token "video" o i))))
    | _ => Raise (mkExn TypeError "list indices must be integers")
    end
  else if (media_type =? "audio")%string then
    match result with
    | Some (UDict _ d) =>
        res_bind (subscript "owner_id" (mo_owner_id d)) (fun o =>
        res_bind (subscript "id" (mo_id d)) (fun i =>
        Ret (Some (token "audio" o i))))
    | _ => Raise (mkExn TypeError "list indices must be integers")
    end
  else if (media_type =? "doc")%string then
    match result with
    | Some (UDict _ d) =>
        res_bind (subscript "doc" (mo_doc d)) (fun doc =>
        res_bind (subscript "owner_id" (ab_owner_id doc)) (fun o =>
        res_bind (subscript "id" (ab_id doc)) (fun i =>
        Ret (Some (token "doc" o i)))))
    | _ => Raise (mkExn TypeError "list indices must be integers")
    end
  else Ret None.

Definition path_exists (path : string) (w : World) : bool :=
  existsb (String.eqb path) (fs w).

Definition upload_media (file_path media_type : string)
           (kwargs : list (string * option string)) : M (option string) :=
  w <- get ;;
  (* building [upload_methods] reads [self._upload.photo_wall] *)
  if negb (upload w) then
    raise (mkExn AttributeError "NoneType has no attribute photo_wall")
  else if negb (existsb (String.eqb media_type) supported_media) then
    raise (mkExn ValueError "unsupported media type")
  else
    try_except
      (w <- get ;;
       env <- ask ;;
       if negb (path_exists file_path w) then
         raise (mkExn FileNotFoundError file_path)
       else
         let file_size := os_getsize env (trace w) file_path in
         if file_size >? max_size_of media_type then
           raise (mkExn ValueError "file too large")
         else
           refresh_configured_target ;;;
           result <- _execute_with_retry
                       (vk_call (Upload media_type file_path kwargs)
                                (fun env h => vk_upload env h media_type file_path)) ;;
           of_res (format_attachment media_type result))
      (fun _ => ret None).

(** *** [edit_post] *)

Fixpoint assoc {A} (key : string) (d : list (string * A)) : option A :=
  match d with
  | [] => None
  | (k, v) :: rest => if (k =? key)%string then Some v else assoc key rest
  end.

(** One round of the loop over the old post's attachments.  The dict has
    its ['type'] key, so for the type name ["type"] the lookup yields a
    [str], on which [.get] is an [AttributeError]. *)
Definition attachment_token (a : attachment) : res (option string) :=
  match att_type a with
  | Some attach_type =>
      if (attach_type =? "")%string then Ret None
      else if (attach_type =? "type")%string then
        Raise (mkExn AttributeError "str has no attribute get")
      else
        match assoc attach_type (att_objects a) with
        | Some body =>
            match ab_owner_id body, ab_id body with
            | Some owner, Some attach_id =>
                if negb (owner =? 0) && negb (attach_id =? 0) then
                  Ret (Some (attach_type ++ str_of_Z owner ++ "_"
                                         ++ str_of_Z attach_id))
                else Ret None
            | _, _ => Ret None
            end
        | None => Ret None
        end
  | None => Ret None
  end.

Fixpoint collect_attachments (l : list attachment) : res (list string) :=
  match l with
  | [] => Ret []
  | a :: rest =>
      res_bind (attachment_token a) (fun o =>
      res_bind (collect_attachments rest) (fun tokens =>
      Ret (match o with Some t => t :: tokens | None => tokens end)))
  end.

Definition opt_Z_eqb (a b : option Z) : bool :=
  match a, b with
  | Some x, Some y => x =? y
  | None, None => true
  | _, _ => false
  end.

Definition get_source_link_for_edit (message_id : Z) : M string :=
  let fallback := "https://t.me/" ++ str_of_Z message_id in
  try_except
    (env <- ask ;;
     if negb (supabase env) then ret fallback
     else
       execute ;;;
       w <- get ;;
       match filter (fun r => pr_telegram_message_id r =? message_id)
                    (posts w) with
       | [] => ret fallback
       | row :: _ =>
           execute ;;;
           w <- get ;;
           match filter (fun c => opt_Z_eqb (Some (ch_id c))
                                            (pr_telegram_channel_id row))
                        (telegram_channels w) with
           | [] => ret fallback
           | channel :: _ =>
               match ch_channel_username channel with
               | Some username =>
                   if (username =? "")%string then
                     ret ("https://t.me/c/"
                            ++ (let clean_id := str_of_opt_Z (ch_channel_id channel) in
                                if startswith "-100" clean_id
                                then substring 4 (String.length clean_id - 4) clean_id
                                else clean_id)
                            ++ "/" ++ str_of_Z message_id)
                   else ret ("https://t.me/" ++ username ++ "/"
                                             ++ str_of_Z message_id)
               | None =>
                   ret ("https://t.me/c/"
                          ++ (let clean_id := str_of_opt_Z (ch_channel_id channel) in
                              if startswith "-100" clean_id
                              then substring 4 (String.length clean_id - 4) clean_id
                              else clean_id)
                          ++ "/" ++ str_of_Z message_id)
               end
           end
       end)
    (fun _ => ret fallback).

Definition edit_post (post_id : Z) (new_text : string)
           (message_id : option Z) : M bool :=
  w <- get ;;
  if negb (api w) then ret false
  else
    refresh_configured_target ;;;
    try_except
      (w <- get ;;
       owner_id <- of_res (owner_id_of (config w)) ;;
       let posts := str_of_opt_Z owner_id ++ "_" ++ str_of_Z post_id in
       old_post <- _execute_with_retry
                     (vk_call (WallGetById posts)
                              (fun env h => wall_getById env h posts)) ;;
       match old_post with
       | Some (first :: _) =>
           attachments <-
             of_res (collect_attachments
                       (match wp_attachments first with
                        | Some l => l
                        | None => []
                        end)) ;;
           source_link <-
             (match message_id with
              | Some m =>
                  if m =? 0 then ret None
                  else (l <- get_source_link_for_edit m ;; ret (Some l))
              | None => ret None
              end) ;;
           let params :=
             mkEditParams owner_id post_id new_text
                          (join_attachments (Some attachments)) source_link in
           _execute_with_retry
             (vk_call (WallEdit params) (fun env h => wall_edit env h params)) ;;;
           ret true
       | _ => ret false
       end)
      (fun _ => ret false).

(** *** The message-to-post mapping *)

(** [with open('data.txt', 'a') as f: f.write(f'{message_id}:{post_id}\n')];
    [use] tells the write of the [except] handler from the first one. *)
Definition append_data_txt (use : data_txt_use) (message_id post_id : Z)
  : M unit :=
  fun env w =>
    match data_txt_error env (trace w) use with
    | Some e => (Raise e, w)
    | None =>
        (Ret tt,
         set_data_txt
           (Some ((match data_txt w with Some l => l | None => [] end)
                    ++ [(message_id, post_id)])%list) w)
    end.

Definition same_key (message_id user_id : Z) (r : post_row) : bool :=
  (pr_telegram_message_id r =? message_id) && (pr_user_id r =? user_id).

Definition save_post_mapping (message_id post_id : Z)
           (user_id channel_id : option Z) : M bool :=
  try_except
    (env <- ask ;;
     match user_id with
     | Some u =>
         if supabase env && negb (u =? 0) then
           execute ;;;
           w <- get ;;
           let check := filter (same_key message_id u) (posts w) in
           let published_at := now w in
           match check with
           | _ :: _ =>
               execute ;;;
               modify (fun w =>
                 set_posts
                   (map (fun r =>
                           if same_key message_id u r then
                             mkPostRow (pr_telegram_message_id r) (pr_user_id r)
                               (str_of_Z post_id) "published" published_at
                               (pr_content r) (pr_media_group_id r)
                               (if truthy_int channel_id then channel_id
                                else pr_telegram_channel_id r)
                               (pr_processing_attempts r)
                           else r)
                        (posts w)) w) ;;;
               ret true
           | [] =>
               execute ;;;
               modify (fun w =>
                 set_posts
                   (posts w ++
                    [mkPostRow message_id u (str_of_Z post_id) "published"
                               published_at None None
                               (if truthy_int channel_id then channel_id
                                else None)
                               None])%list w) ;;;
               ret true
           end
         else append_data_txt DtAppend message_id post_id ;;; ret true
     | None => append_data_txt DtAppend message_id post_id ;;; ret true
     end)
    (fun _ =>
       try_except (append_data_txt DtAppendAgain message_id post_id) (fun _ => ret tt) ;;;
       ret false).

Fixpoint scan_data_txt (message_id : Z) (lines : list (Z * Z)) : option Z :=
  match lines with
  | [] => None
  | (m, p) :: rest =>
      if m =? message_id then Some p else scan_data_txt message_id rest
  end.

(** [with open('data.txt', 'r') as f: for line in f: ...] *)
Definition read_data_txt (lines : list (Z * Z)) : M (list (Z * Z)) :=
  fun env w =>
    match data_txt_error env (trace w) DtRead with
    | Some e => (Raise e, w)
    | None => (Ret lines, w)
    end.

Definition get_post_by_message_id (message_id : Z) : M (option Z) :=
  try_except
    (env <- ask ;;
     found <-
       (if supabase env then
          execute ;;;
          w <- get ;;
          match filter (fun r => pr_telegram_message_id r =? message_id)
                       (posts w) with
          | row :: _ =>
              if (pr_vk_post_id row =? "")%string then ret (Some None)
              else
                match int_of_str (pr_vk_post_id row) with
                | Some p => ret (Some (Some p))
                | None => raise (mkExn ValueError "invalid literal for int()")
                end
          | [] => ret None
          end
        else ret None) ;;
     match found with
     | Some answer => ret answer
     | None =>
         w <- get ;;
         match data_txt w with
         | Some lines =>
             lines <- read_data_txt lines ;;
             ret (scan_data_txt message_id lines)
         | None => ret None
         end
     end)
    (fun _ => ret None).

End VkClient.

(** *** Tables read by [get_channel_settings] *)

Record tc_row := mkTcRow {
  tc_id : Z;
  tc_user_id : Z;
  tc_channel_id : Z;
  tc_channel_username : option string
}.

Record cs_row := mkCsRow {
  cs_telegram_channel_id : Z;
  cs_vk_target_id : Z;
  cs_post_as_group : option Z;     (* [None]: NULL *)
  cs_is_active : bool
}.

(** A [vk_targets] row with its primary key. *)
Record target_row := mkTargetRow { tr_id : Z; tr_data : vk_target }.

Record SettingsTables := mkSettingsTables {
  tb_channels : list tc_row;
  tb_crosspost : list cs_row;
  tb_targets : list target_row
}.

(** The dict that [get_channel_settings] returns. *)
Record ChannelSettings := mkChannelSettings {
  gs_user_id : Z;
  gs_channel_username : option string;
  gs_target_id : Z;
  gs_access_token : option string;
  gs_refresh_token : option string;
  gs_expires_at : stored_expiry;
  gs_post_as_group : option Z;
  gs_channel_id : Z;
  gs_vk_target_id : Z
}.

(** ** services/database/repository.py *)

Module DatabaseRepository.

Definition same_key := VkClient.same_key.

Definition save_post_mapping (user_id telegram_message_id : Z)
           (vk_post_id : string) (telegram_channel_id : option Z)
           (content media_group_id : option string) : M bool :=
  try_except
    (env <- ask ;;
     if negb (supabase env) then ret false
     else
       execute ;;;
       w <- get ;;
       let check := filter (same_key telegram_message_id user_id) (posts w) in
       let published_at := now w in
       match check with
       | _ :: _ =>
           execute ;;;
           modify (fun w =>
             set_posts
               (map (fun r =>
                       if same_key telegram_message_id user_id r then
                         mkPostRow (pr_telegram_message_id r) (pr_user_id r)
                           vk_post_id "published" published_at
                           (if truthy_str content then content
                            else pr_content r)
                           (if truthy_str media_group_id then media_group_id
                            else pr_media_group_id r)
                           (if truthy_int telegram_channel_id
                            then telegram_channel_id
                            else pr_telegram_channel_id r)
                           (pr_processing_attempts r)
                       else r)
                    (posts w)) w) ;;;
           ret true
       | [] =>
           execute ;;;
           modify (fun w =>
             set_posts
               (posts w ++
                [mkPostRow telegram_message_id user_id vk_post_id "published"
                           published_at
                           (if truthy_str content then content else None)
                           (if truthy_str media_group_id then media_group_id
                            else None)
                           (if truthy_int telegram_channel_id
                            then telegram_channel_id else None)
                           (Some 1)])%list w) ;;;
           ret true
       end)
    (fun _ => ret false).

Definition get_post_by_message_id (telegram_message_id user_id : Z)
  : M (option post_row) :=
  try_except
    (env <- ask ;;
     if negb (supabase env) then ret None
     else
       execute ;;;
       w <- get ;;
       match filter (same_key telegram_message_id user_id) (posts w) with
       | row :: _ => ret (Some row)
       | [] => ret None
       end)
    (fun _ => ret None).

(** The [telegram_channels] rows with a given [channel_id]. *)
Definition channels_by_id (db : SettingsTables) (channel_id : Z) : list tc_row :=
  filter (fun c => tc_channel_id c =? channel_id) (tb_channels db).

Definition get_channel_settings (db : SettingsTables) (channel_id : Z)
  : M (option ChannelSettings) :=
  try_except
    (env <- ask ;;
     if negb (supabase env) then ret None
     else
       execute ;;;
       channel_response <-
         (match channels_by_id db channel_id with
          | [] =>
              if startswith "-100" (str_of_Z channel_id) then
                match int_of_str (substring 4 (String.length (str_of_Z channel_id) - 4)
                                            (str_of_Z channel_id)) with
                | Some converted_id =>
                    execute ;;; ret (channels_by_id db converted_id)
                | None => raise (mkExn ValueError "invalid literal for int()")
                end
              else
                match int_of_str ("-100" ++ str_of_Z channel_id) with
                | Some converted_id =>
                    execute ;;; ret (channels_by_id db converted_id)
                | None => raise (mkExn ValueError "invalid literal for int()")
                end
          | found => ret found
          end) ;;
       match channel_response with
       | [] => ret None
       | channel_data :: _ =>
           execute ;;;
           match filter (fun r => (cs_telegram_channel_id r =? tc_id channel_data)
                                  && cs_is_active r)
                        (tb_crosspost db) with
           | [] => ret None
           | settings_data :: _ =>
               execute ;;;
               match filter (fun r => (tr_id r =? cs_vk_target_id settings_data)
                                      && vt_is_active (tr_data r))
                            (tb_targets db) with
               | [] => ret None
               | vk_data :: _ =>
                   ret (Some (mkChannelSettings
                                (tc_user_id channel_data)
                                (tc_channel_username channel_data)
                                (vt_target_id (tr_data vk_data))
                                (vt_access_token (tr_data vk_data))
                                (vt_refresh_token (tr_data vk_data))
                                (vt_expires_at (tr_data vk_data))
                                (cs_post_as_group settings_data)
                                (tc_id channel_data)
                                (cs_vk_target_id settings_data)))
               end
           end
       end)
    (fun _ => ret None).

End DatabaseRepository.

(** ** utils/file_utils.py *)

Module FileManager.

Definition allowed_types : list string :=
  ["image/jpeg"; "image/png"; "video/mp4"; "application/pdf"; "audio/mpeg"].

Definition _validate_file_type (file_path : string) : M bool :=
  env <- ask ;;
  match guess_type env file_path with
  | Some mime => ret (existsb (String.eqb mime) allowed_types)
  | None => ret false
  end.

(** The file appears on disk. *)
Definition created (path : string) (w : World) : World :=
  if VkClient.path_exists path w then w else set_fs (path :: fs w) w.

(** The file is gone from the disk. *)
Definition unlinked (path : string) (w : World) : World :=
  set_fs (filter (fun p => negb (p =? path)%string) (fs w)) w.

(** [path.unlink()], also with [missing_ok=True]: the operating system may
    refuse (a directory, a permission). *)
Definition unlink (path : string) : M unit :=
  fun env w =>
    match unlink_error env (trace w) path with
    | Some e => (Raise e, w)
    | None => (Ret tt, unlinked path w)
    end.

Definition bot_get_file (file_id : string) : M tg_file :=
  fun env w =>
    of_res (tg_get_file env (trace w) file_id) env
           (log_event (EvGetFile file_id) w).

Definition bot_download_file (file_path destination : string) : M unit :=
  fun env w =>
    let w1 := log_event (EvDownload file_path destination) w in
    match tg_download env (trace w) file_path destination with
    | DlOk => (Ret tt, created destination w1)
    | DlRaise e file_left =>
        (Raise e, if file_left then created destination w1 else w1)
    end.

(** [open(file_path, "rb")] needs the file. *)
Definition _generate_checksum (file_path : string) : M unit :=
  w <- get ;;
  if VkClient.path_exists file_path w then ret tt
  else raise (mkExn FileNotFoundError file_path).

(** The body of the inner [try] of [download_file]. *)
Definition download_attempt (file_id destination : string) (max_size : Z)
  : M (bool * option string) :=
  file <- bot_get_file file_id ;;
  if tf_file_size file >? max_size then
    ret (false, Some "FILE_SIZE_EXCEEDED")
  else
    bot_download_file (tf_file_path file) destination ;;;
    ok <- _validate_file_type destination ;;
    if negb ok then
      unlink destination ;;;
      ret (false, Some "INVALID_FILE_TYPE")
    else
      _generate_checksum destination ;;;
      modify (fun w =>
        set_active_files
          (if existsb (String.eqb destination) (active_files w)
           then active_files w else destination :: active_files w) w) ;;;
      ret (true, None).

Fixpoint download_loop (file_id destination : string) (max_size retries : Z)
         (attempts : list Z) : M (bool * option string) :=
  match attempts with
  | [] => ret (false, Some "DOWNLOAD_FAILED")
  | attempt :: rest =>
      try_except
        (download_attempt file_id destination max_size)
        (fun e =>
           sleep (2 ^ attempt) ;;;
           if attempt =? retries - 1 then raise e
           else download_loop file_id destination max_size retries rest)
  end.

Definition download_file (file_id destination : string)
           (max_size retries : Z) : M (bool * option string) :=
  try_except
    (download_loop file_id destination max_size retries (range retries))
    (fun _ => ret (false, Some "CRITICAL_ERROR")).

(** [str(PurePosixPath(p))]: one leading slash is kept, two are kept as
    two, three or more become one; empty and ['.'] components go; an empty
    result is ['.']. *)
Definition posix_path_str (p : string) : string :=
  let root :=
    if startswith "/" p then
      if startswith "//" p && negb (startswith "///" p) then "//" else "/"
    else "" in
  let parts :=
    filter (fun x => negb (x =? "")%string && negb (x =? ".")%string)
           (split_slash p) in
  let body := join "/" parts in
  if (root =? "")%string && (body =? "")%string then "." else root ++ body.

(** [self.base_dir / filename] for [base_dir = Path('./temp_files')]: an
    absolute [filename] replaces the directory. *)
Definition in_base_dir (filename : string) : string :=
  posix_path_str (if startswith "/" filename then filename
                  else "temp_files/" ++ filename).

(** The result is the [Path], given by its [str]. *)
Definition get_temp_path (prefix : string) (suffix : option string)
  : M string :=
  fun env w =>
    let filename := prefix ++ "_" ++ uuid4_hex env (trace w) in
    let filename :=
      match suffix with
      | Some suffix =>
          if (suffix =? "")%string then filename
          else if startswith "." suffix then filename ++ suffix
               else filename ++ "." ++ suffix
      | None => filename
      end in
    (Ret (in_base_dir filename), w).

Definition cleanup (path : string) : M unit :=
  try_except
    (w <- get ;;
     if VkClient.path_exists path w then
       unlink path ;;;
       modify (fun w =>
         set_active_files
           (filter (fun p => negb (p =? path)%string) (active_files w)) w)
     else ret tt)
    (fun _ => ret tt).

(** [for file in list(self.active_files): await self.cleanup(Path(file))] *)
Fixpoint cleanup_all (files : list string) : M unit :=
  match files with
  | [] => ret tt
  | file :: rest => cleanup file ;;; cleanup_all rest
  end.

Definition emergency_cleanup : M unit :=
  w <- get ;;
  cleanup_all (active_files w).

End FileManager.

(** *** [FileManager.cleanup_old_files] *)

(** What [self.base_dir.glob('*')] yields, with what the operating system
    answers for each entry. *)
Record dir_entry := mkDirEntry {
  de_name : string;
  de_is_file : bool;          (* [file_path.is_file()] *)
  de_mtime : res Q;           (* [file_path.stat().st_mtime], or its error *)
  de_unlink : option exn      (* [file_path.unlink()] raises? *)
}.

(** The loop of [cleanup_old_files]: the count so far and the entries not
    yet visited give the final count and the entries left in the
    directory.  An error of [stat] ends the loop through the outer [try];
    an error of [unlink] is logged by the inner one. *)
Fixpoint cleanup_old_loop (current_time : Q) (max_age_seconds : Z)
         (count : Z) (entries : list dir_entry) : Z * list dir_entry :=
  match entries with
  | [] => (count, [])
  | file_path :: rest =>
      if negb (de_is_file file_path) then
        let '(n, kept) := cleanup_old_loop current_time max_age_seconds count rest in
        (n, file_path :: kept)
      else
        match de_mtime file_path with
        | Raise _ => (count, file_path :: rest)
        | Ret mtime =>
            let file_age := (current_time - mtime)%Q in
            if negb (Qle_bool file_age (inject_Z max_age_seconds)) then
              match de_unlink file_path with
              | None =>
                  cleanup_old_loop current_time max_age_seconds (count + 1) rest
              | Some _ =>
                  let '(n, kept) :=
                    cleanup_old_loop current_time max_age_seconds count rest in
                  (n, file_path :: kept)
              end
            else
              let '(n, kept) :=
                cleanup_old_loop current_time max_age_seconds count rest in
              (n, file_path :: kept)
        end
  end.

Definition cleanup_old_files (current_time : Q) (max_age_hours : Z)
           (entries : list dir_entry) : Z * list dir_entry :=
  cleanup_old_loop current_time (max_age_hours * 3600) 0 entries.

(** The module-level [download_file_with_retries]. *)
Fixpoint download_with_retries_loop (file_id destination : string)
         (retries delay : Z) (attempts : list Z) : M bool :=
  match attempts with
  | [] => ret false
  | attempt :: rest =>
      fun env w =>
        match (file <- FileManager.bot_get_file file_id ;;
               FileManager.bot_download_file (tf_file_path file) destination)
                env w with
        | (Ret _, w') => (Ret true, w')
        | (Raise _, w') =>
            ((if attempt <? retries - 1 then sleep delay else ret tt) ;;;
             download_with_retries_loop file_id destination retries delay rest)
              env w'
        end
  end.

(** [os.path.dirname(p)] is empty exactly when [p] has no ['/']. *)
Fixpoint has_slash (s : string) : bool :=
  match s with
  | EmptyString => false
  | String c s' => Ascii.eqb c "/"%char || has_slash s'
  end.

(** [os.makedirs(os.path.dirname(destination), exist_ok=True)]: an empty
    directory name is a [FileNotFoundError]; for any other name the
    operating system decides ([os_error]). *)
Definition makedirs_dirname (destination : string) (os_error : option exn)
  : M unit :=
  if has_slash destination then
    match os_error with
    | Some e => raise e
    | None => ret tt
    end
  else raise (mkExn FileNotFoundError "").

Definition download_file_with_retries (os_error : option exn)
           (file_id destination : string) (retries delay : Z) : M bool :=
  makedirs_dirname destination os_error ;;;
  download_with_retries_loop file_id destination retries delay (range retries).

(** ** handlers/telegram *)

Record Context := mkContext {
  ctx_settings : Settings;
  ctx_chat : Chat;
  ctx_source_link : string
}.

Definition newline : string := String (ascii_of_nat 10) "".

(** [s.removeprefix(p)] *)
Definition removeprefix (p s : string) : string :=
  if startswith p s then substring (String.length p)
                                   (String.length s - String.length p) s
  else s.

(** The extension of a bare name: from its last ['.'] on, if a character
    other than ['.'] comes before it. *)
Fixpoint splitext_ext (seen_other : bool) (s : string) : string :=
  match s with
  | EmptyString => ""
  | String c rest =>
      let later := splitext_ext (seen_other || negb (Ascii.eqb c "."%char)) rest in
      if (later =? "")%string then
        if Ascii.eqb c "."%char && seen_other then s else ""
      else later
  end.

(** [os.path.splitext(p)[1]]: the extension of the last component. *)
Definition splitext (p : string) : string :=
  splitext_ext false (last (split_slash p) "").

Module BaseHandler.

Definition is_user_forward (message : Message) : M bool :=
  ret (forward_from message && negb (forward_from_chat message)).

Definition generate_source_link (chat : Chat) (message_id : Z) : string :=
  match chat_username chat with
  | Some username =>
      if (username =? "")%string then
        "https://t.me/c/" ++ removeprefix "-100" (str_of_Z (chat_ident chat))
                          ++ "/" ++ str_of_Z message_id
      else "https://t.me/" ++ username ++ "/" ++ str_of_Z message_id
  | None =>
      "https://t.me/c/" ++ removeprefix "-100" (str_of_Z (chat_ident chat))
                        ++ "/" ++ str_of_Z message_id
  end.

Definition bot_get_chat (chat : Z) : M Chat :=
  fun env w =>
    of_res (tg_get_chat env (trace w) chat) env (log_event (EvGetChat chat) w).

Definition setup (message : Message) : M (option Context) :=
  try_except
    (forwarded <- is_user_forward message ;;
     if forwarded then ret None
     else
       chat <- bot_get_chat (chat_id message) ;;
       settings <- (fun env w =>
                      of_res (get_channel_settings_by_id env (trace w)
                                                         (chat_ident chat))
                             env w) ;;
       match settings with
       | Some settings =>
           if negb (st_is_active settings) then ret None
           else
             VkClient.configure (st_access_token settings)
                                (st_target_id settings)
                                (match st_post_as_group settings with
                                 | Some g => g
                                 | None => 1
                                 end) ;;;
             ret (Some (mkContext settings chat
                          (generate_source_link chat (message_id message))))
       | None => ret None
       end)
    (fun _ => ret None).

(** [f"{message.caption or ''}\n\n{file_type} доступен по ссылке: {link}"] *)
Definition oversized_text (message : Message) (file_type link : string)
  : string :=
  (match caption message with Some c => c | None => "" end)
    ++ newline ++ newline ++ file_type ++ " доступен по ссылке: " ++ link.

End BaseHandler.

Module MediaHandler.

Definition handle_oversized_file (message : Message) (context : Context)
           (file_type : string) : M (option Z) :=
  try_except
    (let text := BaseHandler.oversized_text message file_type
                                            (ctx_source_link context) in
     VkClient.create_post (Some text) None
                          (Some (ctx_source_link context)))
    (fun _ => ret None).

(** The module binds neither [refresh_token_if_needed] nor [supabase]:
    evaluating the first line of the [try] raises [NameError], which the
    [except Exception] turns into [None]. *)
Definition _publish_post (message : Message) (context : Context)
           (attachments : list (option string)) : M (option Z) :=
  try_except
    (raise (mkExn NameError "name 'refresh_token_if_needed' is not defined"))
    (fun _ => ret None).

(** What the four [_handle_*] methods share once the file is chosen. *)
Definition transfer (message : Message) (context : Context)
           (file : tg_media) (file_type prefix : string)
           (suffix : option string) (media_type : string)
           (kwargs : list (string * option string)) : M (option Z) :=
  env <- ask ;;
  if file_size file >? MAX_FILE_SIZE env then
    handle_oversized_file message context file_type
  else
    temp_path <- FileManager.get_temp_path prefix suffix ;;
    outcome <- FileManager.download_file (file_id file) temp_path
                                         (MAX_FILE_SIZE env) 3 ;;
    if negb (fst outcome) then ret None
    else
      try_finally
        (attachment <- VkClient.upload_media temp_path media_type kwargs ;;
         _publish_post message context [attachment])
        (FileManager.cleanup temp_path).

Definition _handle_photo (message : Message) (context : Context)
           (ext : option string) : M (option Z) :=
  match rev (photo message) with
  | file :: _ =>
      transfer message context file "Фото" "photo" ext "photo" []
  | [] => raise (mkExn IndexError "list index out of range")
  end.

Definition _handle_video (message : Message) (context : Context)
           (ext : option string) : M (option Z) :=
  match video message with
  | Some file =>
      transfer message context file "Видео" "video" ext "video"
               [("name", file_name file)]
  | None => raise (mkExn AttributeError "NoneType has no attribute file_size")
  end.

Definition _handle_video_note (message : Message) (context : Context)
           (ext : option string) : M (option Z) :=
  match video_note message with
  | Some file =>
      transfer message context file "Круглое видео" "video_note" ext "video"
               [("name", Some ("video_note_" ++ str_of_Z (message_id message)))]
  | None => raise (mkExn AttributeError "NoneType has no attribute file_size")
  end.

Definition _handle_document (message : Message) (context : Context)
           (ext : option string) : M (option Z) :=
  match document message with
  | Some file =>
      let file_ext :=
        match file_name file with
        | Some name => if (name =? "")%string then None
                       else Some (splitext name)
        | None => None
        end in
      transfer message context file "Документ" "document" file_ext "doc"
               [("title", file_name file)]
  | None => raise (mkExn AttributeError "NoneType has no attribute file_size")
  end.

(** [SUPPORTED_TYPES] and the [getattr(self, f'_handle_{handler_name}')]
    call. *)
Definition dispatch (message : Message) (context : Context) : M (option Z) :=
  match content_type message with
  | PHOTO => _handle_photo message context (Some "jpg")
  | VIDEO => _handle_video message context (Some "mp4")
  | DOCUMENT => _handle_document message context None
  | VIDEO_NOTE => _handle_video_note message context (Some "mp4")
  | _ => ret None
  end.

Definition handle (message : Message) : M (option Z) :=
  forwarded <- BaseHandler.is_user_forward message ;;
  if forwarded then ret None
  else
    context <- BaseHandler.setup message ;;
    match context with
    | None => ret None
    | Some context =>
        try_except (dispatch message context) (fun _ => ret None)
    end.

End MediaHandler.

Module TextHandler.

(** After [setup] the method calls [self.get_source_link], which no class
    defines. *)
Definition handle (message : Message) : M unit :=
  settings <- BaseHandler.setup message ;;
  match settings with
  | None => ret tt
  | Some _ =>
      raise (mkExn AttributeError
                   "'TextHandler' object has no attribute 'get_source_link'")
  end.

End TextHandler.

Module EditedHandler.

Definition max_edit_attempts : Z := 3.

(** The [for attempt in range(self.max_edit_attempts)] loop. *)
Fixpoint edit_loop (post_id : Z) (new_text : string) (attempts : list Z)
  : M bool :=
  match attempts with
  | [] => ret false
  | attempt :: rest =>
      fun env w =>
        match VkClient.edit_post post_id new_text None env w with
        | (Ret true, w') => (Ret true, w')
        | (_, w') =>
            if attempt =? max_edit_attempts - 1 then (Ret false, w')
            else (sleep (2 ^ attempt) ;;; edit_loop post_id new_text rest)
                   env w'
        end
  end.

Definition new_text_of (message : Message) : string :=
  match text message with
  | Some t => if (t =? "")%string
              then match caption message with Some c => c | None => "" end
              else t
  | None => match caption message with Some c => c | None => "" end
  end.

(** [self._get_settings(message)]: neither [EditedHandler] nor
    [BaseHandler] defines the method, so looking it up raises
    [AttributeError]. *)
Definition _get_settings (message : Message) : M (option Settings) :=
  raise (mkExn AttributeError
               "'EditedHandler' object has no attribute '_get_settings'").

(** [self.config.get_post_mapping(message_id)]: [Config] has no such
    method either. *)
Definition get_post_mapping (message_id : Z) : M (option Z) :=
  raise (mkExn AttributeError
               "'Config' object has no attribute 'get_post_mapping'").

Definition handle (message : Message) : M bool :=
  settings <- _get_settings message ;;
  match settings with
  | None => ret false
  | Some _ =>
      try_except
        (post_id <- get_post_mapping (message_id message) ;;
         match post_id with
         | Some post_id =>
             if post_id =? 0 then ret false
             else edit_loop post_id (new_text_of message)
                            (range max_edit_attempts)
         | None => ret false
         end)
        (fun _ => ret false)
  end.

End EditedHandler.

(** ** Predicates used in the statements *)

Fixpoint all_chars (f : ascii -> bool) (s : string) : bool :=
  match s with
  | EmptyString => true
  | String c s' => f c && all_chars f s'
  end.

Definition not_space (c : ascii) : bool := negb (is_space c).

(** A relation between the world before and after a computation that holds
    across no step at all and composes. *)
Class StepRel (R : World -> World -> Prop) : Prop := {
  step_refl : forall w, R w w;
  step_trans : forall a b c, R a b -> R b c -> R a c
}.

(** [m] relates every start world to its end world by [R], whatever the
    environment answers and whether [m] returns or raises. *)
Definition respects {A} (R : World -> World -> Prop) (m : M A) : Prop :=
  forall env w r w', m env w = (r, w') -> R w w'.

(** The history grows by events that all satisfy [P]. *)
Definition ext (P : event -> Prop) (w w' : World) : Prop :=
  exists evs, trace w' = (trace w ++ evs)%list /\ Forall P evs.

(** The component [f] of the world is unchanged. *)
Definition keeps {X} (f : World -> X) (w w' : World) : Prop := f w' = f w.

(** The flag [f] stays set once set. *)
Definition mono (f : World -> bool) (w w' : World) : Prop :=
  f w = true -> f w' = true.

Definition both (R1 R2 : World -> World -> Prop) (w w' : World) : Prop :=
  R1 w w' /\ R2 w w'.

(** A list of attachment tokens as an argument of [create_post]. *)
Definition strings (attachments : option (list string))
  : option (list (option string)) :=
  option_map (map Some) attachments.

(** What [create_post] sends: [text or ''], the joined attachments and the
    source link, under the owner id the configuration gives. *)
Definition post_params_of (c : Config) (owner_id : option Z)
           (text : option string) (attachments : option (list string))
           (copyright : option string) : post_params :=
  mkPostParams owner_id (cfg_post_as_group c)
               (match text with Some t => t | None => "" end)
               (VkClient.join_attachments attachments) copyright.

(** Events [create_post] may produce when it submits [params]. *)
Definition post_event (params : post_params) (e : event) : Prop :=
  match e with
  | EvSleep _ | EvHttpRefresh _ => True
  | EvVk req => req = WallPost params
  | _ => False
  end.

(** ** A concrete environment and start state, for examples *)

(** Settings of an active channel that posts as page 100. *)
Definition demo_settings : Settings :=
  mkSettings 7 (-1001234) true (Some "tok") 100 (Some 1).

(** The store is reachable, the network answers every call and [wall.post]
    returns post id 77. *)
Definition calm_env : Env :=
  mkEnv true (Some "51234567") (Some "s3cr3t") (100 * 1024 * 1024) 3
        (fun _ => None)
        (fun _ _ => None)
        (fun _ _ => Ret (mkPostResponse (Some 77)))
        (fun _ _ => Ret [mkVkPost None])
        (fun _ _ => Ret tt)
        (fun _ _ _ => Ret (UList [mkMediaObj (Some (-100)) (Some 5) None None]))
        (fun _ _ => Ret (mkHttpResponse 200
                           (Some (mkTokenBody (Some "fresh") (Some "r2") None))))
        (fun _ _ => Ret (mkTgFile 1024 "photos/file_1.jpg"))
        (fun _ _ _ => DlOk)
        (fun _ _ => 1024)
        (fun _ => Some "image/jpeg")
        (fun _ => "0a1b2c3d")
        (fun _ c => Ret (mkChat c (Some "newsroom")))
        (fun _ _ => Ret (Some demo_settings))
        (fun _ _ => None)
        (fun _ _ => None).

(** A client straight out of [__init__], empty tables, empty disk. *)
Definition new_world : World :=
  mkWorld false false empty_config [] [] [] None [] [] 0%Q [].

(** The loop of [_execute_with_retry] when it is about to run attempt [i]. *)
Definition attempts_from (maxr i : Z) : list Z :=
  skipn (Z.to_nat i) (range maxr).

(** [VK_CLIENT_ID] and [VK_CLIENT_SECRET] are both set. *)
Definition identity_configured (env : Env) : bool :=
  truthy_str (VK_CLIENT_ID env) && truthy_str (VK_CLIENT_SECRET env).

(** Number of requests sent to the identity provider. *)
Fixpoint http_refresh_calls (evs : list event) : nat :=
  match evs with
  | [] => 0%nat
  | EvHttpRefresh _ :: rest => S (http_refresh_calls rest)
  | _ :: rest => http_refresh_calls rest
  end.

(** Number of [wall.edit] requests in a history. *)
Fixpoint wall_edit_calls (evs : list event) : nat :=
  match evs with
  | [] => 0%nat
  | EvVk (WallEdit _) :: rest => S (wall_edit_calls rest)
  | _ :: rest => wall_edit_calls rest
  end.

(** As [calm_env], but VK answers the first two [wall.post] requests with
    a flood-control [VkApiError]. *)
Definition stormy_env : Env :=
  mkEnv true (Some "51234567") (Some "s3cr3t") (100 * 1024 * 1024) 3
        (fun _ => None)
        (fun _ _ => None)
        (fun h _ => if (List.length h <? 3)%nat
                    then Raise (mkExn VkApiError "flood control")
                    else Ret (mkPostResponse (Some 77)))
        (fun _ _ => Ret [mkVkPost None])
        (fun _ _ => Ret tt)
        (fun _ _ _ => Ret (UList [mkMediaObj (Some (-100)) (Some 5) None None]))
        (fun _ _ => Ret (mkHttpResponse 200
                           (Some (mkTokenBody (Some "fresh") (Some "r2") None))))
        (fun _ _ => Ret (mkTgFile 1024 "photos/file_1.jpg"))
        (fun _ _ _ => DlOk)
        (fun _ _ => 1024)
        (fun _ => Some "image/jpeg")
        (fun _ => "0a1b2c3d")
        (fun _ c => Ret (mkChat c (Some "newsroom")))
        (fun _ _ => Ret (Some demo_settings))
        (fun _ _ => None)
        (fun _ _ => None).

Definition hello_params : post_params :=
  mkPostParams (Some (-100)) (Some 1) "hello" "" None.

Definition post_hello : M post_response :=
  vk_call (WallPost hello_params) (fun env h => wall_post env h hello_params).

(** Whether [refresh_token_if_needed] takes a refreshing branch for a
    credential read at time [t]. *)
Definition refresh_due (cred : vk_target) (t : Q) : bool :=
  match vt_expires_at cred with
  | ExpTime expiry => Qle_bool expiry (t + inject_Z 300)
  | ExpNone => true
  | ExpMalformed => false
  end.

(** As [calm_env], but the application's client id is not set. *)
Definition anonymous_env : Env :=
  mkEnv true None (Some "s3cr3t") (100 * 1024 * 1024) 3
        (fun _ => None)
        (fun _ _ => None)
        (fun _ _ => Ret (mkPostResponse (Some 77)))
        (fun _ _ => Ret [mkVkPost None])
        (fun _ _ => Ret tt)
        (fun _ _ _ => Ret (UList [mkMediaObj (Some (-100)) (Some 5) None None]))
        (fun _ _ => Ret (mkHttpResponse 200
                           (Some (mkTokenBody (Some "fresh") (Some "r2") None))))
        (fun _ _ => Ret (mkTgFile 1024 "photos/file_1.jpg"))
        (fun _ _ _ => DlOk)
        (fun _ _ => 1024)
        (fun _ => Some "image/jpeg")
        (fun _ => "0a1b2c3d")
        (fun _ c => Ret (mkChat c (Some "newsroom")))
        (fun _ _ => Ret (Some demo_settings))
        (fun _ _ => None)
        (fun _ _ => None).

(** An active credential for target 100 that expires 299 seconds after the
    clock of [world_299]. *)
Definition cred_299 : vk_target :=
  mkVkTarget 100 true (Some "tok") (Some "r1") (ExpTime (1299 # 1)).

Definition world_299 : World :=
  mkWorld true true (mkConfig (Some (Some "tok")) (Some 100) (Some 1))
          [cred_299] [] [] None [] [] (1000 # 1) [].

(** The single attachment of a media message, with the name the handler
    gives its kind: [message.photo[-1]], [message.video],
    [message.video_note] or [message.document]. *)
Definition selected_file (message : Message) : option (tg_media * string) :=
  match content_type message with
  | PHOTO => match rev (photo message) with
             | file :: _ => Some (file, "Фото")
             | [] => None
             end
  | VIDEO => option_map (fun f => (f, "Видео")) (video message)
  | DOCUMENT => option_map (fun f => (f, "Документ")) (document message)
  | VIDEO_NOTE => option_map (fun f => (f, "Круглое видео")) (video_note message)
  | _ => None
  end.

(** Events of the oversized-file fallback: waiting, refreshing the
    credential, and [wall.post] requests that carry [text], no attachment
    and [link] as the source. *)
Definition fallback_event (text link : string) (e : event) : Prop :=
  match e with
  | EvSleep _ | EvHttpRefresh _ => True
  | EvVk (WallPost p) =>
      pp_message p = text /\ pp_attachments p = "" /\ pp_copyright p = Some link
  | _ => False
  end.

(** A channel message forwarded from a user account, and an ordinary one. *)
Definition forwarded_message : Message :=
  mkMessage 41 (-1001234) None (Some "look") true false PHOTO
            [mkTgMedia "AgAD1" 2048 None] None None None.

Definition big_photo_message : Message :=
  mkMessage 42 (-1001234) None (Some "big one") false false PHOTO
            [mkTgMedia "AgAD1" 2048 None; mkTgMedia "AgAD2" (200 * 1024 * 1024) None]
            None None None.

(** As [calm_env], but the first two [wall.edit] requests fail with a
    connection error, which is not a [VkApiError]. *)
Definition shaky_env : Env :=
  mkEnv true (Some "51234567") (Some "s3cr3t") (100 * 1024 * 1024) 3
        (fun _ => None)
        (fun _ _ => None)
        (fun _ _ => Ret (mkPostResponse (Some 77)))
        (fun _ _ => Ret [mkVkPost None])
        (fun h _ => if (wall_edit_calls h <? 2)%nat
                    then Raise (mkExn ConnectionError "connection reset")
                    else Ret tt)
        (fun _ _ _ => Ret (UList [mkMediaObj (Some (-100)) (Some 5) None None]))
        (fun _ _ => Ret (mkHttpResponse 200
                           (Some (mkTokenBody (Some "fresh") (Some "r2") None))))
        (fun _ _ => Ret (mkTgFile 1024 "photos/file_1.jpg"))
        (fun _ _ _ => DlOk)
        (fun _ _ => 1024)
        (fun _ => Some "image/jpeg")
        (fun _ => "0a1b2c3d")
        (fun _ c => Ret (mkChat c (Some "newsroom")))
        (fun _ _ => Ret (Some demo_settings))
        (fun _ _ => None)
        (fun _ _ => None).

(** A client configured for page 100, nothing else. *)
Definition configured_world : World :=
  mkWorld true true (mkConfig (Some (Some "tok")) (Some 100) (Some 1))
          [] [] [] None [] [] 0%Q [].

Definition edited_message : Message :=
  mkMessage 42 (-1001234) (Some "fixed typo") None false false TEXT
            [] None None None.

(** [env] with another [wall.edit]. *)
Definition with_wall_edit (f : history -> edit_params -> res unit) (env : Env)
  : Env :=
  mkEnv (supabase env) (VK_CLIENT_ID env) (VK_CLIENT_SECRET env)
        (MAX_FILE_SIZE env) (max_retries env) (db_exec env) (vk_session env)
        (wall_post env) (wall_getById env) f (vk_upload env) (http_refresh env)
        (tg_get_file env) (tg_download env) (os_getsize env) (guess_type env)
        (uuid4_hex env) (tg_get_chat env) (get_channel_settings_by_id env)
        (unlink_error env) (data_txt_error env).

(** [env] with another identity provider. *)
Definition with_http_refresh
           (f : history -> option string -> res http_response) (env : Env)
  : Env :=
  mkEnv (supabase env) (VK_CLIENT_ID env) (VK_CLIENT_SECRET env)
        (MAX_FILE_SIZE env) (max_retries env) (db_exec env) (vk_session env)
        (wall_post env) (wall_getById env) (wall_edit env) (vk_upload env) f
        (tg_get_file env) (tg_download env) (os_getsize env) (guess_type env)
        (uuid4_hex env) (tg_get_chat env) (get_channel_settings_by_id env)
        (unlink_error env) (data_txt_error env).

(** [env] with another answer to [unlink]. *)
Definition with_unlink_error (f : history -> string -> option exn) (env : Env)
  : Env :=
  mkEnv (supabase env) (VK_CLIENT_ID env) (VK_CLIENT_SECRET env)
        (MAX_FILE_SIZE env) (max_retries env) (db_exec env) (vk_session env)
        (wall_post env) (wall_getById env) (wall_edit env) (vk_upload env)
        (http_refresh env) (tg_get_file env) (tg_download env) (os_getsize env)
        (guess_type env) (uuid4_hex env) (tg_get_chat env)
        (get_channel_settings_by_id env) f (data_txt_error env).

(** [env] with another answer to the opening of [data.txt]. *)
Definition with_data_txt_error (f : history -> data_txt_use -> option exn)
           (env : Env)
  : Env :=
  mkEnv (supabase env) (VK_CLIENT_ID env) (VK_CLIENT_SECRET env)
        (MAX_FILE_SIZE env) (max_retries env) (db_exec env) (vk_session env)
        (wall_post env) (wall_getById env) (wall_edit env) (vk_upload env)
        (http_refresh env) (tg_get_file env) (tg_download env) (os_getsize env)
        (guess_type env) (uuid4_hex env) (tg_get_chat env)
        (get_channel_settings_by_id env) (unlink_error env) f.

(** [env] with another [wall.getById]. *)
Definition with_wall_getById (f : history -> string -> res (list vk_post))
           (env : Env) : Env :=
  mkEnv (supabase env) (VK_CLIENT_ID env) (VK_CLIENT_SECRET env)
        (MAX_FILE_SIZE env) (max_retries env) (db_exec env) (vk_session env)
        (wall_post env) f (wall_edit env) (vk_upload env) (http_refresh env)
        (tg_get_file env) (tg_download env) (os_getsize env) (guess_type env)
        (uuid4_hex env) (tg_get_chat env) (get_channel_settings_by_id env)
        (unlink_error env) (data_txt_error env).

(** [env] with another [bot.download_file]. *)
Definition with_tg_download (f : history -> string -> string -> download_outcome)
           (env : Env) : Env :=
  mkEnv (supabase env) (VK_CLIENT_ID env) (VK_CLIENT_SECRET env)
        (MAX_FILE_SIZE env) (max_retries env) (db_exec env) (vk_session env)
        (wall_post env) (wall_getById env) (wall_edit env) (vk_upload env)
        (http_refresh env) (tg_get_file env) f (os_getsize env) (guess_type env)
        (uuid4_hex env) (tg_get_chat env) (get_channel_settings_by_id env)
        (unlink_error env) (data_txt_error env).

(** VK answers the first two [wall.edit] requests with a [VkApiError]. *)
Definition flood_env : Env :=
  with_wall_edit
    (fun h _ => if (wall_edit_calls h <? 2)%nat
                then Raise (mkExn VkApiError "flood control")
                else Ret tt)
    calm_env.

(** The [posts] rows stored under a (source message, user) key. *)
Definition rows_for (message_id user_id : Z) (w : World) : list post_row :=
  filter (VkClient.same_key message_id user_id) (posts w).

(** A store in which message 42 of user 7 is already mapped to post 500. *)
Definition mapped_world : World :=
  mkWorld true true (mkConfig (Some (Some "tok")) (Some 100) (Some 1))
          []
          [mkPostRow 42 7 "500" "published" 0%Q None None None (Some 1);
           mkPostRow 43 7 "501" "published" 0%Q None None None (Some 1)]
          [] None [] [] (5 # 1) [].

(** No key has more than one row. *)
Definition single_keyed (w : World) : Prop :=
  forall message_id user_id,
    (List.length (rows_for message_id user_id w) <= 1)%nat.

(** As [calm_env], but the connection drops during every download, after
    [bot.download_file] has opened the destination for writing. *)
Definition dropping_env : Env :=
  with_tg_download
    (fun _ _ _ => DlRaise (mkExn ConnectionError "connection lost") true)
    calm_env.

Definition small_photo_message : Message :=
  mkMessage 43 (-1001234) None (Some "small") false false PHOTO
            [mkTgMedia "AgAD1" 2048 None] None None None.

Definition demo_context : Context :=
  mkContext demo_settings (mkChat (-1001234) (Some "newsroom"))
            "https://t.me/newsroom/43".

(** No download ever raises after it has created its destination. *)
Definition no_partial_download (env : Env) : Prop :=
  forall h p d e, tg_download env h p d <> DlRaise e true.

(** No [unlink] is refused by the operating system. *)
Definition unlink_never_fails (env : Env) : Prop :=
  forall h p, unlink_error env h p = None.

(** The attachments of an existing post that an edit carries over: those
    whose object under their type name has a non-zero owner id and a
    non-zero id, rendered [<type><owner_id>_<id>]. *)
Definition kept_token (a : attachment) : option string :=
  match att_type a with
  | Some t =>
      match VkClient.assoc t (att_objects a) with
      | Some body =>
          match ab_owner_id body, ab_id body with
          | Some o, Some i =>
              if (t =? "")%string || (o =? 0) || (i =? 0) then None
              else Some (t ++ str_of_Z o ++ "_" ++ str_of_Z i)
          | _, _ => None
          end
      | None => None
      end
  | None => None
  end.

Definition kept_tokens (l : list attachment) : list string :=
  flat_map (fun a => match kept_token a with Some t => [t] | None => [] end) l.

Definition attachments_of (p : vk_post) : list attachment :=
  match wp_attachments p with
  | Some l => l
  | None => []
  end.

(** A post with a link and a photo. *)
Definition post_with_link : vk_post :=
  mkVkPost (Some [mkAttachment (Some "link") [("link", mkAttachBody None None)];
                  mkAttachment (Some "photo")
                               [("photo", mkAttachBody (Some (-100)) (Some 5))]]).

Definition link_env : Env :=
  with_wall_getById (fun _ _ => Ret [post_with_link]) calm_env.

(** A client whose API object exists has a target id in its configuration
    (true of a new client and after [configure]). *)
Definition client_ok (w : World) : Prop :=
  api w = true -> cfg_target_id (config w) <> None.

Definition client_ok_stays (w w' : World) : Prop := client_ok w -> client_ok w'.

(** ** Predicates and examples for the further properties *)

(** [cleanup] removes [p]: the file is there and the operating system lets
    it be unlinked. *)
Definition cleanup_removes (env : Env) (w : World) (p : string) : bool :=
  VkClient.path_exists p w
  && match unlink_error env (trace w) p with
     | None => true
     | Some _ => false
     end.

(** The suffix as [get_temp_path] appends it: with one leading dot, and
    nothing at all for [None] and for the empty string. *)
Definition dotted (suffix : option string) : string :=
  match suffix with
  | Some s =>
      if (s =? "")%string then ""
      else if startswith "." s then s else "." ++ s
  | None => ""
  end.

(** [k] failed attempts in a row, the first one numbered [first]: each is
    the call followed by a sleep of [2^attempt] seconds. *)
Fixpoint failed_attempts (call : event) (first : Z) (k : nat) : list event :=
  match k with
  | O => []
  | S k' => call :: EvSleep (2 ^ first) :: failed_attempts call (first + 1) k'
  end.

(** [env] with another [max_retries]. *)
Definition with_max_retries (n : Z) (env : Env) : Env :=
  mkEnv (supabase env) (VK_CLIENT_ID env) (VK_CLIENT_SECRET env)
        (MAX_FILE_SIZE env) n (db_exec env) (vk_session env)
        (wall_post env) (wall_getById env) (wall_edit env) (vk_upload env)
        (http_refresh env) (tg_get_file env) (tg_download env) (os_getsize env)
        (guess_type env) (uuid4_hex env) (tg_get_chat env)
        (get_channel_settings_by_id env) (unlink_error env)
        (data_txt_error env).

(** The event is a request to the identity provider. *)
Definition is_http_refresh (e : event) : Prop :=
  exists rt, e = EvHttpRefresh rt.

(** The lifetime [_refresh_vk_token] gives a new token:
    [data.get("expires_in", 3300)]. *)
Definition lifetime_of (data : token_body) : Q :=
  match tb_expires_in data with
  | Some d => d
  | None => inject_Z 3300
  end.

(** The rows of [vk_targets] that a refresh for [target_id] does not
    select. *)
Definition other_targets (target_id : Z) (w : World) : list vk_target :=
  filter (fun r => negb ((vt_target_id r =? target_id) && vt_is_active r))
         (vk_targets w).

(** The lines of [data.txt]; a missing file has none. *)
Definition lines_of (w : World) : list (Z * Z) :=
  match data_txt w with
  | Some l => l
  | None => []
  end.

(** The [posts] rows of a source message, whoever owns them. *)
Definition rows_of_message (message_id : Z) (w : World) : list post_row :=
  filter (fun r => pr_telegram_message_id r =? message_id) (posts w).

(** As [calm_env], without a settings store. *)
Definition storeless_env : Env :=
  mkEnv false (VK_CLIENT_ID calm_env) (VK_CLIENT_SECRET calm_env)
        (MAX_FILE_SIZE calm_env) (max_retries calm_env) (db_exec calm_env)
        (vk_session calm_env) (wall_post calm_env) (wall_getById calm_env)
        (wall_edit calm_env) (vk_upload calm_env) (http_refresh calm_env)
        (tg_get_file calm_env) (tg_download calm_env) (os_getsize calm_env)
        (guess_type calm_env) (uuid4_hex calm_env) (tg_get_chat calm_env)
        (get_channel_settings_by_id calm_env) (unlink_error calm_env)
        (data_txt_error calm_env).

(** As [calm_env], with a settings store that fails on every query. *)
Definition broken_store_env : Env :=
  mkEnv true (VK_CLIENT_ID calm_env) (VK_CLIENT_SECRET calm_env)
        (MAX_FILE_SIZE calm_env) (max_retries calm_env)
        (fun _ => Some (mkExn ConnectionError "store unreachable"))
        (vk_session calm_env) (wall_post calm_env) (wall_getById calm_env)
        (wall_edit calm_env) (vk_upload calm_env) (http_refresh calm_env)
        (tg_get_file calm_env) (tg_download calm_env) (os_getsize calm_env)
        (guess_type calm_env) (uuid4_hex calm_env) (tg_get_chat calm_env)
        (get_channel_settings_by_id calm_env) (unlink_error calm_env)
        (data_txt_error calm_env).

(** A store with one private channel and a post of it. *)
Definition channel_world : World :=
  mkWorld true true (mkConfig (Some (Some "tok")) (Some 100) (Some 1))
          []
          [mkPostRow 42 7 "500" "published" 0%Q None None (Some 3) (Some 1)]
          [mkChannelRow 3 (Some (-1001234)) None]
          None [] [] (5 # 1) [].

(** The error codes of [FileManager.download_file]. *)
Definition download_codes : list string :=
  ["FILE_SIZE_EXCEEDED"; "INVALID_FILE_TYPE"; "DOWNLOAD_FAILED"; "CRITICAL_ERROR"].

(** The sleeps of a history, in order. *)
Fixpoint sleeps_of (evs : list event) : list Z :=
  match evs with
  | [] => []
  | EvSleep secs :: rest => secs :: sleeps_of rest
  | _ :: rest => sleeps_of rest
  end.

(** Number of [bot.get_file] calls in a history. *)
Fixpoint get_file_calls (evs : list event) : nat :=
  match evs with
  | [] => 0%nat
  | EvGetFile _ :: rest => S (get_file_calls rest)
  | _ :: rest => get_file_calls rest
  end.

(** The file type of [path] is one the file manager accepts. *)
Definition type_allowed (env : Env) (path : string) : Prop :=
  exists mime, guess_type env path = Some mime
               /\ In mime FileManager.allowed_types.

(** [env] with another [bot.get_file]. *)
Definition with_tg_get_file (f : history -> string -> res tg_file) (env : Env)
  : Env :=
  mkEnv (supabase env) (VK_CLIENT_ID env) (VK_CLIENT_SECRET env)
        (MAX_FILE_SIZE env) (max_retries env) (db_exec env) (vk_session env)
        (wall_post env) (wall_getById env) (wall_edit env) (vk_upload env)
        (http_refresh env) f (tg_download env) (os_getsize env) (guess_type env)
        (uuid4_hex env) (tg_get_chat env) (get_channel_settings_by_id env)
        (unlink_error env) (data_txt_error env).

(** Telegram does not know the file. *)
Definition lost_file_env : Env :=
  with_tg_get_file (fun _ _ => Raise (mkExn ConnectionError "file not found"))
                   calm_env.

(** The event is not a [wall.post] request. *)
Definition not_wall_post (e : event) : Prop :=
  match e with
  | EvVk (WallPost _) => False
  | _ => True
  end.

(** The event is not a [wall.edit] request. *)
Definition not_wall_edit (e : event) : Prop :=
  match e with
  | EvVk (WallEdit _) => False
  | _ => True
  end.

(** [settings.get("post_as_group", 1)] *)
Definition post_as_group_of (s : Settings) : Z :=
  match st_post_as_group s with
  | Some g => g
  | None => 1
  end.

(** The message is a forward from a user account. *)
Definition user_forward (message : Message) : bool :=
  forward_from message && negb (forward_from_chat message).

(** Tables with one private channel, stored under its full id, linked to
    an active target. *)
Definition demo_tables : SettingsTables :=
  mkSettingsTables
    [mkTcRow 3 7 (-1001234) None]
    [mkCsRow 3 11 (Some 1) true]
    [mkTargetRow 11 (mkVkTarget 100 true (Some "tok") (Some "r1") ExpNone)].

(** A regular file older than [max_age_hours] at [current_time]. *)
Definition is_old (current_time : Q) (max_age_hours : Z) (e : dir_entry) : bool :=
  de_is_file e
  && match de_mtime e with
     | Ret mtime =>
         negb (Qle_bool (current_time - mtime) (inject_Z (max_age_hours * 3600)))
     | Raise _ => false
     end.

(** [stat] and [unlink] succeed on the entry. *)
Definition entry_ok (e : dir_entry) : Prop :=
  (exists mtime, de_mtime e = Ret mtime) /\ de_unlink e = None.

(** * Properties *)

(** ** Rendering integers *)

Lemma lstrip_no_space s : all_chars not_space s = true -> lstrip s = s.
Proof.
  destruct s as [|c s]; simpl; [reflexivity|].
  unfold not_space at 1. intros H. apply andb_true_iff in H as [Hc _].
  apply negb_true_iff in Hc. now rewrite Hc.
Qed.

Lemma rstrip_no_space s : all_chars not_space s = true -> rstrip s = s.
Proof.
  induction s as [|c s IH]; simpl; [reflexivity|].
  unfold not_space at 1. intros H. apply andb_true_iff in H as [Hc Hs].
  apply negb_true_iff in Hc. rewrite (IH Hs), Hc. now destruct s.
Qed.

Lemma strip_no_space s : all_chars not_space s = true -> strip s = s.
Proof.
  intros H. unfold strip. rewrite (lstrip_no_space _ H). now apply rstrip_no_space.
Qed.

Lemma uint_no_space d :
  all_chars not_space (NilEmpty.string_of_uint d) = true.
Proof. induction d; simpl; auto. Qed.

Lemma str_of_Z_no_space z : all_chars not_space (str_of_Z z) = true.
Proof.
  unfold str_of_Z.
  destruct z as [|p|p]; simpl; [reflexivity| |];
    unfold NilZero.string_of_uint;
    destruct (Pos.to_uint p) eqn:E; try reflexivity;
    rewrite <- E; try apply uint_no_space;
    rewrite E; simpl; apply (uint_no_space u).
Qed.

Lemma int_of_str_of_Z z : int_of_str (str_of_Z z) = Some z.
Proof.
  unfold int_of_str, str_of_Z.
  rewrite NilZero.isi.
  - simpl. now rewrite DecimalZ.of_to.
  - destruct z; simpl; try discriminate.
    intros H. injection H as H. now apply DecimalPos.Unsigned.to_uint_nonnil in H.
  - destruct z; simpl; try discriminate.
    intros H. injection H as H. now apply DecimalPos.Unsigned.to_uint_nonnil in H.
Qed.

Lemma startswith_minus z : startswith "-" (str_of_Z z) = (z <? 0).
Proof.
  unfold startswith, str_of_Z.
  destruct z as [|p|p]; try reflexivity;
    cbn [Z.to_int NilZero.string_of_int]; unfold NilZero.string_of_uint;
    destruct (Pos.to_uint p) eqn:E; reflexivity.
Qed.

Lemma format_owner_id_spec t : format_owner_id t = - Z.abs t.
Proof.
  unfold format_owner_id.
  rewrite (strip_no_space _ (str_of_Z_no_space t)).
  rewrite startswith_minus, int_of_str_of_Z.
  destruct (Z.ltb_spec t 0); lia.
Qed.

(** ** Reasoning about monadic code *)

Section Respects.
Context (R : World -> World -> Prop) `{HR : StepRel R}.

Lemma respects_ret {A} (a : A) : respects R (ret a).
Proof. intros env w r w' H. inversion H; subst. apply step_refl. Qed.

Lemma respects_raise {A} (e : exn) : respects R (@raise A e).
Proof. intros env w r w' H. inversion H; subst. apply step_refl. Qed.

Lemma respects_ask : respects R ask.
Proof. intros env w r w' H. inversion H; subst. apply step_refl. Qed.

Lemma respects_get : respects R get.
Proof. intros env w r w' H. inversion H; subst. apply step_refl. Qed.

Lemma respects_of_res {A} (x : res A) : respects R (of_res x).
Proof. destruct x; [apply respects_ret | apply respects_raise]. Qed.

Lemma respects_execute : respects R execute.
Proof.
  intros env w r w' H. unfold execute in H.
  destruct (db_exec env (trace w)); inversion H; subst; apply step_refl.
Qed.

Lemma respects_modify f : (forall w, R w (f w)) -> respects R (modify f).
Proof. intros Hf env w r w' H. inversion H; subst. apply Hf. Qed.

Lemma respects_bind {A B} (m : M A) (k : A -> M B) :
  respects R m -> (forall a, respects R (k a)) -> respects R (bind m k).
Proof.
  intros Hm Hk env w r w' H. unfold bind in H.
  destruct (m env w) as [[a|e] w1] eqn:E.
  - eapply step_trans; [eapply Hm, E | eapply Hk, H].
  - inversion H; subst. eapply Hm, E.
Qed.

Lemma respects_try_except {A} (m : M A) (h : exn -> M A) :
  respects R m -> (forall e, respects R (h e)) -> respects R (try_except m h).
Proof.
  intros Hm Hh env w r w' H. unfold try_except in H.
  destruct (m env w) as [[a|e] w1] eqn:E.
  - inversion H; subst. eapply Hm, E.
  - eapply step_trans; [eapply Hm, E | eapply Hh, H].
Qed.

Lemma respects_try_finally {A} (m : M A) (c : M unit) :
  respects R m -> respects R c -> respects R (try_finally m c).
Proof.
  intros Hm Hc env w r w' H. unfold try_finally in H.
  destruct (m env w) as [r1 w1] eqn:E.
  destruct (c env w1) as [[u|e] w2] eqn:E2; inversion H; subst;
    (eapply step_trans; [eapply Hm, E | eapply Hc, E2]).
Qed.

Lemma respects_sleep secs :
  (forall w, R w (slept secs w)) -> respects R (sleep secs).
Proof. apply respects_modify. Qed.

End Respects.

(** *** The relations used below *)

#[export] Instance ext_StepRel P : StepRel (ext P).
Proof.
  split.
  - intros w. exists []. now rewrite app_nil_r.
  - intros a b c [e1 [H1 F1]] [e2 [H2 F2]]. exists (e1 ++ e2)%list. split.
    + now rewrite H2, H1, app_assoc.
    + apply Forall_app. now split.
Qed.

#[export] Instance keeps_StepRel {X} (f : World -> X) : StepRel (keeps f).
Proof.
  split; unfold keeps; [reflexivity | intros a b c H1 H2; congruence].
Qed.

#[export] Instance mono_StepRel f : StepRel (mono f).
Proof. split; unfold mono; auto. Qed.

#[export] Instance both_StepRel R1 R2 `{StepRel R1} `{StepRel R2} :
  StepRel (both R1 R2).
Proof.
  split.
  - intros w. split; apply step_refl.
  - intros a b c [H1 H2] [H3 H4]. split; eapply step_trans; eauto.
Qed.

Lemma respects_elim {A} R (m : M A) env w r w' :
  respects R m -> m env w = (r, w') -> R w w'.
Proof. intros H E. exact (H env w r w' E). Qed.

Lemma respects_both {A} R1 R2 (m : M A) :
  respects R1 m -> respects R2 m -> respects (both R1 R2) m.
Proof. intros H1 H2 env w r w' H. split; eauto. Qed.

Lemma ext_log P e w : P e -> ext P w (log_event e w).
Proof. intros H. exists [e]. split; [reflexivity | now constructor]. Qed.

Lemma ext_slept P secs w : P (EvSleep secs) -> ext P w (slept secs w).
Proof. intros H. exists [EvSleep secs]. split; [reflexivity | now constructor]. Qed.

Lemma ext_same_trace P w w' : trace w' = trace w -> ext P w w'.
Proof. intros H. exists []. now rewrite app_nil_r. Qed.

Lemma ext_weaken (P Q : event -> Prop) w w' :
  (forall e, P e -> Q e) -> ext P w w' -> ext Q w w'.
Proof.
  intros H [evs [E F]]. exists evs. split; [exact E|].
  eapply Forall_impl; eauto.
Qed.

Section RespectsCalls.
Context (R : World -> World -> Prop) `{HR : StepRel R}.

Lemma respects_vk_call {A} req (answer : Env -> history -> res A) :
  (forall w, R w (log_event (EvVk req) w)) -> respects R (vk_call req answer).
Proof.
  intros Hl env w r w' H. unfold vk_call in H.
  destruct (answer env (trace w)); inversion H; subst; apply Hl.
Qed.

Lemma respects_http_get rt :
  (forall w, R w (log_event (EvHttpRefresh rt) w)) ->
  respects R (VkClient.http_get_access_token rt).
Proof.
  intros Hl env w r w' H. unfold VkClient.http_get_access_token in H.
  destruct (http_refresh env (trace w) rt); inversion H; subst; apply Hl.
Qed.

Lemma respects_unlink path :
  (forall w, R w (FileManager.unlinked path w)) ->
  respects R (FileManager.unlink path).
Proof.
  intros Hl env w r w' H. unfold FileManager.unlink in H.
  destruct (unlink_error env (trace w) path); inversion H; subst;
    [apply step_refl | apply Hl].
Qed.

Lemma respects_retry_loop {A} (func : M A) maxr attempts :
  respects R func -> (forall secs w, R w (slept secs w)) ->
  respects R (VkClient.retry_loop func maxr attempts).
Proof.
  intros Hf Hs. induction attempts as [|attempt rest IH].
  - apply (respects_ret R).
  - intros env w r w' H. simpl in H.
    destruct (func env w) as [[a|e] w1] eqn:E.
    + inversion H; subst. eapply Hf, E.
    + destruct (is_VkApiError e).
      * destruct (attempt =? maxr - 1).
        -- inversion H; subst. eapply Hf, E.
        -- eapply step_trans; [eapply Hf, E|].
           revert H. apply (respects_bind R); [now apply (respects_sleep R)|].
           intros _. exact IH.
      * inversion H; subst. eapply Hf, E.
Qed.

Lemma respects_execute_with_retry {A} (func : M A) :
  respects R func -> (forall secs w, R w (slept secs w)) ->
  respects R (VkClient._execute_with_retry func).
Proof.
  intros Hf Hs. apply (respects_bind R); [apply (respects_ask R)|].
  intros env. now apply respects_retry_loop.
Qed.

End RespectsCalls.

(** One structural step of a [respects] goal. *)
Ltac respects_step :=
  lazymatch goal with
  | |- respects ?R (ret _) => apply (respects_ret R)
  | |- respects ?R (raise _) => apply (respects_raise R)
  | |- respects ?R ask => apply (respects_ask R)
  | |- respects ?R get => apply (respects_get R)
  | |- respects ?R execute => apply (respects_execute R)
  | |- respects ?R (of_res _) => apply (respects_of_res R)
  | |- respects ?R (bind _ _) => apply (respects_bind R); [|intro]
  | |- respects ?R (try_except _ _) => apply (respects_try_except R); [|intro]
  | |- respects ?R (try_finally _ _) => apply (respects_try_finally R)
  | |- respects ?R (modify _) => apply (respects_modify R); intro
  | |- respects ?R (sleep _) => apply (respects_sleep R); intro
  | |- respects ?R (VkClient.http_get_access_token _) =>
      apply (respects_http_get R); intro
  | |- respects ?R (vk_call _ _) => apply (respects_vk_call R); intro
  | |- respects ?R (FileManager.unlink _) => apply (respects_unlink R); intro
  | |- respects ?R (VkClient._execute_with_retry _) =>
      apply (respects_execute_with_retry R); [|intros ? ?]
  | |- respects _ (match ?x with _ => _ end) => destruct x
  | |- respects _ _ => progress cbv beta zeta
  end.

Ltac respects_auto := repeat respects_step.

Ltac unfold_refresh :=
  unfold VkClient.refresh_configured_target, VkClient.refresh_token_if_needed,
    VkClient.refresh_and_install, VkClient._refresh_vk_token,
    VkClient._reinitialize_client.

(** ** Credential refresh: what it may touch *)

(** The only interaction of a refresh is the request to the identity
    provider. *)
Lemma refresh_ext (P : event -> Prop) target_id :
  (forall rt, P (EvHttpRefresh rt)) ->
  respects (ext P) (VkClient.refresh_token_if_needed target_id).
Proof.
  intros HP. unfold_refresh. respects_auto;
    solve [ apply ext_same_trace; reflexivity | apply ext_log, HP ].
Qed.

(** A refresh replaces the access token only. *)
Lemma refresh_keeps_target target_id :
  respects (keeps (fun w => (cfg_target_id (config w), cfg_post_as_group (config w))))
           (VkClient.refresh_token_if_needed target_id).
Proof. unfold_refresh. respects_auto; reflexivity. Qed.

Lemma refresh_keeps_disk target_id :
  respects (keeps (fun w => (fs w, active_files w, posts w, data_txt w)))
           (VkClient.refresh_token_if_needed target_id).
Proof. unfold_refresh. respects_auto; reflexivity. Qed.

Lemma refresh_mono_api target_id :
  respects (both (mono api) (mono upload))
           (VkClient.refresh_token_if_needed target_id).
Proof.
  unfold_refresh. respects_auto;
    solve [ split; intros H; simpl; auto ].
Qed.

Lemma respects_refresh_configured R `{StepRel R} :
  (forall t, respects R (VkClient.refresh_token_if_needed t)) ->
  respects R VkClient.refresh_configured_target.
Proof.
  intros Ht. unfold VkClient.refresh_configured_target.
  respects_auto; apply Ht.
Qed.

(** ** C1: the owner id of a submitted post *)

Lemma configure_ok access_token t pag env w w1 :
  VkClient.configure access_token t pag env w = (Ret tt, w1) ->
  config w1 = mkConfig (Some access_token) (Some (Z.abs t)) (Some pag)
  /\ api w1 = true /\ upload w1 = true /\ t <> 0
  /\ truthy_str access_token = true /\ trace w1 = trace w.
Proof.
  unfold VkClient.configure.
  destruct (truthy_str access_token) eqn:Ht; simpl; [|discriminate].
  destruct (Z.eqb_spec t 0) as [->|Hz]; simpl; [discriminate|].
  unfold bind, modify, VkClient._reinitialize_client, get, ask, bind. simpl.
  destruct (vk_session env (trace w) access_token); simpl; [discriminate|].
  intros H. inversion H; subst; clear H. simpl.
  repeat split; auto.
  destruct (pag =? 1); [rewrite format_owner_id_spec|];
    f_equal; f_equal; lia.
Qed.

(** [configure] rejects a zero target id and an empty token. *)
Lemma configure_rejects access_token t pag env w :
  truthy_str access_token = false \/ t = 0 ->
  VkClient.configure access_token t pag env w =
    (Raise (mkExn ValueError "bad VK configuration"), w).
Proof.
  unfold VkClient.configure. intros [H | ->].
  - now rewrite H.
  - now rewrite andb_false_r.
Qed.

Lemma text_or_empty (text : option string) :
  match text with Some t => if (t =? "")%string then "" else t | None => "" end
  = match text with Some t => t | None => "" end.
Proof.
  destruct text as [t|]; [|reflexivity].
  destruct (String.eqb_spec t ""); congruence.
Qed.

Lemma all_str_strings l : VkClient.all_str (map Some l) = Some l.
Proof.
  induction l as [|a l IH]; [reflexivity|]. cbn [map VkClient.all_str].
  now rewrite IH.
Qed.

Lemma join_given_strings atts :
  VkClient.join_given (strings atts) = Ret (VkClient.join_attachments atts).
Proof.
  destruct atts as [[|a l]|]; try reflexivity.
  unfold strings, VkClient.join_given. cbn [option_map map].
  change (Some a :: map Some l) with (map Some (a :: l)).
  now rewrite all_str_strings.
Qed.

Lemma all_str_inv l items :
  VkClient.all_str l = Some items -> l = map Some items.
Proof.
  revert items. induction l as [|[a|] l IH]; intros items H;
    cbn [VkClient.all_str] in H.
  - now injection H as <-.
  - destruct (VkClient.all_str l) as [rest|]; [|discriminate].
    injection H as <-. cbn [map]. now rewrite (IH rest eq_refl).
  - discriminate.
Qed.

(** [','.join] goes through only on attachments that are strings. *)
Lemma join_given_inv atts joined :
  VkClient.join_given atts = Ret joined -> exists l, atts = strings l.
Proof.
  destruct atts as [[|a l]|]; intros H.
  - now exists (Some []).
  - unfold VkClient.join_given in H.
    destruct (VkClient.all_str (a :: l)) as [items|] eqn:E; [|discriminate].
    exists (Some items). cbn [strings option_map].
    now rewrite (all_str_inv _ _ E).
  - now exists None.
Qed.

(** When [','.join] raises, [create_post] has at most refreshed the
    credential. *)
Lemma create_post_not_joined text atts cr env w r w2 e :
  VkClient.join_given atts = Raise e ->
  VkClient.create_post text atts cr env w = (r, w2) ->
  ext (fun ev => exists rt, ev = EvHttpRefresh rt) w w2.
Proof.
  intros J H. unfold VkClient.create_post in H.
  unfold bind at 1, get at 1 in H.
  destruct (api w); cbn [negb] in H.
  2:{ injection H as <- <-. apply step_refl. }
  unfold bind at 1 in H.
  destruct (VkClient.refresh_configured_target env w) as [[[]|e0] w1] eqn:E.
  2:{ injection H as <- <-.
      eapply (respects_refresh_configured (ext _)); [|exact E].
      intros t. apply refresh_ext. intros rt. now exists rt. }
  assert (X : ext (fun ev => exists rt, ev = EvHttpRefresh rt) w w1).
  { eapply (respects_refresh_configured (ext _)); [|exact E].
    intros t. apply refresh_ext. intros rt. now exists rt. }
  unfold bind at 1, get at 1 in H.
  destruct (VkClient.owner_id_of (config w1)) as [o|e0];
    cbn [of_res] in H; unfold bind at 1 in H;
    [unfold ret at 1 in H | unfold raise at 1 in H].
  - rewrite J in H. cbn [of_res] in H. unfold bind at 1, raise at 1 in H.
    injection H as <- <-. exact X.
  - injection H as <- <-. exact X.
Qed.

Lemma create_post_events text atts cr env w r w2 owner_id :
  VkClient.create_post text (strings atts) cr env w = (r, w2) ->
  VkClient.owner_id_of (config w) = Ret owner_id ->
  ext (post_event (post_params_of (config w) owner_id text atts cr)) w w2.
Proof.
  unfold VkClient.create_post. rewrite join_given_strings. intros H Ho.
  unfold bind at 1, get at 1 in H.
  destruct (api w); [|inversion H; subst; apply step_refl]. simpl in H.
  unfold bind at 1 in H.
  destruct (VkClient.refresh_configured_target env w) as [[[]|e] w1] eqn:E.
  2:{ inversion H; subst.
      eapply (respects_refresh_configured (ext _)); [|exact E].
      intros t. apply refresh_ext. now intros. }
  assert (K : keeps (fun w => (cfg_target_id (config w),
                                cfg_post_as_group (config w))) w w1).
  { eapply (respects_refresh_configured (keeps _)); [|exact E].
    apply refresh_keeps_target. }
  unfold keeps in K. injection K as K1 K2.
  eapply step_trans.
  { eapply (respects_refresh_configured (ext _)); [|exact E].
    intros t. apply refresh_ext. now intros. }
  unfold bind at 1, get at 1 in H.
  assert (Ho1 : VkClient.owner_id_of (config w1) = Ret owner_id).
  { unfold VkClient.owner_id_of in *. now rewrite K1, K2. }
  rewrite Ho1 in H. unfold bind at 1 in H. simpl in H.
  rewrite text_or_empty, K2 in H.
  unfold bind at 1, ret at 1 in H.
  unfold post_params_of.
  eapply respects_elim; [|exact H].
  respects_auto; try (apply ext_same_trace; reflexivity);
    try (apply ext_log; reflexivity); apply ext_slept; exact I.
Qed.

Lemma range_pos n : 0 < n -> exists rest, range n = 0 :: rest.
Proof.
  intros H. unfold range.
  destruct (Z.to_nat n) as [|k] eqn:E; [lia|].
  simpl. eauto.
Qed.

(** With at least one attempt allowed, the wrapped call is made. *)
Lemma execute_with_retry_calls {A} req (answer : Env -> history -> res A)
      env w r w' :
  0 < max_retries env ->
  VkClient._execute_with_retry (vk_call req answer) env w = (r, w') ->
  exists evs, trace w' = (trace w ++ EvVk req :: evs)%list.
Proof.
  intros Hpos H. unfold VkClient._execute_with_retry, bind, ask in H.
  destruct (range_pos _ Hpos) as [rest Hr]. rewrite Hr in H.
  cbn [VkClient.retry_loop] in H. unfold vk_call at 1 in H.
  destruct (answer env (trace w)) as [a|e]; cbn [of_res ret raise] in H.
  - inversion H; subst. exists []. reflexivity.
  - destruct (is_VkApiError e); [destruct (0 =? max_retries env - 1)|];
      try (inversion H; subst; exists []; reflexivity).
    assert (X : ext (fun _ => True) (log_event (EvVk req) w) w').
    { eapply respects_elim; [|exact H].
      respects_step; [respects_step; now apply ext_slept|].
      apply (respects_retry_loop (ext _)).
      - respects_step. now apply ext_log.
      - intros. now apply ext_slept. }
    destruct X as [evs [X _]]. simpl in X. exists evs.
    now rewrite X, <- app_assoc.
Qed.

Lemma ext_In P w w' :
  ext P w w' ->
  exists evs, trace w' = (trace w ++ evs)%list /\ forall e, In e evs -> P e.
Proof.
  intros [evs [E F]]. exists evs. split; [exact E|].
  now apply Forall_forall.
Qed.

(** Code under [try: ... except Exception: return a] does not raise. *)
Lemma try_except_ret_returns {A} (m : M A) (a : exn -> A) env w e w' :
  try_except m (fun x => ret (a x)) env w <> (Raise e, w').
Proof.
  unfold try_except, ret. destruct (m env w) as [[]]; discriminate.
Qed.

Lemma refresh_returns t env w e w' :
  VkClient.refresh_token_if_needed t env w <> (Raise e, w').
Proof.
  unfold VkClient.refresh_token_if_needed, bind, ask.
  destruct (negb (supabase env)); [discriminate|].
  apply (try_except_ret_returns _ (fun _ => false)).
Qed.

Lemma refresh_configured_returns env w e w' :
  VkClient.refresh_configured_target env w <> (Raise e, w').
Proof.
  unfold VkClient.refresh_configured_target, bind, get.
  destruct (cfg_target_id (config w)) as [t|]; [|discriminate].
  destruct (t =? 0); [discriminate|].
  destruct (VkClient.refresh_token_if_needed t env w) as [[b|e1] w1] eqn:E;
    [discriminate|].
  now apply refresh_returns in E.
Qed.

Lemma create_post_submits text atts cr env w r w2 owner_id :
  VkClient.create_post text (strings atts) cr env w = (r, w2) ->
  VkClient.owner_id_of (config w) = Ret owner_id ->
  api w = true -> 0 < max_retries env ->
  exists evs1 evs2,
    trace w2 =
      (trace w ++ evs1 ++
       EvVk (WallPost (post_params_of (config w) owner_id text atts cr)) :: evs2)%list.
Proof.
  unfold VkClient.create_post. rewrite join_given_strings.
  intros H Ho Ha Hpos.
  unfold bind at 1, get at 1 in H. rewrite Ha in H. simpl in H.
  unfold bind at 1 in H.
  destruct (VkClient.refresh_configured_target env w) as [[[]|e] w1] eqn:E.
  2:{ now apply refresh_configured_returns in E. }
  assert (K : keeps (fun w => (cfg_target_id (config w),
                                cfg_post_as_group (config w))) w w1).
  { eapply (respects_refresh_configured (keeps _)); [|exact E].
    apply refresh_keeps_target. }
  unfold keeps in K. injection K as K1 K2.
  assert (X : ext (fun _ => True) w w1).
  { eapply (respects_refresh_configured (ext _)); [|exact E].
    intros t. apply refresh_ext. now intros. }
  destruct X as [evs1 [X _]].
  unfold bind at 1, get at 1 in H.
  assert (Ho1 : VkClient.owner_id_of (config w1) = Ret owner_id).
  { unfold VkClient.owner_id_of in *. now rewrite K1, K2. }
  rewrite Ho1 in H. unfold bind at 1 in H. simpl in H.
  rewrite text_or_empty, K2 in H.
  unfold bind at 1, ret at 1 in H.
  unfold try_except, bind in H.
  match type of H with context [VkClient._execute_with_retry ?f env w1] =>
    destruct (VkClient._execute_with_retry f env w1) as [r1 w3] eqn:E3 end.
  apply execute_with_retry_calls in E3 as [evs2 E3]; [|assumption].
  assert (trace w2 = trace w3) as ->.
  { destruct r1 as [[resp|]|e]; inversion H; reflexivity. }
  exists evs1, evs2. now rewrite E3, X, <- app_assoc.
Qed.

(** C1. After [configure(token, t, post_as_group)] has succeeded, every
    [wall.post] request that [create_post] submits carries owner id
    [-abs(t)] in post-as-page mode ([post_as_group = 1]) and [abs(t)] in
    post-as-account mode ([post_as_group = 0]), whatever the sign of [t];
    and when the client is allowed at least one attempt and the attachments
    are strings (or none), such a request is submitted. *)
Theorem C1_owner_id_sign env w access_token t post_as_group w1 text atts cr r w2 :
  VkClient.configure access_token t post_as_group env w = (Ret tt, w1) ->
  VkClient.create_post text atts cr env w1 = (r, w2) ->
  exists evs,
    trace w2 = (trace w1 ++ evs)%list
    /\ (post_as_group = 1 ->
        forall p, In (EvVk (WallPost p)) evs -> pp_owner_id p = Some (- Z.abs t))
    /\ (post_as_group = 0 ->
        forall p, In (EvVk (WallPost p)) evs -> pp_owner_id p = Some (Z.abs t))
    /\ (0 < max_retries env -> (exists l, atts = strings l) ->
        exists p, In (EvVk (WallPost p)) evs).
Proof.
  intros Hc Hp.
  destruct (VkClient.join_given atts) as [joined|e] eqn:J.
  - destruct (join_given_inv _ _ J) as [l ->]. clear J.
    destruct (configure_ok _ _ _ _ _ _ Hc) as (Hcfg & Hapi & _ & Ht & _ & _).
    set (owner := if post_as_group =? 0 then Z.abs t else - Z.abs t).
    assert (Ho : VkClient.owner_id_of (config w1) = Ret (Some owner)).
    { rewrite Hcfg. unfold VkClient.owner_id_of, owner. simpl.
      destruct post_as_group; simpl; try reflexivity;
        do 3 f_equal; lia. }
    destruct (ext_In _ _ _ (create_post_events _ _ _ _ _ _ _ _ Hp Ho))
      as [evs [E F]].
    exists evs. split; [exact E|]. repeat split.
    + intros -> p Hin. specialize (F _ Hin). simpl in F.
      injection F as ->. reflexivity.
    + intros -> p Hin. specialize (F _ Hin). simpl in F.
      injection F as ->. reflexivity.
    + intros Hpos _.
      destruct (create_post_submits _ _ _ _ _ _ _ _ Hp Ho Hapi Hpos)
        as [e1 [e2 E2]].
      rewrite E2 in E. apply app_inv_head in E. subst evs.
      eexists. apply in_or_app. right. left. reflexivity.
  - destruct (ext_In _ _ _ (create_post_not_joined _ _ _ _ _ _ _ _ J Hp))
      as [evs [E F]].
    exists evs. split; [exact E|]. repeat split.
    + intros _ p Hin. destruct (F _ Hin) as [rt C]. discriminate.
    + intros _ p Hin. destruct (F _ Hin) as [rt C]. discriminate.
    + intros _ [l ->]. rewrite join_given_strings in J. discriminate.
Qed.

Lemma C1_owner_id_sign_witness :
  let w1 := snd (VkClient.configure (Some "tok") 100 1 calm_env new_world) in
  let w2 := snd (VkClient.create_post (Some "hello") None None calm_env w1) in
  exists evs,
    trace w2 = (trace w1 ++ evs)%list
    /\ (1 = 1 ->
        forall p, In (EvVk (WallPost p)) evs -> pp_owner_id p = Some (- Z.abs 100))
    /\ (1 = 0 ->
        forall p, In (EvVk (WallPost p)) evs -> pp_owner_id p = Some (Z.abs 100))
    /\ (0 < max_retries calm_env -> (exists l, None = strings l) ->
        exists p, In (EvVk (WallPost p)) evs).
Proof.
  intros w1 w2.
  apply (C1_owner_id_sign calm_env new_world (Some "tok") 100 1 w1
           (Some "hello") None None (Ret (Some 77)) w2); reflexivity.
Defined.

(** ** C7: the retry helper *)

Lemma range_nth maxr i :
  0 <= i < maxr -> attempts_from maxr i = i :: attempts_from maxr (i + 1).
Proof.
  intros H. unfold attempts_from, range.
  rewrite !skipn_map, !skipn_seq.
  replace (Z.to_nat (i + 1)) with (S (Z.to_nat i)) by lia.
  replace (Z.to_nat maxr - Z.to_nat i)%nat
    with (S (Z.to_nat maxr - S (Z.to_nat i))) by lia.
  simpl. f_equal. lia.
Qed.

Lemma execute_with_retry_unfold {A} (func : M A) env w :
  VkClient._execute_with_retry func env w =
  VkClient.retry_loop func (max_retries env)
                      (attempts_from (max_retries env) 0) env w.
Proof. reflexivity. Qed.

(** C7. [_execute_with_retry] runs the attempts [0 .. max_retries-1] in
    order.  At attempt [i]: a result is returned at once; a [VkApiError] on
    an attempt that is not the last is followed by a sleep of [1 * 2^i]
    seconds and by attempt [i+1]; a [VkApiError] on the last attempt reaches
    the caller unchanged; any other exception reaches the caller unchanged
    without sleep or retry. *)
Theorem C7_retry_discipline {A} (func : M A) env w i out w1 :
  0 <= i < max_retries env ->
  func env w = (out, w1) ->
  let maxr := max_retries env in
  VkClient._execute_with_retry func env w =
    VkClient.retry_loop func maxr (attempts_from maxr 0) env w
  /\ VkClient.retry_loop func maxr (attempts_from maxr i) env w =
     match out with
     | Ret a => (Ret (Some a), w1)
     | Raise e =>
         if is_VkApiError e then
           if i <? maxr - 1 then
             VkClient.retry_loop func maxr (attempts_from maxr (i + 1)) env
                                 (slept (1 * 2 ^ i) w1)
           else (Raise e, w1)
         else (Raise e, w1)
     end.
Proof.
  intros Hi Hf maxr. subst maxr. split; [reflexivity|].
  rewrite (range_nth _ _ Hi). cbn [VkClient.retry_loop]. rewrite Hf.
  destruct out as [a|e]; [reflexivity|].
  destruct (is_VkApiError e); [|reflexivity].
  destruct (Z.eqb_spec i (max_retries env - 1)) as [Heq|Hne].
  - destruct (Z.ltb_spec i (max_retries env - 1)); [lia|reflexivity].
  - destruct (Z.ltb_spec i (max_retries env - 1)); [|lia].
    rewrite Z.mul_1_l. reflexivity.
Qed.

Lemma C7_retry_discipline_witness :
  VkClient._execute_with_retry post_hello stormy_env new_world =
    VkClient.retry_loop post_hello 3 (attempts_from 3 0) stormy_env new_world
  /\ VkClient.retry_loop post_hello 3 (attempts_from 3 0) stormy_env new_world =
     VkClient.retry_loop post_hello 3 (attempts_from 3 (0 + 1)) stormy_env
       (slept (1 * 2 ^ 0) (log_event (EvVk (WallPost hello_params)) new_world)).
Proof.
  apply (C7_retry_discipline post_hello stormy_env new_world 0
           (Raise (mkExn VkApiError "flood control"))
           (log_event (EvVk (WallPost hello_params)) new_world)).
  - simpl. lia.
  - reflexivity.
Defined.

(** The whole run of the example: two failures, sleeps of 1 and 2 seconds,
    success on the third attempt. *)
Example retry_two_failures_then_success :
  let '(r, w) := VkClient._execute_with_retry post_hello stormy_env new_world in
  r = Ret (Some (mkPostResponse (Some 77)))
  /\ trace w = [EvVk (WallPost hello_params); EvSleep 1;
                EvVk (WallPost hello_params); EvSleep 2;
                EvVk (WallPost hello_params)].
Proof. vm_compute. split; reflexivity. Qed.

(** ** C2: when the identity provider is called *)

(** Run a hypothesis [H : m env w = (r, w')] by cases on what the code
    inspects. *)
Ltac run_cases H :=
  unfold of_res in H; unfold ret, raise, modify in H; cbv beta iota in H;
  repeat (match type of H with
          | context [match ?x with _ => _ end] =>
              lazymatch x with
              | context [match _ with _ => _ end] => fail
              | _ => destruct x eqn:?
              end
          end; cbv beta iota in H).

Ltac pairs_inv :=
  repeat match goal with
         | E : (_, _) = (_, _) |- _ => inversion E; subst; clear E
         end.

Lemma refresh_vk_token_trace env w t cred rest r w' :
  supabase env = true ->
  db_exec env (trace w) = None ->
  VkClient.select_active_targets t w = cred :: rest ->
  VkClient._refresh_vk_token t (vt_refresh_token cred) env w = (r, w') ->
  trace w' =
    (trace w ++ if identity_configured env
                then [EvHttpRefresh (vt_refresh_token cred)] else [])%list.
Proof.
  intros Hs Hdb Hsel H.
  unfold VkClient._refresh_vk_token, try_except, bind, ask, execute, get,
    VkClient.http_get_access_token, identity_configured in *.
  rewrite Hs in H. rewrite andb_true_r in H.
  destruct (truthy_str (vt_refresh_token cred)); cbn [negb] in H;
    rewrite ?Hdb, ?Hsel in H;
    destruct (truthy_str (VK_CLIENT_ID env)),
             (truthy_str (VK_CLIENT_SECRET env));
    cbn [negb orb andb] in H |- *;
    try (inversion H; subst; now rewrite app_nil_r);
    run_cases H; pairs_inv; reflexivity.
Qed.

Lemma refresh_and_install_trace env w t cred rest r w' :
  supabase env = true ->
  db_exec env (trace w) = None ->
  VkClient.select_active_targets t w = cred :: rest ->
  VkClient.refresh_and_install t cred env w = (r, w') ->
  trace w' =
    (trace w ++ if identity_configured env
                then [EvHttpRefresh (vt_refresh_token cred)] else [])%list.
Proof.
  intros Hs Hdb Hsel H. unfold VkClient.refresh_and_install, bind in H.
  destruct (VkClient._refresh_vk_token t (vt_refresh_token cred) env w)
    as [[tok|e] w1] eqn:E;
    apply (refresh_vk_token_trace _ _ _ _ _ _ _ Hs Hdb Hsel) in E;
    rewrite <- E; clear E.
  - unfold VkClient._reinitialize_client, bind, get, ask in H.
    run_cases H; pairs_inv; reflexivity.
  - now inversion H.
Qed.

(** The exact interaction of one call of [refresh_token_if_needed] on a
    stored, active credential. *)
Lemma refresh_trace env w t cred rest r w' :
  supabase env = true ->
  db_exec env (trace w) = None ->
  VkClient.select_active_targets t w = cred :: rest ->
  VkClient.refresh_token_if_needed t env w = (r, w') ->
  trace w' =
    (trace w ++ if refresh_due cred (now w) && identity_configured env
                then [EvHttpRefresh (vt_refresh_token cred)] else [])%list.
Proof.
  intros Hs Hdb Hsel H.
  unfold VkClient.refresh_token_if_needed, bind at 1, ask in H.
  rewrite Hs in H. cbn [negb] in H.
  unfold try_except, bind at 1, execute in H. rewrite Hdb in H.
  unfold bind at 1, get in H. rewrite Hsel in H.
  unfold refresh_due.
  destruct (vt_expires_at cred) as [|expiry|].
  - cbn [andb].
    destruct (VkClient.refresh_and_install t cred env w) as [[b|e] w1] eqn:E;
      apply (refresh_and_install_trace _ _ _ _ _ _ _ Hs Hdb Hsel) in E;
      rewrite <- E; now inversion H.
  - destruct (Qle_bool expiry (now w + inject_Z 300)); cbn [andb].
    + destruct (VkClient.refresh_and_install t cred env w) as [[b|e] w1] eqn:E;
        apply (refresh_and_install_trace _ _ _ _ _ _ _ Hs Hdb Hsel) in E;
        rewrite <- E; now inversion H.
    + rewrite app_nil_r.
      unfold VkClient._reinitialize_client, bind, get, ask in H.
      run_cases H; pairs_inv; reflexivity.
  - cbn [andb]. rewrite app_nil_r. now inversion H.
Qed.

Lemma http_refresh_calls_one rt : http_refresh_calls [EvHttpRefresh rt] = 1%nat.
Proof. reflexivity. Qed.

(** Without the application's client id or secret a refresh gives up before
    any request, and leaves everything as it was. *)
Lemma refresh_vk_token_unconfigured env w t cred rest :
  supabase env = true ->
  db_exec env (trace w) = None ->
  VkClient.select_active_targets t w = cred :: rest ->
  identity_configured env = false ->
  VkClient._refresh_vk_token t (vt_refresh_token cred) env w = (Ret None, w).
Proof.
  intros Hs Hdb Hsel Hid.
  unfold VkClient._refresh_vk_token, try_except, bind, ask, execute, get,
    identity_configured in *.
  rewrite Hs. rewrite andb_true_r.
  destruct (truthy_str (vt_refresh_token cred)); cbn [negb];
    rewrite ?Hdb, ?Hsel;
    destruct (truthy_str (VK_CLIENT_ID env)),
             (truthy_str (VK_CLIENT_SECRET env));
    try discriminate; reflexivity.
Qed.

Lemma refresh_unconfigured_fails env w t cred rest :
  supabase env = true ->
  db_exec env (trace w) = None ->
  VkClient.select_active_targets t w = cred :: rest ->
  identity_configured env = false ->
  refresh_due cred (now w) = true ->
  VkClient.refresh_token_if_needed t env w = (Ret false, w).
Proof.
  intros Hs Hdb Hsel Hid Hdue.
  pose proof (refresh_vk_token_unconfigured _ _ _ _ _ Hs Hdb Hsel Hid) as R.
  unfold VkClient.refresh_token_if_needed, bind at 1, ask.
  rewrite Hs. cbn [negb].
  unfold try_except, bind at 1, execute. rewrite Hdb.
  unfold bind at 1, get. rewrite Hsel.
  unfold refresh_due in Hdue.
  destruct (vt_expires_at cred) as [|expiry|]; [| |discriminate].
  - unfold VkClient.refresh_and_install, bind at 1. now rewrite R.
  - rewrite Hdue. unfold VkClient.refresh_and_install, bind at 1. now rewrite R.
Qed.

(** C2 (amended). For a stored, active credential read from a store that
    answers: when the application's client id and secret are configured, the
    identity provider is called exactly once if [now + 300 >= expiry] and not
    at all otherwise (so not at 301 seconds before expiry, once at 299), and
    exactly once when the credential has no expiry; when the client id or
    the secret is missing the provider is never called, and the refresh of
    a credential that is due ([now + 300 >= expiry], or no expiry) fails:
    [refresh_token_if_needed] returns [False] and changes nothing. *)
Theorem C2_refresh_call_condition env w t cred rest r w' :
  supabase env = true ->
  db_exec env (trace w) = None ->
  VkClient.select_active_targets t w = cred :: rest ->
  VkClient.refresh_token_if_needed t env w = (r, w') ->
  exists evs,
    trace w' = (trace w ++ evs)%list
    /\ (identity_configured env = true ->
        (forall expiry, vt_expires_at cred = ExpTime expiry ->
           (http_refresh_calls evs = 1%nat <-> (now w + inject_Z 300 >= expiry)%Q)
           /\ (http_refresh_calls evs = 0%nat <-> ~ (now w + inject_Z 300 >= expiry)%Q)
           /\ ((expiry - now w == inject_Z 301)%Q -> evs = [])
           /\ ((expiry - now w == inject_Z 299)%Q ->
               evs = [EvHttpRefresh (vt_refresh_token cred)]))
        /\ (vt_expires_at cred = ExpNone ->
            evs = [EvHttpRefresh (vt_refresh_token cred)]))
    /\ (identity_configured env = false ->
        evs = []
        /\ (refresh_due cred (now w) = true -> r = Ret false /\ w' = w)).
Proof.
  intros Hs Hdb Hsel H.
  pose proof (refresh_trace _ _ _ _ _ _ _ Hs Hdb Hsel H) as E.
  eexists. split; [exact E|]. split.
  - intros ->. rewrite andb_true_r. split.
    + intros expiry Hexp. unfold refresh_due. rewrite Hexp.
      destruct (Qle_bool expiry (now w + inject_Z 300)) eqn:Q.
      * apply Qle_bool_iff in Q. repeat split; try tauto; try discriminate.
        intros H1. exfalso. unfold inject_Z in *. lra.
      * assert (~ (expiry <= now w + inject_Z 300)%Q) as N.
        { intros C. apply Qle_bool_iff in C. congruence. }
        repeat split; try tauto; try discriminate.
        intros H1. exfalso. unfold inject_Z in *. lra.
    + intros Hexp. unfold refresh_due. now rewrite Hexp.
  - intros Hid. split.
    + rewrite Hid. now rewrite andb_false_r.
    + intros Hdue.
      rewrite (refresh_unconfigured_fails _ _ _ _ _ Hs Hdb Hsel Hid Hdue) in H.
      now inversion H.
Qed.

Lemma C2_refresh_call_condition_witness :
  exists evs,
    trace (snd (VkClient.refresh_token_if_needed 100 calm_env world_299)) =
      (trace world_299 ++ evs)%list
    /\ (identity_configured calm_env = true ->
        (forall expiry, vt_expires_at cred_299 = ExpTime expiry ->
           (http_refresh_calls evs = 1%nat
            <-> (now world_299 + inject_Z 300 >= expiry)%Q)
           /\ (http_refresh_calls evs = 0%nat
               <-> ~ (now world_299 + inject_Z 300 >= expiry)%Q)
           /\ ((expiry - now world_299 == inject_Z 301)%Q -> evs = [])
           /\ ((expiry - now world_299 == inject_Z 299)%Q ->
               evs = [EvHttpRefresh (vt_refresh_token cred_299)]))
        /\ (vt_expires_at cred_299 = ExpNone ->
            evs = [EvHttpRefresh (vt_refresh_token cred_299)]))
    /\ (identity_configured calm_env = false ->
        evs = []
        /\ (refresh_due cred_299 (now world_299) = true ->
            fst (VkClient.refresh_token_if_needed 100 calm_env world_299)
            = Ret false
            /\ snd (VkClient.refresh_token_if_needed 100 calm_env world_299)
               = world_299)).
Proof.
  apply (C2_refresh_call_condition calm_env world_299 100 cred_299 []
           (fst (VkClient.refresh_token_if_needed 100 calm_env world_299)));
    reflexivity.
Defined.

(** The claim as stated fails when the client id is not configured: with
    299 seconds left the code asks the store, finds the token due, and
    returns [False] without any request to the identity provider. *)
Lemma C2_counterexample :
  VkClient.select_active_targets 100 world_299 = [cred_299]
  /\ vt_expires_at cred_299 = ExpTime (1299 # 1)
  /\ ((1299 # 1) - now world_299 == inject_Z 299)%Q
  /\ VkClient.refresh_token_if_needed 100 anonymous_env world_299
     = (Ret false, world_299)
  /\ http_refresh_calls
       (trace (snd (VkClient.refresh_token_if_needed 100 anonymous_env world_299)))
     = 0%nat.
Proof. repeat split. Qed.

(** ** C9: messages forwarded from a user account *)

(** C9. A message forwarded from a user account ([forward_from] set,
    [forward_from_chat] absent) is skipped: [MediaHandler.handle] and
    [BaseHandler.setup] return [None] and [TextHandler.handle] returns,
    each leaving the world as it was, so no request of any kind (upload,
    post, credential refresh) is made. *)
Theorem C9_user_forward_skipped message env w :
  forward_from message = true ->
  forward_from_chat message = false ->
  MediaHandler.handle message env w = (Ret None, w)
  /\ BaseHandler.setup message env w = (Ret None, w)
  /\ TextHandler.handle message env w = (Ret tt, w).
Proof.
  intros H1 H2.
  unfold MediaHandler.handle, TextHandler.handle, BaseHandler.setup,
    BaseHandler.is_user_forward, try_except, bind, ret.
  rewrite H1, H2. simpl. repeat split.
Qed.

Lemma C9_user_forward_skipped_witness :
  MediaHandler.handle forwarded_message calm_env new_world = (Ret None, new_world)
  /\ BaseHandler.setup forwarded_message calm_env new_world = (Ret None, new_world)
  /\ TextHandler.handle forwarded_message calm_env new_world = (Ret tt, new_world).
Proof.
  apply (C9_user_forward_skipped forwarded_message calm_env new_world);
    reflexivity.
Defined.

(** ** C6: the oversized-file fallback *)

Lemma create_post_keeps_disk text atts cr :
  respects (keeps (fun w => (fs w, active_files w, posts w, data_txt w)))
           (VkClient.create_post text atts cr).
Proof.
  unfold VkClient.create_post. unfold_refresh. respects_auto; reflexivity.
Qed.

(** Whatever the configuration, [create_post] only waits, refreshes and
    sends [wall.post] requests with the text, attachments and source link
    it was given. *)
Lemma create_post_events_any text atts cr env w r w2 :
  VkClient.create_post text (strings atts) cr env w = (r, w2) ->
  ext (fun e =>
         match e with
         | EvSleep _ | EvHttpRefresh _ => True
         | EvVk (WallPost p) =>
             pp_message p = match text with Some t => t | None => "" end
             /\ pp_attachments p = VkClient.join_attachments atts
             /\ pp_copyright p = cr
         | _ => False
         end) w w2.
Proof.
  intros H. destruct (VkClient.owner_id_of (config w)) as [o|e0] eqn:Ho.
  - eapply ext_weaken; [|eapply create_post_events; eauto].
    intros [| [] | | | |]; simpl; try tauto.
    all: try discriminate.
    intros E. injection E as ->. simpl. auto.
  - unfold VkClient.create_post in H.
    unfold bind at 1, get at 1 in H.
    destruct (api w); [|inversion H; subst; apply step_refl]. simpl in H.
    unfold bind at 1 in H.
    destruct (VkClient.refresh_configured_target env w) as [[[]|e] w1] eqn:E.
    2:{ now apply refresh_configured_returns in E. }
    assert (K : keeps (fun w => (cfg_target_id (config w),
                                  cfg_post_as_group (config w))) w w1).
    { eapply (respects_refresh_configured (keeps _)); [|exact E].
      apply refresh_keeps_target. }
    unfold keeps in K. injection K as K1 K2.
    assert (Ho1 : VkClient.owner_id_of (config w1) = Raise e0).
    { unfold VkClient.owner_id_of in *. now rewrite K1, K2. }
    unfold bind at 1, get at 1 in H. rewrite Ho1 in H.
    unfold bind at 1 in H. simpl in H. inversion H; subst.
    eapply (respects_refresh_configured (ext _)); [|exact E].
    intros t. apply refresh_ext. now intros.
Qed.

Lemma dispatch_oversized env w message context file file_type :
  selected_file message = Some (file, file_type) ->
  file_size file > MAX_FILE_SIZE env ->
  MediaHandler.dispatch message context env w =
  MediaHandler.handle_oversized_file message context file_type env w.
Proof.
  intros Hsel Hbig.
  assert (T : forall prefix suffix media kwargs,
             MediaHandler.transfer message context file file_type prefix suffix
                                   media kwargs env w =
             MediaHandler.handle_oversized_file message context file_type env w).
  { intros. unfold MediaHandler.transfer, bind at 1, ask.
    destruct (Z.gtb_spec (file_size file) (MAX_FILE_SIZE env)); [reflexivity|lia]. }
  unfold selected_file in Hsel. unfold MediaHandler.dispatch.
  destruct (content_type message); try discriminate.
  - unfold MediaHandler._handle_photo.
    destruct (rev (photo message)); [discriminate|].
    injection Hsel as -> <-. apply T.
  - unfold MediaHandler._handle_video.
    destruct (video message); [|discriminate].
    injection Hsel as -> <-. apply T.
  - unfold MediaHandler._handle_document.
    destruct (document message); [|discriminate].
    injection Hsel as -> <-. apply T.
  - unfold MediaHandler._handle_video_note.
    destruct (video_note message); [|discriminate].
    injection Hsel as -> <-. apply T.
Qed.

(** C6. When the selected attachment of a media message is larger than
    [MAX_FILE_SIZE], the handler makes no [get_file], [download_file] or
    upload call and leaves the disk alone; every request it sends is a
    [wall.post] whose message is the caption, a blank line and the notice
    that the file is available via the source link, with no attachment and
    with the source link as [copyright]; and with a configured client that
    is allowed at least one attempt such a request is sent. *)
Theorem C6_oversized_fallback env w message context file file_type r w' :
  selected_file message = Some (file, file_type) ->
  file_size file > MAX_FILE_SIZE env ->
  MediaHandler.dispatch message context env w = (r, w') ->
  let link := ctx_source_link context in
  let text := BaseHandler.oversized_text message file_type link in
  text = ((match caption message with Some c => c | None => "" end)
            ++ newline ++ newline ++ file_type
            ++ " доступен по ссылке: " ++ link)%string
  /\ ext (fallback_event text link) w w'
  /\ fs w' = fs w
  /\ (api w = true ->
      (exists o, VkClient.owner_id_of (config w) = Ret o) ->
      0 < max_retries env ->
      exists p evs1 evs2,
        trace w' = (trace w ++ evs1 ++ EvVk (WallPost p) :: evs2)%list
        /\ pp_message p = text /\ pp_attachments p = ""
        /\ pp_copyright p = Some link).
Proof.
  intros Hsel Hbig H link text.
  rewrite (dispatch_oversized _ _ _ _ _ _ Hsel Hbig) in H.
  unfold MediaHandler.handle_oversized_file, try_except in H.
  fold link in H. fold text in H.
  destruct (VkClient.create_post (Some text) None (Some link) env w)
    as [r1 w1] eqn:E.
  assert (w' = w1) as -> by (destruct r1; now inversion H).
  split; [reflexivity|]. split; [|split].
  - eapply ext_weaken; [|eapply (create_post_events_any _ None); exact E].
    intros [| [] | | | |]; simpl; tauto.
  - pose proof (create_post_keeps_disk _ _ _ _ _ _ _ E) as K.
    unfold keeps in K. now injection K.
  - intros Hapi [o Ho] Hpos.
    destruct (create_post_submits _ None _ _ _ _ _ _ E Ho Hapi Hpos)
      as [evs1 [evs2 Et]].
    eexists _, evs1, evs2. split; [exact Et|]. simpl. auto.
Qed.

Lemma C6_oversized_fallback_witness :
  let context :=
    mkContext demo_settings (mkChat (-1001234) (Some "newsroom"))
              "https://t.me/newsroom/42" in
  let w := snd (VkClient.configure (Some "tok") 100 1 calm_env new_world) in
  let w' := snd (MediaHandler.dispatch big_photo_message context calm_env w) in
  let link := ctx_source_link context in
  let text := BaseHandler.oversized_text big_photo_message "Фото" link in
  text = ((match caption big_photo_message with Some c => c | None => "" end)
            ++ newline ++ newline ++ "Фото"
            ++ " доступен по ссылке: " ++ link)%string
  /\ ext (fallback_event text link) w w'
  /\ fs w' = fs w
  /\ (api w = true ->
      (exists o, VkClient.owner_id_of (config w) = Ret o) ->
      0 < max_retries calm_env ->
      exists p evs1 evs2,
        trace w' = (trace w ++ evs1 ++ EvVk (WallPost p) :: evs2)%list
        /\ pp_message p = text /\ pp_attachments p = ""
        /\ pp_copyright p = Some link).
Proof.
  intros context w w'.
  apply (C6_oversized_fallback calm_env w big_photo_message context
           (mkTgMedia "AgAD2" (200 * 1024 * 1024) None) "Фото"
           (Ret (Some 77))).
  - reflexivity.
  - reflexivity.
  - reflexivity.
Defined.

(** ** C5: the edit handler and its retry loop *)

Lemma edit_loop_step post_id new_text attempt rest env w :
  EditedHandler.edit_loop post_id new_text (attempt :: rest) env w =
  match VkClient.edit_post post_id new_text None env w with
  | (Ret true, w') => (Ret true, w')
  | (_, w') =>
      if attempt =? EditedHandler.max_edit_attempts - 1 then (Ret false, w')
      else EditedHandler.edit_loop post_id new_text rest env
                                   (slept (2 ^ attempt) w')
  end.
Proof.
  cbn [EditedHandler.edit_loop].
  destruct (VkClient.edit_post post_id new_text None env w) as [[[|]|e] w'];
    try reflexivity;
    destruct (attempt =? EditedHandler.max_edit_attempts - 1); reflexivity.
Qed.

Lemma edit_loop_returns post_id new_text attempts env w e w' :
  EditedHandler.edit_loop post_id new_text attempts env w <> (Raise e, w').
Proof.
  revert w. induction attempts as [|attempt rest IH]; intros w.
  - discriminate.
  - rewrite edit_loop_step.
    destruct (VkClient.edit_post post_id new_text None env w) as [[[|]|?] w1];
      try discriminate;
      destruct (attempt =? EditedHandler.max_edit_attempts - 1);
      try discriminate; apply IH.
Qed.

Lemma not_true_cases (r : res bool) :
  r <> Ret true -> r = Ret false \/ exists e, r = Raise e.
Proof. destruct r as [[|]|e]; intros H; [contradiction|auto|eauto]. Qed.

Lemma edit_loop_ok post_id new_text attempt rest env w w1 :
  VkClient.edit_post post_id new_text None env w = (Ret true, w1) ->
  EditedHandler.edit_loop post_id new_text (attempt :: rest) env w = (Ret true, w1).
Proof. intros E. now rewrite edit_loop_step, E. Qed.

Lemma edit_loop_fail post_id new_text attempt rest env w r w1 :
  VkClient.edit_post post_id new_text None env w = (r, w1) ->
  r <> Ret true ->
  EditedHandler.edit_loop post_id new_text (attempt :: rest) env w =
  if attempt =? 2 then (Ret false, w1)
  else EditedHandler.edit_loop post_id new_text rest env (slept (2 ^ attempt) w1).
Proof.
  intros E N. rewrite edit_loop_step, E.
  destruct (not_true_cases _ N) as [->|[e ->]]; reflexivity.
Qed.

(** The loop of [handle], taken alone: it calls [edit_post] at most three
    times; a success on any attempt is returned at once; a failure (a
    [False] or an exception) on the first attempt is followed by a sleep
    of 1 second and on the second by a sleep of 2 seconds; a failure on the
    third attempt is returned as [False] with no further sleep. *)
Lemma edit_loop_retry env w0 post_id new_text :
  let attempt := VkClient.edit_post post_id new_text None env in
  let loop :=
    EditedHandler.edit_loop post_id new_text
                            (range EditedHandler.max_edit_attempts) env w0 in
  (forall w1, attempt w0 = (Ret true, w1) -> loop = (Ret true, w1))
  /\ (forall r1 w1 w2,
        attempt w0 = (r1, w1) -> r1 <> Ret true ->
        attempt (slept 1 w1) = (Ret true, w2) ->
        loop = (Ret true, w2))
  /\ (forall r1 w1 r2 w2 w3,
        attempt w0 = (r1, w1) -> r1 <> Ret true ->
        attempt (slept 1 w1) = (r2, w2) -> r2 <> Ret true ->
        attempt (slept 2 w2) = (Ret true, w3) ->
        loop = (Ret true, w3))
  /\ (forall r1 w1 r2 w2 r3 w3,
        attempt w0 = (r1, w1) -> r1 <> Ret true ->
        attempt (slept 1 w1) = (r2, w2) -> r2 <> Ret true ->
        attempt (slept 2 w2) = (r3, w3) -> r3 <> Ret true ->
        loop = (Ret false, w3)).
Proof.
  intros attempt loop. subst loop attempt.
  change (range EditedHandler.max_edit_attempts) with [0; 1; 2].
  repeat split.
  - intros w1 E1. now apply edit_loop_ok.
  - intros r1 w1 w2 E1 N1 E2.
    rewrite (edit_loop_fail _ _ _ _ _ _ _ _ E1 N1).
    change (2 ^ 0) with 1. cbn [Z.eqb].
    now apply edit_loop_ok.
  - intros r1 w1 r2 w2 w3 E1 N1 E2 N2 E3.
    rewrite (edit_loop_fail _ _ _ _ _ _ _ _ E1 N1).
    change (2 ^ 0) with 1. cbn [Z.eqb].
    rewrite (edit_loop_fail _ _ _ _ _ _ _ _ E2 N2).
    change (2 ^ 1) with 2. cbn [Z.eqb Pos.eqb].
    now apply edit_loop_ok.
  - intros r1 w1 r2 w2 r3 w3 E1 N1 E2 N2 E3 N3.
    rewrite (edit_loop_fail _ _ _ _ _ _ _ _ E1 N1).
    change (2 ^ 0) with 1. cbn [Z.eqb].
    rewrite (edit_loop_fail _ _ _ _ _ _ _ _ E2 N2).
    change (2 ^ 1) with 2. cbn [Z.eqb Pos.eqb].
    now rewrite (edit_loop_fail _ _ _ _ _ _ _ _ E3 N3).
Qed.

(** The same loop when the retryable error class is raised: the three
    [wall.edit] attempts then happen inside one [edit_post] call, again 1
    and 2 seconds apart. *)
Example edit_loop_flood_twice_then_succeeds :
  let '(r, w) := EditedHandler.edit_loop 77 "fixed typo" [0; 1; 2] flood_env
                                         configured_world in
  r = Ret true
  /\ wall_edit_calls (trace w) = 3%nat
  /\ trace w =
     let edit := EvVk (WallEdit (mkEditParams (Some (-100)) 77 "fixed typo" "" None)) in
     [EvVk (WallGetById "-100_77"); edit; EvSleep 1; edit; EvSleep 2; edit].
Proof. vm_compute. repeat split. Qed.

(** C5.  [EditedHandler.handle] does not reach its retry loop.  Its first
    statement calls [self._get_settings], which neither the class nor
    [BaseHandler] defines; the [AttributeError] is raised before the [try],
    so on every message the handler raises, having sent nothing and slept
    not at all.  In the scenario of the claim ([wall.edit] fails twice and
    would succeed the third time) the handler makes no attempt, where the
    loop written below the failing line, run alone, succeeds after three
    [wall.edit] requests with sleeps of 1 and 2 seconds. *)
Theorem C5_edit_handler_raises :
  (forall message env w,
      exists text,
        EditedHandler.handle message env w
        = (Raise (mkExn AttributeError text), w))
  /\ (let '(r, w) :=
         EditedHandler.handle edited_message shaky_env configured_world in
       r <> Ret true /\ wall_edit_calls (trace w) = 0%nat /\ trace w = [])
  /\ (let '(r, w) :=
         EditedHandler.edit_loop 77 (EditedHandler.new_text_of edited_message)
                                 (range EditedHandler.max_edit_attempts)
                                 shaky_env configured_world in
       r = Ret true
       /\ wall_edit_calls (trace w) = 3%nat
       /\ trace w =
          let edit :=
            EvVk (WallEdit (mkEditParams (Some (-100)) 77 "fixed typo" "" None)) in
          [EvVk (WallGetById "-100_77"); edit; EvSleep 1;
           EvVk (WallGetById "-100_77"); edit; EvSleep 2;
           EvVk (WallGetById "-100_77"); edit]).
Proof.
  split; [|split].
  - intros message env w. eexists. reflexivity.
  - vm_compute. repeat split. discriminate.
  - vm_compute. repeat split.
Qed.

(** ** C4: the mapping upsert *)

Lemma filter_map_same {A} (p : A -> bool) (f : A -> A) l :
  (forall a, p (f a) = p a) ->
  filter p (map f l) = map f (filter p l).
Proof.
  intros Hp. induction l as [|a l IH]; simpl; [reflexivity|].
  rewrite Hp. destruct (p a); simpl; now rewrite IH.
Qed.






(** The table after an upsert, whatever its outcome: unchanged; or every
    row rewritten without touching its key; or, when the key had no row,
    one row for the key added. *)
Lemma repo_save_posts env w user_id message_id vk_post_id channel content
      group r w' :
  DatabaseRepository.save_post_mapping user_id message_id vk_post_id channel
                                       content group env w = (r, w') ->
  posts w' = posts w
  \/ (exists f, (forall m u x, VkClient.same_key m u (f x) = VkClient.same_key m u x)
                /\ posts w' = map f (posts w))
  \/ (exists row, rows_for message_id user_id w = []
                  /\ pr_telegram_message_id row = message_id
                  /\ pr_user_id row = user_id
                  /\ posts w' = (posts w ++ [row])%list).
Proof.
  intros H.
  unfold DatabaseRepository.save_post_mapping, try_except, bind at 1, ask in H.
  destruct (supabase env); cbn [negb] in H; [|inversion H; auto].
  unfold bind at 1, execute in H.
  destruct (db_exec env (trace w)) eqn:Hdb; [inversion H; auto|].
  unfold bind at 1, get in H.
  destruct (filter (DatabaseRepository.same_key message_id user_id) (posts w))
    as [|x rows] eqn:F;
    unfold bind, execute, modify, ret in H; cbv beta iota in H;
    rewrite Hdb in H; inversion H; subst; clear H.
  - right. right. eexists. repeat split; try reflexivity. exact F.
  - right. left. eexists. split; [|reflexivity].
    intros m u y. cbv beta.
    destruct (DatabaseRepository.same_key message_id user_id y); reflexivity.
Qed.

Lemma single_keyed_new_world : single_keyed new_world.
Proof. intros m u. simpl. lia. Qed.

(** Upserts keep the table single-keyed, so the premise of C4 holds in
    every store that only upserts have written. *)
Lemma repo_save_keeps_single env w user_id message_id vk_post_id channel
      content group r w' :
  single_keyed w ->
  DatabaseRepository.save_post_mapping user_id message_id vk_post_id channel
                                       content group env w = (r, w') ->
  single_keyed w'.
Proof.
  intros Hw H m u. specialize (Hw m u).
  destruct (repo_save_posts _ _ _ _ _ _ _ _ _ _ H)
    as [E | [(f & Hf & E) | (row & Hnone & Hm & Hu & E)]];
    unfold rows_for in *; rewrite E.
  - exact Hw.
  - rewrite filter_map_same by apply Hf. now rewrite length_map.
  - rewrite filter_app, length_app. cbn [filter].
    destruct (VkClient.same_key m u row) eqn:K; cbn [List.length]; [|lia].
    unfold VkClient.same_key in K. rewrite Hm, Hu in K.
    apply andb_true_iff in K as [K1 K2].
    apply Z.eqb_eq in K1, K2. subst m u. rewrite Hnone. simpl. lia.
Qed.

(** [VkClient.save_post_mapping] performs the same upsert when the store
    is configured and a user id is given. *)
Lemma client_save_spec env w user_id message_id post_id channel :
  supabase env = true ->
  db_exec env (trace w) = None ->
  user_id <> 0 ->
  exists w',
    VkClient.save_post_mapping message_id post_id (Some user_id) channel env w
      = (Ret true, w')
    /\ trace w' = trace w
    /\ data_txt w' = data_txt w
    /\ List.length (rows_for message_id user_id w') =
       Nat.max 1 (List.length (rows_for message_id user_id w))
    /\ Forall (fun r => pr_vk_post_id r = str_of_Z post_id)
              (rows_for message_id user_id w').
Proof.
  intros Hs Hdb Hu.
  unfold VkClient.save_post_mapping, try_except, bind at 1, ask.
  rewrite Hs. destruct (Z.eqb_spec user_id 0); [contradiction|]. cbn [negb andb].
  unfold bind at 1, execute. rewrite Hdb.
  unfold bind at 1, get. unfold rows_for.
  destruct (filter (VkClient.same_key message_id user_id) (posts w))
    as [|row rows] eqn:F.
  - unfold bind, execute, modify, ret. cbv beta iota.
    eexists. rewrite Hdb. split; [reflexivity|]. cbn [trace posts set_posts data_txt].
    split; [reflexivity|]. split; [reflexivity|].
    rewrite filter_app, F. cbn [filter app].
    unfold VkClient.same_key.
    cbn [pr_telegram_message_id pr_user_id]. rewrite !Z.eqb_refl.
    cbn [andb List.length]. split; [reflexivity|].
    repeat constructor.
  - unfold bind, execute, modify, ret. cbv beta iota.
    eexists. rewrite Hdb. split; [reflexivity|]. cbn [trace posts set_posts data_txt].
    split; [reflexivity|]. split; [reflexivity|].
    rewrite filter_map_same.
    + rewrite F, length_map. cbn [List.length]. split; [lia|].
      apply Forall_map. apply Forall_forall. intros r Hin.
      assert (K : VkClient.same_key message_id user_id r = true).
      { rewrite <- F in Hin. now apply filter_In in Hin. }
      now rewrite K.
    + intros r.
      destruct (VkClient.same_key message_id user_id r) eqn:K; exact K.
Qed.

(** Without a store the client only appends to [data.txt], and its lookup
    returns the first line for the message. *)
Example file_fallback_appends :
  let env := mkEnv false None None 0 3 (fun _ => None) (fun _ _ => None)
               (wall_post calm_env) (wall_getById calm_env) (wall_edit calm_env)
               (vk_upload calm_env) (http_refresh calm_env)
               (tg_get_file calm_env) (tg_download calm_env)
               (os_getsize calm_env) (guess_type calm_env) (uuid4_hex calm_env)
               (tg_get_chat calm_env) (get_channel_settings_by_id calm_env)
               (unlink_error calm_env) (data_txt_error calm_env) in
  let w1 := snd (VkClient.save_post_mapping 42 600 (Some 7) None env new_world) in
  let w2 := snd (VkClient.save_post_mapping 42 601 (Some 7) None env w1) in
  data_txt w2 = Some [(42, 600); (42, 601)]
  /\ posts w2 = []
  /\ fst (VkClient.get_post_by_message_id 42 env w2) = Ret (Some 600).
Proof. vm_compute. repeat split. Qed.

(** ** C3: the scratch file *)

(** C3 fails on the download-failure path.  When every download attempt
    raises after the destination file was created, [download_file] returns
    [(False, "CRITICAL_ERROR")] without unlinking it and [_handle_photo]
    returns [None] before its [try ... finally]: the scratch file is still
    on disk when the handler returns. *)
Theorem C3_scratch_file_left_after_download_failure :
  let '(r, w) := MediaHandler.handle small_photo_message dropping_env new_world in
  r = Ret None
  /\ fs new_world = []
  /\ fs w = ["temp_files/photo_0a1b2c3d.jpg"]
  /\ VkClient.path_exists "temp_files/photo_0a1b2c3d.jpg" w = true
  /\ trace w =
     [EvGetChat (-1001234);
      EvGetFile "AgAD1";
      EvDownload "photos/file_1.jpg" "temp_files/photo_0a1b2c3d.jpg"; EvSleep 1;
      EvGetFile "AgAD1";
      EvDownload "photos/file_1.jpg" "temp_files/photo_0a1b2c3d.jpg"; EvSleep 2;
      EvGetFile "AgAD1";
      EvDownload "photos/file_1.jpg" "temp_files/photo_0a1b2c3d.jpg"; EvSleep 4].
Proof. vm_compute. repeat split. Qed.

(** *** Where the scratch file is removed *)

Lemma unlinked_absent p w :
  VkClient.path_exists p (FileManager.unlinked p w) = false.
Proof.
  unfold VkClient.path_exists, FileManager.unlinked. cbn [fs set_fs].
  induction (fs w) as [|q l IH]; [reflexivity|]. cbn [filter].
  destruct (String.eqb_spec q p) as [->|N]; cbn [negb]; [exact IH|].
  cbn [existsb]. rewrite IH.
  destruct (String.eqb_spec p q); [congruence|reflexivity].
Qed.

Lemma cleanup_absent p env w u w' :
  unlink_never_fails env ->
  FileManager.cleanup p env w = (u, w') ->
  (exists x, u = Ret x) /\ VkClient.path_exists p w' = false.
Proof.
  intros Hu.
  unfold FileManager.cleanup, try_except, bind at 1, get.
  destruct (VkClient.path_exists p w) eqn:E.
  - unfold bind, FileManager.unlink, modify. rewrite Hu.
    intros H. inversion H; subst; clear H.
    split; [eauto|]. apply unlinked_absent.
  - unfold ret. intros H. inversion H; subst; clear H.
    split; [eauto|exact E].
Qed.

Lemma try_finally_cleanup_absent {A} (m : M A) p env w r w' :
  unlink_never_fails env ->
  try_finally m (FileManager.cleanup p) env w = (r, w') ->
  VkClient.path_exists p w' = false.
Proof.
  unfold try_finally. intros Hu H.
  destruct (m env w) as [r1 w1].
  destruct (FileManager.cleanup p env w1) as [u w2] eqn:C.
  apply (cleanup_absent _ _ _ _ _ Hu) in C as [[x ->] Habs].
  now inversion H; subst.
Qed.

(** One download attempt either succeeds or leaves no file, unless the
    download itself leaves one behind or the file cannot be unlinked. *)
Lemma download_attempt_absent env w file_id p max_size r w' :
  no_partial_download env ->
  unlink_never_fails env ->
  VkClient.path_exists p w = false ->
  FileManager.download_attempt file_id p max_size env w = (r, w') ->
  r = Ret (true, None) \/ VkClient.path_exists p w' = false.
Proof.
  intros Hnp Hu Habs H.
  unfold FileManager.download_attempt, FileManager.bot_get_file,
    FileManager.bot_download_file, FileManager._validate_file_type,
    FileManager._generate_checksum, FileManager.unlink, bind, get, ask in H.
  destruct (tg_get_file env (trace w) file_id) as [file|e];
    cbn [of_res ret raise] in H; [|inversion H; subst; now right].
  destruct (tf_file_size file >? max_size); [inversion H; subst; now right|].
  destruct (tg_download env (trace (log_event (EvGetFile file_id) w))
                        (tf_file_path file) p) as [|e left] eqn:D.
  - destruct (guess_type env p) as [mime|]; cbn [ret modify] in H.
    + destruct (existsb (String.eqb mime) FileManager.allowed_types);
        cbn [negb] in H.
      * run_cases H; pairs_inv; auto.
      * rewrite Hu in H. inversion H; subst. right. apply unlinked_absent.
    + cbn [negb] in H. cbv beta iota in H. rewrite Hu in H.
      inversion H; subst. right. apply unlinked_absent.
  - destruct left; [exfalso; eapply Hnp; exact D|].
    inversion H; subst. now right.
Qed.

Lemma slept_path_exists p secs w :
  VkClient.path_exists p (slept secs w) = VkClient.path_exists p w.
Proof. reflexivity. Qed.

Lemma download_loop_absent env file_id p max_size retries attempts :
  no_partial_download env ->
  unlink_never_fails env ->
  forall w r w',
    VkClient.path_exists p w = false ->
    FileManager.download_loop file_id p max_size retries attempts env w = (r, w') ->
    r = Ret (true, None) \/ VkClient.path_exists p w' = false.
Proof.
  intros Hnp Hu. induction attempts as [|attempt rest IH]; intros w r w' Habs H.
  - inversion H; subst. now right.
  - cbn [FileManager.download_loop] in H. unfold try_except in H.
    destruct (FileManager.download_attempt file_id p max_size env w)
      as [[a|e] w1] eqn:A.
    + inversion H; subst. eapply download_attempt_absent; eauto.
    + destruct (download_attempt_absent _ _ _ _ _ _ _ Hnp Hu Habs A) as [X|Habs1];
        [discriminate|].
      unfold bind, sleep, modify in H.
      destruct (attempt =? retries - 1).
      * inversion H; subst. right. exact Habs1.
      * eapply IH; [|exact H]. exact Habs1.
Qed.

Lemma download_file_absent env w file_id p max_size retries r w' :
  no_partial_download env ->
  unlink_never_fails env ->
  VkClient.path_exists p w = false ->
  FileManager.download_file file_id p max_size retries env w = (r, w') ->
  exists outcome, r = Ret outcome
    /\ (fst outcome = true \/ VkClient.path_exists p w' = false).
Proof.
  intros Hnp Hu Habs H. unfold FileManager.download_file, try_except in H.
  destruct (FileManager.download_loop file_id p max_size retries (range retries)
              env w) as [[a|e] w1] eqn:L;
    destruct (download_loop_absent _ _ _ _ _ _ Hnp Hu _ _ _ Habs L) as [X|Habs1];
    try discriminate; inversion H; subst; eexists; split; try reflexivity.
  - injection X as ->. now left.
  - now right.
  - now right.
Qed.

(** Apart from a download that leaves its partial file behind and from an
    [unlink] that the operating system refuses, every exit of a transfer
    leaves no scratch file: oversized, size or type rejected, download
    failed cleanly, upload failed, publish failed or raised. *)
Lemma transfer_leaves_no_scratch_file env w message context file file_type
      prefix suffix media_type kwargs p r w' :
  no_partial_download env ->
  unlink_never_fails env ->
  FileManager.get_temp_path prefix suffix env w = (Ret p, w) ->
  VkClient.path_exists p w = false ->
  MediaHandler.transfer message context file file_type prefix suffix media_type
                        kwargs env w = (r, w') ->
  VkClient.path_exists p w' = false.
Proof.
  intros Hnp Hu Hp Habs H.
  unfold MediaHandler.transfer, bind at 1, ask in H.
  destruct (file_size file >? MAX_FILE_SIZE env).
  - unfold MediaHandler.handle_oversized_file, try_except in H.
    match type of H with context [VkClient.create_post ?a ?b ?c env w] =>
      destruct (VkClient.create_post a b c env w) as [r1 w1] eqn:E end.
    pose proof (create_post_keeps_disk _ _ _ _ _ _ _ E) as K.
    unfold keeps in K. injection K as K _ _ _.
    assert (w' = w1) as -> by (destruct r1; now inversion H).
    unfold VkClient.path_exists in *. now rewrite K.
  - unfold bind at 1 in H. rewrite Hp in H. unfold bind at 1 in H.
    destruct (FileManager.download_file (file_id file) p (MAX_FILE_SIZE env) 3
                env w) as [r1 w1] eqn:D.
    destruct (download_file_absent _ _ _ _ _ _ _ _ Hnp Hu Habs D)
      as (outcome & -> & Hout).
    destruct (fst outcome) eqn:F; cbn [negb] in H.
    + eapply (try_finally_cleanup_absent _ _ _ _ _ _ Hu); exact H.
    + inversion H; subst. destruct Hout as [X|X]; [discriminate|exact X].
Qed.

(** ** C8: what an edit submits *)

Lemma collect_attachments_kept l tokens :
  VkClient.collect_attachments l = Ret tokens -> tokens = kept_tokens l.
Proof.
  revert tokens. induction l as [|a l IH]; intros tokens H.
  - now inversion H.
  - cbn [VkClient.collect_attachments] in H. unfold VkClient.res_bind in H.
    destruct (VkClient.attachment_token a) as [o|e] eqn:A; [|discriminate].
    destruct (VkClient.collect_attachments l) as [rest|e]; [|discriminate].
    inversion H; subst; clear H. rewrite (IH rest eq_refl).
    change (kept_tokens (a :: l))
      with ((match kept_token a with Some t => [t] | None => [] end)
              ++ kept_tokens l)%list.
    assert (K : kept_token a = o).
    { unfold VkClient.attachment_token in A. unfold kept_token.
      destruct (att_type a) as [ty|]; [|now inversion A].
      destruct (String.eqb_spec ty "") as [E|Ne]; cbn [orb].
      - inversion A; subst.
        destruct (VkClient.assoc "" (att_objects a)) as [[[?|] [?|]]|];
          reflexivity.
      - destruct (ty =? "type")%string; [discriminate|].
        destruct (VkClient.assoc ty (att_objects a)) as [[[ow|] [i|]]|];
          cbn [ab_owner_id ab_id] in *; try (now inversion A).
        destruct (ow =? 0), (i =? 0); cbn [negb andb orb] in *;
          now inversion A. }
    rewrite K. now destruct o.
Qed.

Lemma join_attachments_tokens tokens :
  VkClient.join_attachments (Some tokens) = join "," tokens.
Proof. now destruct tokens. Qed.

(** A retried VK call that returns a value: the value is the environment's
    answer at the history of the last attempt, and the earlier events are
    the failed attempts and the sleeps. *)
Lemma retry_loop_success {A} req (answer : Env -> history -> res A) maxr env
      attempts :
  forall w a w',
    VkClient.retry_loop (vk_call req answer) maxr attempts env w
      = (Ret (Some a), w') ->
    exists evs,
      trace w' = (trace w ++ evs ++ [EvVk req])%list
      /\ answer env (trace w ++ evs)%list = Ret a
      /\ Forall (fun e => e = EvVk req \/ exists s, e = EvSleep s) evs
      /\ keeps (fun w => (api w, upload w, config w, vk_targets w, posts w,
                          telegram_channels w, data_txt w, fs w,
                          active_files w)) w w'.
Proof.
  induction attempts as [|attempt rest IH]; intros w a w' H.
  - discriminate.
  - cbn [VkClient.retry_loop] in H. unfold vk_call at 1 in H.
    destruct (answer env (trace w)) as [a0|e] eqn:Ans; cbn [of_res ret raise] in H.
    + inversion H; subst. exists []. rewrite app_nil_r. repeat split; auto.
    + destruct (is_VkApiError e); [|discriminate].
      destruct (attempt =? maxr - 1); [discriminate|].
      unfold bind, sleep, modify in H.
      apply IH in H as (evs & T & An & F & K).
      exists (EvVk req :: EvSleep (2 ^ attempt) :: evs).
      cbn [trace slept log_event] in T, An.
      repeat split.
      * rewrite T. now rewrite <- !app_assoc.
      * rewrite <- An. f_equal. now rewrite <- !app_assoc.
      * constructor; [now left|]. constructor; [right; eauto|exact F].
      * exact K.
Qed.

Lemma retry_loop_some {A} (func : M A) maxr env :
  forall n i w w',
    Z.to_nat (maxr - i) = n -> 0 <= i < maxr ->
    VkClient.retry_loop func maxr (attempts_from maxr i) env w <> (Ret None, w').
Proof.
  induction n as [|n IH]; intros i w w' Hn Hi; [lia|].
  rewrite (range_nth _ _ Hi). cbn [VkClient.retry_loop].
  destruct (func env w) as [[a|e] w1]; [discriminate|].
  destruct (is_VkApiError e); [|discriminate].
  destruct (Z.eqb_spec i (maxr - 1)); [discriminate|].
  unfold bind, sleep, modify. apply IH; lia.
Qed.

Lemma execute_with_retry_some {A} (func : M A) env w w' :
  VkClient._execute_with_retry func env w = (Ret None, w') ->
  max_retries env <= 0.
Proof.
  intros H. destruct (Z.leb_spec (max_retries env) 0) as [|Hpos]; [assumption|].
  exfalso. revert H. rewrite execute_with_retry_unfold.
  eapply retry_loop_some; [reflexivity|lia].
Qed.

Lemma bind_inv {A B} (m : M A) (k : A -> M B) env w b w' :
  bind m k env w = (Ret b, w') ->
  exists a w1, m env w = (Ret a, w1) /\ k a env w1 = (Ret b, w').
Proof.
  unfold bind. destruct (m env w) as [[a|e] w1]; [eauto|discriminate].
Qed.

Lemma get_inv env w a w1 : get env w = (Ret a, w1) -> a = w /\ w1 = w.
Proof. intros H. now inversion H. Qed.

Lemma ask_inv env w a w1 : ask env w = (Ret a, w1) -> a = env /\ w1 = w.
Proof. intros H. now inversion H. Qed.

Lemma try_except_true_inv (m : M bool) env w w' :
  try_except m (fun _ => ret false) env w = (Ret true, w') ->
  m env w = (Ret true, w').
Proof.
  unfold try_except, ret. destruct (m env w) as [[b|e] w1]; [auto|discriminate].
Qed.

Lemma execute_with_retry_pos {A} (func : M A) env w a w' :
  VkClient._execute_with_retry func env w = (Ret (Some a), w') ->
  0 < max_retries env.
Proof.
  intros H. destruct (Z.ltb_spec 0 (max_retries env)) as [|Hle]; [assumption|].
  exfalso. unfold VkClient._execute_with_retry, bind, ask, range in H.
  replace (Z.to_nat (max_retries env)) with 0%nat in H by lia.
  discriminate.
Qed.

Lemma get_source_link_pure m env w r w' :
  VkClient.get_source_link_for_edit m env w = (r, w') ->
  w' = w /\ exists l, r = Ret l.
Proof.
  intros H.
  unfold VkClient.get_source_link_for_edit, try_except, bind, ask, execute,
    get in H.
  run_cases H; pairs_inv; eauto.
Qed.

Lemma refresh_configured_keeps_tables :
  respects (keeps (fun w => (posts w, telegram_channels w)))
           VkClient.refresh_configured_target.
Proof. unfold_refresh. respects_auto; reflexivity. Qed.

(** What a successful [edit_post] sends.  It has read the existing post,
    and the last request it sent is a [wall.edit] that carries the new text
    and, in their order, the tokens [<type><owner_id>_<id>] of exactly those
    attachments of the first post read whose object has a non-zero owner id
    and id; when [edit_post] is given the id of the source message, the
    request also carries the link that [get_source_link_for_edit] computes
    for it from the stored tables. *)
Lemma edit_post_submission env w post_id new_text message_id w' :
  VkClient.edit_post post_id new_text message_id env w = (Ret true, w') ->
  exists owner_id h first rest link evs,
    wall_getById env h (str_of_opt_Z owner_id ++ "_" ++ str_of_Z post_id)
      = Ret (first :: rest)
    /\ trace w' =
       (trace w ++ evs ++
        [EvVk (WallEdit (mkEditParams owner_id post_id new_text
                                      (join "," (kept_tokens (attachments_of first)))
                                      link))])%list
    /\ In (EvVk (WallGetById (str_of_opt_Z owner_id ++ "_" ++ str_of_Z post_id))) evs
    /\ (forall m, message_id = Some m -> m <> 0 ->
        exists l wa,
          link = Some l
          /\ VkClient.get_source_link_for_edit m env wa = (Ret l, wa)
          /\ posts wa = posts w
          /\ telegram_channels wa = telegram_channels w).
Proof.
  intros H. unfold VkClient.edit_post in H.
  apply bind_inv in H as (w0 & ? & G0 & H).
  apply get_inv in G0 as [-> ->].
  destruct (api w); cbn [negb] in H; [|discriminate].
  apply bind_inv in H as ([] & w1 & R & H).
  pose proof (refresh_configured_keeps_tables _ _ _ _ R) as KT.
  assert (X1 : ext (fun _ => True) w w1).
  { eapply (respects_refresh_configured (ext _)); [|exact R].
    intros t. apply refresh_ext. now intros. }
  destruct X1 as [evs1 [T1 _]].
  apply try_except_true_inv in H.
  apply bind_inv in H as (wx & ? & G1 & H).
  apply get_inv in G1 as [-> ->].
  apply bind_inv in H as (owner_id & wy & O & H).
  destruct (VkClient.owner_id_of (config w1)) as [o|e0]; [|discriminate].
  injection O as -> <-.
  apply bind_inv in H as (old & w3 & G & H).
  destruct old as [[|first rest]|]; try discriminate.
  pose proof (execute_with_retry_pos _ _ _ _ _ G) as Hpos.
  rewrite execute_with_retry_unfold in G.
  apply retry_loop_success in G as (evs2 & T3 & An & _ & K3).
  apply bind_inv in H as (tokens & wz & C & H).
  destruct (VkClient.collect_attachments
              match wp_attachments first with Some l => l | None => [] end)
    as [tokens'|e] eqn:C'; [|discriminate].
  injection C as -> <-.
  apply collect_attachments_kept in C'. fold (attachments_of first) in C'.
  apply bind_inv in H as (link & w4 & L & H).
  apply bind_inv in H as (done & w5 & E & H).
  assert (w' = w5) as -> by now inversion H.
  clear H.
  assert (W4 : w4 = w3 /\
               forall m, message_id = Some m -> m <> 0 ->
                 exists l, link = Some l
                   /\ VkClient.get_source_link_for_edit m env w3 = (Ret l, w3)).
  { destruct message_id as [m|].
    - destruct (Z.eqb_spec m 0).
      + inversion L; subst. split; [reflexivity|]. intros m' Hm. now inversion Hm.
      + apply bind_inv in L as (l & wl & S & L).
        destruct (get_source_link_pure _ _ _ _ _ S) as [-> _].
        inversion L; subst. split; [reflexivity|].
        intros m' Hm Hne. injection Hm as <-. eauto.
    - inversion L; subst. split; [reflexivity|]. intros m' Hm. discriminate. }
  destruct W4 as [-> Hlink].
  destruct done as [[]|].
  2:{ apply execute_with_retry_some in E. lia. }
  rewrite execute_with_retry_unfold in E.
  apply retry_loop_success in E as (evs3 & T5 & _ & _ & K5).
  exists owner_id, (trace w1 ++ evs2)%list, first, rest, link.
  exists (evs1 ++ evs2 ++ [EvVk (WallGetById (str_of_opt_Z owner_id ++ "_"
                                                ++ str_of_Z post_id))] ++ evs3)%list.
  rewrite join_attachments_tokens, C' in T5.
  repeat split.
  - exact An.
  - rewrite T5, T3, T1. now rewrite <- !app_assoc.
  - apply in_or_app. right. apply in_or_app. right. now left.
  - intros m Hm Hne. destruct (Hlink m Hm Hne) as (l & -> & S).
    exists l, w3. repeat split; auto.
    + unfold keeps in K3, KT. injection K3 as _ _ _ _ K3 _ _ _ _.
      injection KT as KT _. congruence.
    + unfold keeps in K3, KT. injection K3 as _ _ _ _ _ K3 _ _ _.
      injection KT as _ KT. congruence.
Qed.

(** C8.  [edit_post] does not keep what its docstring says it keeps
    (the post is edited "with its attachments preserved").  The existing
    post has a link and a photo; the edit succeeds, but its [wall.edit]
    request carries the photo only, because an attachment is kept only when
    its object has an owner id and an id, which a link has not.  The request
    carries no attribution link either when [edit_post] is called as
    [EditedHandler.handle] calls it, with the post id and the new text but
    without the id of the source message, although [edit_post] recomputes
    the link when it is given that id. *)
Theorem C8_edit_drops_link_attachment :
  wall_getById link_env [] "-100_77" = Ret [post_with_link]
  /\ List.length (attachments_of post_with_link) = 2%nat
  /\ kept_tokens (attachments_of post_with_link) = ["photo-100_5"]
  /\ VkClient.edit_post 77 "fixed typo" None link_env configured_world
     = (Ret true,
        log_event
          (EvVk (WallEdit (mkEditParams (Some (-100)) 77 "fixed typo"
                                        "photo-100_5" None)))
          (log_event (EvVk (WallGetById "-100_77")) configured_world))
  /\ EditedHandler.edit_loop 77 (EditedHandler.new_text_of edited_message)
                             (range EditedHandler.max_edit_attempts)
                             link_env configured_world
     = VkClient.edit_post 77 "fixed typo" None link_env configured_world
  /\ (let '(r, w) :=
         VkClient.edit_post 77 "fixed typo" (Some 42) link_env configured_world in
       r = Ret true
       /\ exists link,
           trace w =
           [EvVk (WallGetById "-100_77");
            EvVk (WallEdit (mkEditParams (Some (-100)) 77 "fixed typo"
                                         "photo-100_5" (Some link)))]).
Proof.
  vm_compute. repeat split. eexists. reflexivity.
Qed.

(** ** C10: what [create_post] and [upload_media] may raise *)

Lemma try_except_ret_inv {A} (m : M A) (a0 : A) env w r w' :
  try_except m (fun _ => ret a0) env w = (r, w') ->
  exists x, r = Ret x
    /\ (m env w = (Ret x, w') \/ (x = a0 /\ exists e, m env w = (Raise e, w'))).
Proof.
  unfold try_except, ret. destruct (m env w) as [[x|e] w1]; intros H;
    inversion H; subst; eauto 6.
Qed.

Lemma format_attachment_token media_type result tok :
  VkClient.format_attachment media_type result = Ret (Some tok) ->
  In media_type VkClient.supported_media
  /\ exists owner_id id, tok = VkClient.token media_type owner_id id.
Proof.
  unfold VkClient.format_attachment, VkClient.res_bind, VkClient.subscript.
  destruct (VkClient.truthy_result result); cbn [negb]; [|discriminate].
  destruct (String.eqb_spec media_type "photo") as [->|_].
  { intros H. split; [simpl; auto|].
    destruct result as [[|[|first l]|]|]; try discriminate.
    destruct (mo_owner_id first), (mo_id first); try discriminate.
    inversion H. eauto. }
  destruct (String.eqb_spec media_type "video") as [->|_].
  { intros H. split; [simpl; auto|].
    destruct result as [[| |b d]|]; try discriminate.
    destruct (mo_owner_id d), (mo_video_id d); try discriminate.
    inversion H. eauto. }
  destruct (String.eqb_spec media_type "audio") as [->|_].
  { intros H. split; [simpl; auto|].
    destruct result as [[| |b d]|]; try discriminate.
    destruct (mo_owner_id d), (mo_id d); try discriminate.
    inversion H. eauto. }
  destruct (String.eqb_spec media_type "doc") as [->|_]; [|discriminate].
  intros H. split; [simpl; auto|].
  destruct result as [[| |b d]|]; try discriminate.
  destruct (mo_doc d) as [doc|]; try discriminate.
  destruct (ab_owner_id doc), (ab_id doc); try discriminate.
  inversion H. eauto.
Qed.

Lemma existsb_supported media_type :
  existsb (String.eqb media_type) VkClient.supported_media = true
  <-> In media_type VkClient.supported_media.
Proof.
  rewrite existsb_exists. split.
  - intros (x & Hin & E). apply String.eqb_eq in E. now subst.
  - intros H. exists media_type. split; [exact H|apply String.eqb_refl].
Qed.

(** [create_post] returns: [None], or the post id that [wall.post]
    answered. *)
Lemma create_post_returns text atts cr env w :
  (api w = true -> cfg_target_id (config w) <> None) ->
  exists o w',
    VkClient.create_post text (strings atts) cr env w = (Ret o, w')
    /\ (api w = false -> o = None /\ w' = w)
    /\ forall post_id, o = Some post_id ->
         exists h p evs,
           wall_post env h p = Ret (mkPostResponse (Some post_id))
           /\ trace w' = (h ++ [EvVk (WallPost p)])%list
           /\ h = (trace w ++ evs)%list.
Proof.
  intros Hok. unfold VkClient.create_post. rewrite join_given_strings.
  unfold bind at 1, get at 1.
  destruct (api w) eqn:Ha; cbn [negb].
  2:{ exists None, w. repeat split; auto. discriminate. }
  unfold bind at 1.
  destruct (VkClient.refresh_configured_target env w) as [[[]|e] w1] eqn:R.
  2:{ now apply refresh_configured_returns in R. }
  assert (K : keeps (fun w => (cfg_target_id (config w),
                                cfg_post_as_group (config w))) w w1).
  { eapply (respects_refresh_configured (keeps _)); [|exact R].
    apply refresh_keeps_target. }
  unfold keeps in K. injection K as K1 K2.
  assert (X1 : ext (fun _ => True) w w1).
  { eapply (respects_refresh_configured (ext _)); [|exact R].
    intros t. apply refresh_ext. now intros. }
  destruct X1 as [evs1 [T1 _]].
  unfold bind at 1, get at 1.
  assert (exists owner, VkClient.owner_id_of (config w1) = Ret owner) as [owner Ho].
  { unfold VkClient.owner_id_of. rewrite K1.
    destruct (cfg_target_id (config w)) as [t|]; [|now specialize (Hok eq_refl)].
    destruct (cfg_post_as_group (config w1)) as [[| |]|]; eauto. }
  rewrite Ho. cbn [of_res]. unfold bind at 1, ret at 1.
  unfold bind at 1, ret at 1.
  match goal with
  | |- context [try_except ?m ?h env w1] =>
      destruct (try_except m h env w1) as [r w2] eqn:T
  end.
  apply (try_except_ret_inv _ None) in T as (o & -> & T).
  exists o, w2. split; [reflexivity|]. split; [discriminate|].
  intros post_id ->.
  destruct T as [T | [T _]]; [|discriminate].
  apply bind_inv in T as (resp & w3 & G & T).
  destruct resp as [resp|]; [|discriminate].
  inversion T; subst; clear T.
  rewrite execute_with_retry_unfold in G.
  apply retry_loop_success in G as (evs2 & T3 & An & _ & _).
  destruct resp as [pid]. cbn [resp_post_id] in H0. subst pid.
  eexists _, _, (evs1 ++ evs2)%list. split; [exact An|].
  split; [now rewrite T3, app_assoc|]. now rewrite T1, <- app_assoc.
Qed.

(** [upload_media] on a configured client and a supported media type
    returns: [None], or the token built from what the upload answered. *)
Lemma upload_media_returns file_path media_type kwargs env w :
  upload w = true ->
  In media_type VkClient.supported_media ->
  exists o w',
    VkClient.upload_media file_path media_type kwargs env w = (Ret o, w')
    /\ forall tok, o = Some tok ->
         exists h result owner_id id,
           vk_upload env h media_type file_path = Ret result
           /\ VkClient.format_attachment media_type (Some result) = Ret (Some tok)
           /\ tok = (media_type ++ str_of_Z owner_id ++ "_" ++ str_of_Z id)%string.
Proof.
  intros Hu Hin. unfold VkClient.upload_media. unfold bind at 1, get at 1.
  rewrite Hu. cbn [negb].
  destruct (existsb (String.eqb media_type) VkClient.supported_media) eqn:S.
  2:{ apply existsb_supported in Hin. congruence. }
  cbn [negb].
  match goal with
  | |- context [try_except ?m ?h env w] =>
      destruct (try_except m h env w) as [r w2] eqn:T
  end.
  apply (try_except_ret_inv _ None) in T as (o & -> & T).
  exists o, w2. split; [reflexivity|].
  intros tok ->.
  destruct T as [T | [T _]]; [|discriminate].
  apply bind_inv in T as (w0 & ? & G0 & T). apply get_inv in G0 as [-> ->].
  apply bind_inv in T as (env0 & ? & G1 & T). apply ask_inv in G1 as [-> ->].
  destruct (VkClient.path_exists file_path w); cbn [negb] in T; [|discriminate].
  destruct (os_getsize env (trace w) file_path >? VkClient.max_size_of media_type);
    [discriminate|].
  apply bind_inv in T as ([] & w1 & R & T).
  apply bind_inv in T as (result & w3 & G & T).
  destruct (VkClient.format_attachment media_type result) as [[tok'|]|e] eqn:F;
    try discriminate.
  inversion T; subst; clear T.
  destruct result as [result|]; [|discriminate].
  rewrite execute_with_retry_unfold in G.
  apply retry_loop_success in G as (evs2 & T3 & An & _ & _).
  destruct (format_attachment_token _ _ _ F) as [_ (owner_id & id & Htok)].
  exists (trace w1 ++ evs2)%list, result, owner_id, id. auto.
Qed.

Lemma upload_media_rejects file_path media_type kwargs env w :
  upload w = true ->
  ~ In media_type VkClient.supported_media ->
  VkClient.upload_media file_path media_type kwargs env w =
  (Raise (mkExn ValueError "unsupported media type"), w).
Proof.
  intros Hu Hin. unfold VkClient.upload_media. unfold bind at 1, get at 1.
  rewrite Hu. cbn [negb].
  destruct (existsb (String.eqb media_type) VkClient.supported_media) eqn:S;
    [|reflexivity].
  apply existsb_supported in S. contradiction.
Qed.

#[export] Instance client_ok_StepRel : StepRel client_ok_stays.
Proof. split; unfold client_ok_stays; auto. Qed.

Lemma client_ok_new_world : client_ok new_world.
Proof. discriminate. Qed.

Lemma client_ok_configure access_token t g env w w1 :
  VkClient.configure access_token t g env w = (Ret tt, w1) -> client_ok w1.
Proof.
  intros H _. apply configure_ok in H as (-> & _). discriminate.
Qed.

Lemma refresh_configured_client_ok :
  respects client_ok_stays VkClient.refresh_configured_target.
Proof.
  intros env w r w' H Hok Ha.
  pose proof (respects_refresh_configured (keeps _) refresh_keeps_target
                _ _ _ _ H) as K.
  unfold keeps in K. injection K as K _. rewrite K.
  unfold VkClient.refresh_configured_target, bind, get in H.
  destruct (cfg_target_id (config w)) as [t|] eqn:Ct; [discriminate|].
  inversion H; subst. unfold client_ok in Hok. rewrite Ct in Hok.
  now apply Hok.
Qed.

Lemma create_post_client_ok text atts cr :
  respects client_ok_stays (VkClient.create_post text atts cr).
Proof.
  unfold VkClient.create_post. respects_auto;
    try apply refresh_configured_client_ok;
    intros Hok; exact Hok.
Qed.

(** C10 (amended). On a client that is new or was configured,
    [create_post], given attachments that are strings (or none), never
    raises: every failure, an uninitialised API client included, gives
    [None], and a value other than [None] is the post id that [wall.post]
    answered.  On a client with an uploader, [upload_media] with one of the
    media types photo, video, audio and doc never raises: every failure
    gives [None], and a value other than [None] is the token
    [<type><owner_id>_<id>] built from what the upload answered; with any
    other media type it raises [ValueError]. *)
Theorem C10_returns_or_raises env w text atts cr file_path media_type kwargs :
  client_ok w ->
  (exists o w',
      VkClient.create_post text (strings atts) cr env w = (Ret o, w')
      /\ (api w = false -> o = None /\ w' = w)
      /\ forall post_id, o = Some post_id ->
           exists h p evs,
             wall_post env h p = Ret (mkPostResponse (Some post_id))
             /\ trace w' = (h ++ [EvVk (WallPost p)])%list
             /\ h = (trace w ++ evs)%list)
  /\ (upload w = true ->
      In media_type VkClient.supported_media ->
      exists o w',
        VkClient.upload_media file_path media_type kwargs env w = (Ret o, w')
        /\ forall tok, o = Some tok ->
             exists h result owner_id id,
               vk_upload env h media_type file_path = Ret result
               /\ VkClient.format_attachment media_type (Some result)
                  = Ret (Some tok)
               /\ tok = (media_type ++ str_of_Z owner_id ++ "_"
                                    ++ str_of_Z id)%string)
  /\ (upload w = true ->
      ~ In media_type VkClient.supported_media ->
      VkClient.upload_media file_path media_type kwargs env w =
      (Raise (mkExn ValueError "unsupported media type"), w)).
Proof.
  intros Hok. split; [|split].
  - now apply create_post_returns.
  - now apply upload_media_returns.
  - now apply upload_media_rejects.
Qed.

Lemma C10_returns_or_raises_witness :
  let w := configured_world in
  let env := calm_env in
  (exists o w',
      VkClient.create_post (Some "hello") (strings (Some ["photo-100_5"])) None
                           env w = (Ret o, w')
      /\ (api w = false -> o = None /\ w' = w)
      /\ forall post_id, o = Some post_id ->
           exists h p evs,
             wall_post env h p = Ret (mkPostResponse (Some post_id))
             /\ trace w' = (h ++ [EvVk (WallPost p)])%list
             /\ h = (trace w ++ evs)%list)
  /\ (upload w = true ->
      In "photo" VkClient.supported_media ->
      exists o w',
        VkClient.upload_media "temp_files/a.jpg" "photo" [] env w = (Ret o, w')
        /\ forall tok, o = Some tok ->
             exists h result owner_id id,
               vk_upload env h "photo" "temp_files/a.jpg" = Ret result
               /\ VkClient.format_attachment "photo" (Some result)
                  = Ret (Some tok)
               /\ tok = ("photo" ++ str_of_Z owner_id ++ "_"
                                 ++ str_of_Z id)%string)
  /\ (upload w = true ->
      ~ In "photo" VkClient.supported_media ->
      VkClient.upload_media "temp_files/a.jpg" "photo" [] env w =
      (Raise (mkExn ValueError "unsupported media type"), w)).
Proof.
  intros w env.
  apply (C10_returns_or_raises env w (Some "hello") (Some ["photo-100_5"]) None
           "temp_files/a.jpg" "photo" []).
  unfold client_ok. simpl. discriminate.
Defined.

(** The claim as stated fails: an unsupported media type is not turned into
    [None]; [upload_media] raises [ValueError] to its caller. *)
Lemma C10_counterexample :
  upload configured_world = true
  /\ VkClient.upload_media "temp_files/s.webp" "sticker" [] calm_env
                           configured_world
     = (Raise (mkExn ValueError "unsupported media type"), configured_world).
Proof. split; reflexivity. Qed.

(** Outside the amended claim: an attachment list that holds [None], which
    [AudioHandler._publish_post] builds after a failed upload, makes
    [','.join] raise [TypeError] before the [try] of [create_post]. *)
Example create_post_none_item_raises :
  fst (VkClient.create_post (Some "hello") (Some [None]) None calm_env
                            configured_world)
  = Raise (mkExn TypeError "sequence item 0: expected str instance, NoneType found").
Proof. reflexivity. Qed.

(** An upload that goes through: the token of the uploaded photo. *)
Example upload_photo_token :
  let w := FileManager.created "temp_files/a.jpg" configured_world in
  fst (VkClient.upload_media "temp_files/a.jpg" "photo" [] calm_env w)
  = Ret (Some "photo-100_5").
Proof. reflexivity. Qed.

(** * Further properties *)

(** ** config/init.py *)

(** X1. [format_owner_id] always yields a non-positive id of the same
    magnitude as its argument; it ignores the sign of the argument and
    applying it twice changes nothing. *)
Theorem X1_format_owner_id_normalises t :
  format_owner_id t <= 0
  /\ Z.abs (format_owner_id t) = Z.abs t
  /\ format_owner_id (- t) = format_owner_id t
  /\ format_owner_id (format_owner_id t) = format_owner_id t.
Proof.
  rewrite !format_owner_id_spec. repeat split; lia.
Qed.

(** ** services/vk/client.py: [configure] *)

(** X2. With a non-empty token and a non-zero target id, [configure] stores
    the token, [abs(target_id)] and the mode before it creates the session.
    When the session cannot be created the exception reaches the caller and
    the client keeps its previous API objects next to the new
    configuration. *)
Theorem X2_configure_outcomes tok t g env w :
  truthy_str tok = true -> t <> 0 ->
  exists r w1,
    VkClient.configure tok t g env w = (r, w1)
    /\ config w1 = mkConfig (Some tok) (Some (Z.abs t)) (Some g)
    /\ trace w1 = trace w
    /\ match vk_session env (trace w) tok with
       | None => r = Ret tt /\ api w1 = true /\ upload w1 = true
       | Some e => r = Raise e /\ api w1 = api w /\ upload w1 = upload w
       end.
Proof.
  intros Ht Hz. unfold VkClient.configure, truthy_int. rewrite Ht.
  destruct (Z.eqb_spec t 0) as [|_]; [contradiction|]. cbn [negb andb].
  unfold bind, modify, VkClient._reinitialize_client, get, ask, bind. simpl.
  assert (Hf : (if g =? 1 then Z.abs (format_owner_id t) else Z.abs t) = Z.abs t).
  { destruct (g =? 1); [rewrite format_owner_id_spec; lia | reflexivity]. }
  destruct (vk_session env (trace w) tok) as [e|]; simpl;
    do 2 eexists; (split; [reflexivity|]); simpl; rewrite Hf; auto.
Qed.

Lemma X2_configure_outcomes_witness :
  exists r w1,
    VkClient.configure (Some "tok") (-100) 1 calm_env new_world = (r, w1)
    /\ config w1 = mkConfig (Some (Some "tok")) (Some (Z.abs (-100))) (Some 1)
    /\ trace w1 = trace new_world
    /\ match vk_session calm_env (trace new_world) (Some "tok") with
       | None => r = Ret tt /\ api w1 = true /\ upload w1 = true
       | Some e => r = Raise e /\ api w1 = api new_world
                   /\ upload w1 = upload new_world
       end.
Proof.
  apply (X2_configure_outcomes (Some "tok") (-100) 1 calm_env new_world);
    [reflexivity | lia].
Defined.

(** ** services/vk/client.py: [_execute_with_retry] *)

Lemma retry_loop_run {A} req (answer : Env -> history -> res A) env maxr n :
  forall i w r w',
    (0 < n)%nat -> Z.of_nat (i + n) = maxr ->
    VkClient.retry_loop (vk_call req answer) maxr
                        (map Z.of_nat (seq i n)) env w = (r, w') ->
    exists k : nat,
      Z.of_nat (i + k) < maxr
      /\ trace w' = (trace w ++ failed_attempts (EvVk req) (Z.of_nat i) k
                             ++ [EvVk req])%list
      /\ (now w' == now w + inject_Z (2 ^ Z.of_nat (i + k) - 2 ^ Z.of_nat i))%Q
      /\ r <> Ret None
      /\ (forall e, r = Raise e -> is_VkApiError e = true ->
                    Z.of_nat (i + k) = maxr - 1).
Proof.
  induction n as [|n IH]; intros i w r w' Hn Hsum H; [lia|].
  cbn [seq map VkClient.retry_loop] in H. unfold vk_call at 1 in H.
  assert (Hzero : forall w0 : World,
             (now w0 == now w0 + inject_Z (2 ^ Z.of_nat (i + 0) - 2 ^ Z.of_nat i))%Q).
  { intros w0. rewrite Nat.add_0_r, Z.sub_diag. unfold inject_Z.
    rewrite Qplus_0_r. reflexivity. }
  destruct (answer env (trace w)) as [a|e]; cbn [of_res ret raise] in H.
  - injection H as <- <-. exists 0%nat.
    split; [lia|]. split; [reflexivity|]. split; [exact (Hzero w)|].
    split; discriminate.
  - destruct (is_VkApiError e) eqn:Hv.
    + destruct (Z.eqb_spec (Z.of_nat i) (maxr - 1)) as [Hl|Hl].
      * injection H as <- <-. exists 0%nat.
        split; [lia|]. split; [reflexivity|]. split; [exact (Hzero w)|].
        split; [discriminate|]. intros. lia.
      * unfold bind at 1, sleep, modify in H. cbv beta iota in H.
        apply IH in H; [|lia|lia].
        destruct H as (k & Hk & Ht & Hq & Hr & He).
        exists (S k). repeat split.
        -- lia.
        -- rewrite Ht. cbn [failed_attempts].
           change (trace (slept (2 ^ Z.of_nat i) (log_event (EvVk req) w)))
             with ((trace w ++ [EvVk req]) ++ [EvSleep (2 ^ Z.of_nat i)])%list.
           rewrite <- !app_assoc. cbn [app].
           replace (Z.of_nat (S i)) with (Z.of_nat i + 1) by lia. reflexivity.
        -- rewrite Hq.
           change (now (slept (2 ^ Z.of_nat i) (log_event (EvVk req) w)))
             with (now w + inject_Z (2 ^ Z.of_nat i))%Q.
           rewrite <- Qplus_assoc, <- inject_Z_plus.
           replace (i + S k)%nat with (S i + k)%nat by lia.
           replace (2 ^ Z.of_nat i + (2 ^ Z.of_nat (S i + k) - 2 ^ Z.of_nat (S i)))
             with (2 ^ Z.of_nat (S i + k) - 2 ^ Z.of_nat i); [reflexivity|].
           rewrite (Nat2Z.inj_succ i), Z.pow_succ_r by lia. lia.
        -- exact Hr.
        -- intros e0 H1 H2. rewrite <- (He e0 H1 H2). lia.
    + injection H as <- <-. exists 0%nat.
      split; [lia|]. split; [reflexivity|]. split; [exact (Hzero w)|].
      split; [discriminate|].
      intros e0 H1 H2. injection H1 as <-. congruence.
Qed.

(** X3. A whole run of [_execute_with_retry] around one API call, with at
    least one attempt allowed: the call is made [k+1] times for some
    [k < max_retries], the [k] failures are followed by sleeps of 1, 2, 4,
    ... seconds and nothing follows the last call, so that [2^k - 1]
    seconds are spent waiting; the run does not end with [None]; and a
    [VkApiError] reaches the caller only after [max_retries] calls. *)
Theorem X3_execute_with_retry_run {A} req (answer : Env -> history -> res A)
        env w r w' :
  0 < max_retries env ->
  VkClient._execute_with_retry (vk_call req answer) env w = (r, w') ->
  exists k : nat,
    Z.of_nat k < max_retries env
    /\ trace w' = (trace w ++ failed_attempts (EvVk req) 0 k ++ [EvVk req])%list
    /\ (now w' == now w + inject_Z (2 ^ Z.of_nat k - 1))%Q
    /\ r <> Ret None
    /\ (forall e, r = Raise e -> is_VkApiError e = true ->
                  Z.of_nat k = max_retries env - 1).
Proof.
  intros Hpos H.
  unfold VkClient._execute_with_retry, bind, ask, range in H.
  apply (retry_loop_run req answer env (max_retries env)
                        (Z.to_nat (max_retries env)) 0%nat) in H; [|lia|lia].
  exact H.
Qed.

Lemma X3_execute_with_retry_run_witness :
  exists k : nat,
    Z.of_nat k < max_retries stormy_env
    /\ trace (snd (VkClient._execute_with_retry post_hello stormy_env new_world))
       = (trace new_world
            ++ failed_attempts (EvVk (WallPost hello_params)) 0 k
            ++ [EvVk (WallPost hello_params)])%list
    /\ (now (snd (VkClient._execute_with_retry post_hello stormy_env new_world))
        == now new_world + inject_Z (2 ^ Z.of_nat k - 1))%Q
    /\ fst (VkClient._execute_with_retry post_hello stormy_env new_world)
       <> Ret None
    /\ (forall e,
          fst (VkClient._execute_with_retry post_hello stormy_env new_world)
          = Raise e ->
          is_VkApiError e = true -> Z.of_nat k = max_retries stormy_env - 1).
Proof.
  apply (X3_execute_with_retry_run (WallPost hello_params)
           (fun env h => wall_post env h hello_params) stormy_env new_world).
  - simpl. lia.
  - reflexivity.
Defined.

Lemma execute_with_retry_none {A} (func : M A) env w :
  max_retries env <= 0 ->
  VkClient._execute_with_retry func env w = (Ret None, w).
Proof.
  intros H. unfold VkClient._execute_with_retry, bind, ask, range.
  replace (Z.to_nat (max_retries env)) with 0%nat by lia. reflexivity.
Qed.

(** X4. A client built with [max_retries <= 0] never calls the API:
    [_execute_with_retry] returns [None] at once, and [create_post]
    therefore never returns a post id and sends nothing but, at most, a
    request to the identity provider. *)
Theorem X4_no_attempt_allowed env w text atts cr r w' :
  max_retries env <= 0 ->
  VkClient.create_post text atts cr env w = (r, w') ->
  (forall A (func : M A) w0,
      VkClient._execute_with_retry func env w0 = (Ret None, w0))
  /\ (forall post_id, r <> Ret (Some post_id))
  /\ ext is_http_refresh w w'.
Proof.
  intros Hz H. split; [intros; now apply execute_with_retry_none|].
  unfold VkClient.create_post in H.
  unfold bind at 1, get at 1 in H.
  destruct (api w); cbn [negb] in H.
  2:{ injection H as <- <-. split; [discriminate | apply step_refl]. }
  unfold bind at 1 in H.
  destruct (VkClient.refresh_configured_target env w) as [[[]|e] w1] eqn:E.
  2:{ now apply refresh_configured_returns in E. }
  assert (X : ext is_http_refresh w w1).
  { eapply (respects_refresh_configured (ext _)); [|exact E].
    intros t. apply refresh_ext. intros rt. now exists rt. }
  unfold bind at 1, get at 1 in H.
  destruct (VkClient.owner_id_of (config w1)) as [o|e0];
    cbn [of_res] in H; unfold bind at 1 in H; unfold ret at 1, raise at 1 in H.
  - destruct (VkClient.join_given atts) as [joined|e1];
      cbn [of_res] in H; unfold bind at 1 in H;
      [unfold ret at 1 in H | unfold raise at 1 in H].
    + unfold try_except, bind in H.
      rewrite (execute_with_retry_none _ _ _ Hz) in H.
      unfold raise, ret in H. injection H as <- <-.
      split; [discriminate | exact X].
    + injection H as <- <-. split; [discriminate | exact X].
  - injection H as <- <-. split; [discriminate | exact X].
Qed.

Lemma X4_no_attempt_allowed_witness :
  (forall A (func : M A) w0,
      VkClient._execute_with_retry func (with_max_retries 0 calm_env) w0
      = (Ret None, w0))
  /\ (forall post_id,
        fst (VkClient.create_post (Some "hello") None None
               (with_max_retries 0 calm_env) configured_world)
        <> Ret (Some post_id))
  /\ ext is_http_refresh configured_world
         (snd (VkClient.create_post (Some "hello") None None
                 (with_max_retries 0 calm_env) configured_world)).
Proof.
  apply (X4_no_attempt_allowed (with_max_retries 0 calm_env) configured_world
           (Some "hello") None None).
  - simpl. lia.
  - reflexivity.
Defined.

(** ** services/vk/client.py: refreshing the credential *)

Lemma opt_str_eqb_eq a b : opt_str_eqb a b = true <-> a = b.
Proof.
  destruct a as [x|], b as [y|]; simpl; split; try congruence.
  - intros H. apply String.eqb_eq in H. now subst.
  - intros H. injection H as ->. apply String.eqb_refl.
Qed.

(** X5. When the stored credential is not due (more than 300 seconds
    left), [refresh_token_if_needed] sends nothing and leaves the store
    alone.  It returns [True] when the client already uses the stored
    token; otherwise it installs the stored token and returns [True] if a
    session can be created with it and [False] if not, the stored token
    staying in the configuration either way. *)
Theorem X5_refresh_not_due_syncs_token env w t cred rest expiry :
  supabase env = true ->
  db_exec env (trace w) = None ->
  VkClient.select_active_targets t w = cred :: rest ->
  vt_expires_at cred = ExpTime expiry ->
  ~ (expiry <= now w + inject_Z 300)%Q ->
  exists b w',
    VkClient.refresh_token_if_needed t env w = (Ret b, w')
    /\ trace w' = trace w
    /\ vk_targets w' = vk_targets w
    /\ VkClient.config_get_access_token (config w') = vt_access_token cred
    /\ (b = true <->
        VkClient.config_get_access_token (config w) = vt_access_token cred
        \/ vk_session env (trace w) (vt_access_token cred) = None)
    /\ (VkClient.config_get_access_token (config w) = vt_access_token cred ->
        w' = w)
    /\ (VkClient.config_get_access_token (config w) <> vt_access_token cred ->
        b = true -> api w' = true /\ upload w' = true).
Proof.
  intros Hs Hdb Hsel Hexp Hnot.
  unfold VkClient.refresh_token_if_needed, bind at 1, ask.
  rewrite Hs. cbn [negb].
  unfold try_except, bind at 1, execute. rewrite Hdb.
  unfold bind at 1, get. rewrite Hsel, Hexp.
  destruct (Qle_bool expiry (now w + inject_Z 300)) eqn:Q.
  { apply Qle_bool_iff in Q. contradiction. }
  destruct (opt_str_eqb (VkClient.config_get_access_token (config w))
                        (vt_access_token cred)) eqn:Heq; cbn [negb].
  - apply opt_str_eqb_eq in Heq.
    unfold bind, ret. exists true, w. repeat split; auto; congruence.
  - assert (Hne : VkClient.config_get_access_token (config w)
                  <> vt_access_token cred).
    { intros C. apply opt_str_eqb_eq in C. congruence. }
    unfold bind, modify, VkClient._reinitialize_client, get, ask, bind.
    cbn [VkClient.set_access_token set_config config cfg_access_token trace].
    destruct (vk_session env (trace w) (vt_access_token cred)) as [e|] eqn:Hv;
      unfold raise, ret, modify; do 2 eexists; (split; [reflexivity|]);
      cbn; repeat split; auto; try congruence; try tauto.
    intros [C|C]; [contradiction | discriminate].
Qed.

Lemma X5_refresh_not_due_syncs_token_witness :
  exists b w',
    VkClient.refresh_token_if_needed 100 calm_env
      (set_vk_targets [mkVkTarget 100 true (Some "newer") (Some "r1")
                                  (ExpTime (5000 # 1))] world_299)
    = (Ret b, w')
    /\ trace w' = []
    /\ vk_targets w' = [mkVkTarget 100 true (Some "newer") (Some "r1")
                                   (ExpTime (5000 # 1))]
    /\ VkClient.config_get_access_token (config w') = Some "newer"
    /\ (b = true <->
        Some "tok" = Some "newer"
        \/ vk_session calm_env [] (Some "newer") = None)
    /\ (Some "tok" = Some "newer" -> w' =
          set_vk_targets [mkVkTarget 100 true (Some "newer") (Some "r1")
                                     (ExpTime (5000 # 1))] world_299)
    /\ (Some "tok" <> Some "newer" ->
        b = true -> api w' = true /\ upload w' = true).
Proof.
  apply (X5_refresh_not_due_syncs_token calm_env
           (set_vk_targets [mkVkTarget 100 true (Some "newer") (Some "r1")
                                       (ExpTime (5000 # 1))] world_299)
           100
           (mkVkTarget 100 true (Some "newer") (Some "r1") (ExpTime (5000 # 1)))
           [] (5000 # 1)); try reflexivity.
  vm_compute. intros C. apply C. reflexivity.
Defined.

Lemma update_selected t a rf ex l :
  filter (fun r => (vt_target_id r =? t) && vt_is_active r)
         (map (VkClient.update_target_tokens t a rf ex) l)
  = map (fun r => mkVkTarget (vt_target_id r) (vt_is_active r) a rf (ExpTime ex))
        (filter (fun r => (vt_target_id r =? t) && vt_is_active r) l).
Proof.
  induction l as [|r l IH]; [reflexivity|].
  cbn [map filter].
  assert (H : VkClient.update_target_tokens t a rf ex r =
              if (vt_target_id r =? t) && vt_is_active r
              then mkVkTarget (vt_target_id r) (vt_is_active r) a rf (ExpTime ex)
              else r) by reflexivity.
  rewrite H.
  destruct ((vt_target_id r =? t) && vt_is_active r) eqn:E;
    cbn [vt_target_id vt_is_active]; rewrite E; cbn [map negb];
    rewrite IH; reflexivity.
Qed.

Lemma update_others t a rf ex l :
  filter (fun r => negb ((vt_target_id r =? t) && vt_is_active r))
         (map (VkClient.update_target_tokens t a rf ex) l)
  = filter (fun r => negb ((vt_target_id r =? t) && vt_is_active r)) l.
Proof.
  induction l as [|r l IH]; [reflexivity|].
  cbn [map filter].
  assert (H : VkClient.update_target_tokens t a rf ex r =
              if (vt_target_id r =? t) && vt_is_active r
              then mkVkTarget (vt_target_id r) (vt_is_active r) a rf (ExpTime ex)
              else r) by reflexivity.
  rewrite H.
  destruct ((vt_target_id r =? t) && vt_is_active r) eqn:E;
    cbn [vt_target_id vt_is_active]; rewrite E; cbn [map negb];
    rewrite IH; reflexivity.
Qed.

(** X6. A due credential, the application identity configured, and the
    identity provider answering 200 with a non-empty access token and a
    lifetime [expires_in] (3300 seconds when the answer has none) for which
    [now + expires_in] is a time that [datetime.fromtimestamp] accepts
    (years 1 to 9999): one request is sent with the stored refresh token;
    every active row of the target receives the new access token, the new
    refresh token and the expiry [now + expires_in]; the rows of other
    targets and inactive rows are untouched; the client uses the new token;
    the result is [True]. *)
Theorem X6_refresh_due_persists env w t cred rest data :
  supabase env = true ->
  (forall h, db_exec env h = None) ->
  (forall h tok, vk_session env h tok = None) ->
  identity_configured env = true ->
  VkClient.select_active_targets t w = cred :: rest ->
  refresh_due cred (now w) = true ->
  http_refresh env (trace w) (vt_refresh_token cred)
    = Ret (mkHttpResponse 200 (Some data)) ->
  truthy_str (tb_access_token data) = true ->
  VkClient.in_datetime_range (now w + lifetime_of data) = true ->
  exists w',
    VkClient.refresh_token_if_needed t env w = (Ret true, w')
    /\ trace w' = (trace w ++ [EvHttpRefresh (vt_refresh_token cred)])%list
    /\ VkClient.select_active_targets t w'
       = map (fun r => mkVkTarget (vt_target_id r) (vt_is_active r)
                         (tb_access_token data) (tb_refresh_token data)
                         (ExpTime (now w + lifetime_of data)%Q))
             (VkClient.select_active_targets t w)
    /\ other_targets t w' = other_targets t w
    /\ VkClient.config_get_access_token (config w') = tb_access_token data
    /\ api w' = true /\ upload w' = true.
Proof.
  intros Hs Hdb Hv Hid Hsel Hdue Hhttp Htok Hrange.
  unfold lifetime_of in Hrange.
  apply andb_true_iff in Hid as [Hid1 Hid2].
  assert (E : VkClient.refresh_and_install t cred env w =
              (Ret true,
               set_api true true
                 (VkClient.set_access_token (tb_access_token data)
                    (set_vk_targets
                       (map (VkClient.update_target_tokens t
                               (tb_access_token data) (tb_refresh_token data)
                               (now w + lifetime_of data)%Q)
                            (vk_targets w))
                       (log_event (EvHttpRefresh (vt_refresh_token cred)) w))))).
  { unfold VkClient.refresh_and_install, VkClient._refresh_vk_token.
    unfold bind at 1, try_except, bind at 1, ask. rewrite Hs, andb_true_r.
    assert (F : (if negb (truthy_str (vt_refresh_token cred))
                 then execute;;; (w <- get;;
                        match VkClient.select_active_targets t w with
                        | [] => ret None
                        | r :: _ => ret (Some (vt_refresh_token r))
                        end)
                 else ret (Some (vt_refresh_token cred))) env w
                = (Ret (Some (vt_refresh_token cred)), w)).
    { destruct (truthy_str (vt_refresh_token cred)); cbn [negb]; [reflexivity|].
      unfold bind, execute, get. rewrite Hdb, Hsel. reflexivity. }
    unfold bind at 1. rewrite F.
    rewrite Hid1, Hid2. cbn [negb orb].
    unfold bind at 1, VkClient.http_get_access_token. rewrite Hhttp.
    cbn [of_res ret status_code json_body Z.eqb Pos.eqb].
    unfold bind at 1, bind at 1, get at 1, bind at 1, VkClient.fromtimestamp.
    cbn [now log_event]. rewrite Hrange. cbn [of_res]. unfold ret at 1.
    unfold bind at 1, execute.
    rewrite Hdb. unfold modify at 1, ret at 1. cbv beta iota.
    rewrite Htok. unfold bind, modify, VkClient._reinitialize_client, get, ask,
      bind, ret.
    cbn [VkClient.set_access_token set_config config cfg_access_token].
    rewrite Hv. reflexivity. }
  eexists. split.
  - unfold VkClient.refresh_token_if_needed, bind at 1, ask.
    rewrite Hs. cbn [negb].
    unfold try_except, bind at 1, execute. rewrite Hdb.
    unfold bind at 1, get. rewrite Hsel.
    unfold refresh_due in Hdue.
    destruct (vt_expires_at cred) as [|ex|]; [| |discriminate];
      rewrite ?Hdue, E; reflexivity.
  - cbn [trace set_api VkClient.set_access_token set_config set_vk_targets
             log_event]. split; [reflexivity|].
    unfold VkClient.select_active_targets, other_targets.
    cbn [vk_targets set_api VkClient.set_access_token set_config set_vk_targets
                    log_event].
    rewrite update_selected, update_others. repeat split.
Qed.

Lemma X6_refresh_due_persists_witness :
  exists w',
    VkClient.refresh_token_if_needed 100 calm_env world_299 = (Ret true, w')
    /\ trace w' = (trace world_299 ++ [EvHttpRefresh (vt_refresh_token cred_299)])%list
    /\ VkClient.select_active_targets 100 w'
       = map (fun r => mkVkTarget (vt_target_id r) (vt_is_active r)
                         (Some "fresh") (Some "r2")
                         (ExpTime (now world_299
                                   + lifetime_of (mkTokenBody (Some "fresh")
                                                    (Some "r2") None))%Q))
             (VkClient.select_active_targets 100 world_299)
    /\ other_targets 100 w' = other_targets 100 world_299
    /\ VkClient.config_get_access_token (config w') = Some "fresh"
    /\ api w' = true /\ upload w' = true.
Proof.
  apply (X6_refresh_due_persists calm_env world_299 100 cred_299 []
           (mkTokenBody (Some "fresh") (Some "r2") None)); reflexivity.
Defined.

(** X7. [refresh_token_if_needed] never raises.  It leaves the target id,
    the posting mode, the mapping tables, the channel table and the disk as
    they were.  Without a settings store, or when the store cannot be
    queried, it returns [False] and changes nothing at all. *)
Theorem X7_refresh_never_raises t env w :
  exists b w',
    VkClient.refresh_token_if_needed t env w = (Ret b, w')
    /\ cfg_target_id (config w') = cfg_target_id (config w)
    /\ cfg_post_as_group (config w') = cfg_post_as_group (config w)
    /\ posts w' = posts w /\ telegram_channels w' = telegram_channels w
    /\ data_txt w' = data_txt w /\ fs w' = fs w
    /\ active_files w' = active_files w
    /\ (supabase env = false \/ db_exec env (trace w) <> None ->
        b = false /\ w' = w).
Proof.
  destruct (VkClient.refresh_token_if_needed t env w) as [[b|e] w'] eqn:E.
  2:{ now apply refresh_returns in E. }
  exists b, w'. split; [reflexivity|].
  assert (K : keeps (fun w => (cfg_target_id (config w),
                               cfg_post_as_group (config w), posts w,
                               telegram_channels w, data_txt w, fs w,
                               active_files w)) w w').
  { eapply respects_elim; [|exact E].
    unfold_refresh. respects_auto; reflexivity. }
  unfold keeps in K. injection K as K1 K2 K3 K4 K5 K6 K7.
  repeat (split; [assumption|]).
  unfold VkClient.refresh_token_if_needed, bind at 1, ask in E.
  intros [Hs|Hdb].
  - rewrite Hs in E. cbn [negb] in E. now injection E as <- <-.
  - destruct (supabase env); cbn [negb] in E; [|now injection E as <- <-].
    unfold try_except, bind at 1, execute in E.
    destruct (db_exec env (trace w)); [|contradiction].
    now injection E as <- <-.
Qed.

(** X8. A due credential whose refresh the identity provider refuses (any
    status other than 200, or a failed request): the result is [False] and
    nothing changes but the history, which records the one request. *)
Theorem X8_refresh_refused env w t cred rest :
  supabase env = true ->
  db_exec env (trace w) = None ->
  identity_configured env = true ->
  VkClient.select_active_targets t w = cred :: rest ->
  refresh_due cred (now w) = true ->
  match http_refresh env (trace w) (vt_refresh_token cred) with
  | Ret response => status_code response <> 200
  | Raise _ => True
  end ->
  VkClient.refresh_token_if_needed t env w
  = (Ret false, log_event (EvHttpRefresh (vt_refresh_token cred)) w).
Proof.
  intros Hs Hdb Hid Hsel Hdue Hhttp.
  apply andb_true_iff in Hid as [Hid1 Hid2].
  assert (E : VkClient.refresh_and_install t cred env w =
              (Ret false, log_event (EvHttpRefresh (vt_refresh_token cred)) w)).
  { unfold VkClient.refresh_and_install, VkClient._refresh_vk_token.
    unfold bind at 1, try_except, bind at 1, ask. rewrite Hs, andb_true_r.
    assert (F : (if negb (truthy_str (vt_refresh_token cred))
                 then execute;;; (w <- get;;
                        match VkClient.select_active_targets t w with
                        | [] => ret None
                        | r :: _ => ret (Some (vt_refresh_token r))
                        end)
                 else ret (Some (vt_refresh_token cred))) env w
                = (Ret (Some (vt_refresh_token cred)), w)).
    { destruct (truthy_str (vt_refresh_token cred)); cbn [negb]; [reflexivity|].
      unfold bind, execute, get. rewrite Hdb, Hsel. reflexivity. }
    unfold bind at 1. rewrite F, Hid1, Hid2. cbn [negb orb].
    unfold bind at 1, VkClient.http_get_access_token.
    destruct (http_refresh env (trace w) (vt_refresh_token cred))
      as [response|e]; cbn [of_res ret raise].
    - destruct (Z.eqb_spec (status_code response) 200); [contradiction|].
      reflexivity.
    - reflexivity. }
  unfold VkClient.refresh_token_if_needed, bind at 1, ask.
  rewrite Hs. cbn [negb].
  unfold try_except, bind at 1, execute. rewrite Hdb.
  unfold bind at 1, get. rewrite Hsel.
  unfold refresh_due in Hdue.
  destruct (vt_expires_at cred) as [|ex|]; [| |discriminate];
    rewrite ?Hdue, E; reflexivity.
Qed.

Lemma X8_refresh_refused_witness :
  VkClient.refresh_token_if_needed 100
    (mkEnv true (Some "51234567") (Some "s3cr3t") 0 3 (fun _ => None)
           (fun _ _ => None) (wall_post calm_env) (wall_getById calm_env)
           (wall_edit calm_env) (vk_upload calm_env)
           (fun _ _ => Ret (mkHttpResponse 401 None))
           (tg_get_file calm_env) (tg_download calm_env)
           (os_getsize calm_env) (guess_type calm_env) (uuid4_hex calm_env)
           (tg_get_chat calm_env) (get_channel_settings_by_id calm_env)
           (unlink_error calm_env) (data_txt_error calm_env))
    world_299
  = (Ret false, log_event (EvHttpRefresh (vt_refresh_token cred_299)) world_299).
Proof.
  apply (X8_refresh_refused _ world_299 100 cred_299 []);
    try reflexivity.
  simpl. lia.
Defined.

(** ** services/vk/client.py: [upload_media] *)

(** X9. For a supported media type, [upload_media] checks the file before
    anything else: when the file is missing, or larger than the limit of
    its type, the result is [None] and nothing has happened, neither a
    credential refresh nor an upload. *)
Theorem X9_upload_media_local_checks file_path media_type kwargs env w :
  upload w = true ->
  In media_type VkClient.supported_media ->
  VkClient.path_exists file_path w = false
  \/ os_getsize env (trace w) file_path > VkClient.max_size_of media_type ->
  VkClient.upload_media file_path media_type kwargs env w = (Ret None, w).
Proof.
  intros Hu Hin Hbad. apply existsb_supported in Hin.
  unfold VkClient.upload_media, bind at 1, get at 1.
  rewrite Hu, Hin. cbn [negb].
  unfold try_except, bind at 1, get at 1, bind at 1, ask.
  destruct (VkClient.path_exists file_path w) eqn:Hp; cbn [negb];
    [|reflexivity].
  destruct Hbad as [Hbad|Hbad]; [discriminate|].
  destruct (Z.gtb_spec (os_getsize env (trace w) file_path)
                       (VkClient.max_size_of media_type)); [reflexivity|lia].
Qed.

Lemma X9_upload_media_local_checks_witness :
  VkClient.upload_media "temp_files/photo_0a1b2c3d.jpg" "photo" [] calm_env
                        configured_world
  = (Ret None, configured_world).
Proof.
  apply (X9_upload_media_local_checks "temp_files/photo_0a1b2c3d.jpg" "photo" []
           calm_env configured_world);
    [reflexivity | simpl; auto | left; reflexivity].
Defined.

(** ** services/vk/client.py: the source link of an edit *)

Lemma removeprefix_100 s :
  removeprefix "-100" s =
  if startswith "-100" s then substring 4 (String.length s - 4) s else s.
Proof. reflexivity. Qed.

(** X10. [get_source_link_for_edit] never raises and changes nothing.
    Without a settings store it answers [https://t.me/<message_id>].  When
    the store answers and knows the post and its channel, the link is the
    one [BaseHandler.generate_source_link] builds for a chat with the
    channel's id and user name. *)
Theorem X10_edit_source_link env w m :
  (exists link, VkClient.get_source_link_for_edit m env w = (Ret link, w))
  /\ (supabase env = false ->
      VkClient.get_source_link_for_edit m env w
      = (Ret ("https://t.me/" ++ str_of_Z m), w))
  /\ (forall row rows ch chs cid,
        supabase env = true ->
        db_exec env (trace w) = None ->
        rows_of_message m w = row :: rows ->
        filter (fun c => VkClient.opt_Z_eqb (Some (ch_id c))
                                            (pr_telegram_channel_id row))
               (telegram_channels w) = ch :: chs ->
        ch_channel_id ch = Some cid ->
        VkClient.get_source_link_for_edit m env w
        = (Ret (BaseHandler.generate_source_link
                  (mkChat cid (ch_channel_username ch)) m), w)).
Proof.
  split; [|split].
  - destruct (VkClient.get_source_link_for_edit m env w) as [r w'] eqn:E.
    destruct (get_source_link_pure _ _ _ _ _ E) as [-> [l ->]]. now exists l.
  - intros Hs. unfold VkClient.get_source_link_for_edit, try_except, bind, ask.
    now rewrite Hs.
  - intros row rows ch chs cid Hs Hdb Hrow Hch Hcid.
    unfold rows_of_message in Hrow.
    unfold VkClient.get_source_link_for_edit, try_except, bind, ask, execute,
      get.
    rewrite Hs. cbn [negb]. rewrite Hdb, Hrow, Hdb, Hch.
    unfold BaseHandler.generate_source_link.
    cbn [chat_username chat_ident]. rewrite removeprefix_100, Hcid.
    cbn [str_of_opt_Z].
    destruct (ch_channel_username ch) as [username|]; [|reflexivity].
    destruct (username =? "")%string; reflexivity.
Qed.

Lemma X10_edit_source_link_witness :
  VkClient.get_source_link_for_edit 42 calm_env channel_world
  = (Ret "https://t.me/c/1234/42", channel_world).
Proof.
  destruct (X10_edit_source_link calm_env channel_world 42) as (_ & _ & H).
  exact (H (mkPostRow 42 7 "500" "published" 0%Q None None (Some 3) (Some 1))
           [] (mkChannelRow 3 (Some (-1001234)) None) [] (-1001234)
           eq_refl eq_refl eq_refl eq_refl eq_refl).
Defined.

(** ** services/vk/client.py: the message-to-post mapping *)

Lemma str_of_Z_nonempty z : (str_of_Z z =? "")%string = false.
Proof.
  destruct (String.eqb_spec (str_of_Z z) ""); [|reflexivity].
  pose proof (int_of_str_of_Z z) as H. rewrite e in H. discriminate.
Qed.

Lemma filter_message_key m u l :
  (forall r, In r l -> pr_telegram_message_id r = m -> pr_user_id r = u) ->
  filter (fun r => pr_telegram_message_id r =? m) l
  = filter (VkClient.same_key m u) l.
Proof.
  induction l as [|r l IH]; intros H; [reflexivity|].
  cbn [filter]. rewrite IH by (intros; apply H; [now right | assumption]).
  assert (K : VkClient.same_key m u r = (pr_telegram_message_id r =? m)).
  { unfold VkClient.same_key.
    destruct (Z.eqb_spec (pr_telegram_message_id r) m) as [E|E]; [|reflexivity].
    rewrite (H r (or_introl eq_refl) E), Z.eqb_refl. reflexivity. }
  rewrite K. reflexivity.
Qed.

(** X11. Round trip through the store.  The store answers, the user id is
    not zero, and every row the store has for the message belongs to that
    user: [save_post_mapping] succeeds and [get_post_by_message_id] then
    returns the saved post id, whether the save created the row or updated
    it. *)
Theorem X11_store_mapping_round_trip env w m p u ch :
  supabase env = true ->
  db_exec env (trace w) = None ->
  u <> 0 ->
  (forall r, In r (posts w) -> pr_telegram_message_id r = m -> pr_user_id r = u) ->
  exists w1,
    VkClient.save_post_mapping m p (Some u) ch env w = (Ret true, w1)
    /\ VkClient.get_post_by_message_id m env w1 = (Ret (Some p), w1).
Proof.
  intros Hs Hdb Hu Hown.
  assert (Hlook : forall w1 row rows,
             trace w1 = trace w ->
             rows_of_message m w1 = row :: rows ->
             pr_vk_post_id row = str_of_Z p ->
             VkClient.get_post_by_message_id m env w1 = (Ret (Some p), w1)).
  { intros w1 row rows Ht Hrows Hid. unfold rows_of_message in Hrows.
    unfold VkClient.get_post_by_message_id, try_except, bind, ask, execute, get.
    rewrite Hs, Ht, Hdb, Hrows, Hid, str_of_Z_nonempty, int_of_str_of_Z.
    reflexivity. }
  unfold VkClient.save_post_mapping, try_except, bind at 1, ask.
  rewrite Hs. destruct (Z.eqb_spec u 0) as [|_]; [contradiction|].
  cbn [andb negb]. unfold bind at 1, execute. rewrite Hdb.
  unfold bind at 1, get.
  pose proof (filter_message_key m u (posts w) Hown) as Hf.
  destruct (filter (VkClient.same_key m u) (posts w)) as [|r0 rs] eqn:Hfil.
  - unfold bind, execute, modify, ret. rewrite Hdb.
    eexists. split; [reflexivity|].
    eapply Hlook; [reflexivity| |].
    + unfold rows_of_message. cbn [posts set_posts].
      rewrite filter_app, Hf. cbn [filter app pr_telegram_message_id].
      rewrite Z.eqb_refl. reflexivity.
    + reflexivity.
  - unfold bind, execute, modify, ret. rewrite Hdb.
    eexists. split; [reflexivity|].
    eapply Hlook; [reflexivity| |].
    + unfold rows_of_message. cbn [posts set_posts].
      rewrite filter_map_same, Hf.
      2:{ intros a. destruct (VkClient.same_key m u a); reflexivity. }
      cbn [map]. reflexivity.
    + assert (Hk : VkClient.same_key m u r0 = true).
      { assert (I : In r0 (filter (VkClient.same_key m u) (posts w)))
          by (rewrite Hfil; now left).
        now apply filter_In in I as [_ I]. }
      rewrite Hk. reflexivity.
Qed.

Lemma X11_store_mapping_round_trip_witness :
  exists w1,
    VkClient.save_post_mapping 42 600 (Some 7) None calm_env mapped_world
    = (Ret true, w1)
    /\ VkClient.get_post_by_message_id 42 calm_env w1 = (Ret (Some 600), w1).
Proof.
  apply (X11_store_mapping_round_trip calm_env mapped_world 42 600 7 None);
    try reflexivity; [lia|].
  simpl. intros r [<-|[<-|[]]]; simpl; intros; lia.
Defined.

Lemma scan_data_txt_app m p old :
  VkClient.scan_data_txt m (old ++ [(m, p)])
  = Some (match VkClient.scan_data_txt m old with
          | Some p0 => p0
          | None => p
          end).
Proof.
  induction old as [|[m0 p0] old IH]; cbn [app VkClient.scan_data_txt].
  - now rewrite Z.eqb_refl.
  - destruct (m0 =? m); [reflexivity | exact IH].
Qed.

(** X12. Without a settings store the mapping goes to [data.txt].  When
    the file can be opened for appending, [save_post_mapping] appends the
    line and returns [True]; [get_post_by_message_id] then answers with the
    first line of the message, so that a second save for the same message
    does not replace the first mapping, or with [None] when the file cannot
    be read.  When the file cannot be opened for appending,
    [save_post_mapping] returns [False]; its handler tries once more, and
    the line is appended exactly when that second attempt succeeds. *)
Theorem X12_file_mapping_keeps_first env w m p u ch :
  supabase env = false ->
  (data_txt_error env (trace w) DtAppend = None ->
   exists w1,
     VkClient.save_post_mapping m p u ch env w = (Ret true, w1)
     /\ lines_of w1 = (lines_of w ++ [(m, p)])%list
     /\ posts w1 = posts w
     /\ VkClient.get_post_by_message_id m env w1
        = (Ret (match data_txt_error env (trace w) DtRead with
                | Some _ => None
                | None =>
                    Some (match VkClient.scan_data_txt m (lines_of w) with
                          | Some p0 => p0
                          | None => p
                          end)
                end), w1))
  /\ (data_txt_error env (trace w) DtAppend <> None ->
      exists w1,
        VkClient.save_post_mapping m p u ch env w = (Ret false, w1)
        /\ posts w1 = posts w
        /\ trace w1 = trace w
        /\ data_txt w1
           = match data_txt_error env (trace w) DtAppendAgain with
             | Some _ => data_txt w
             | None => Some (lines_of w ++ [(m, p)])%list
             end).
Proof.
  intros Hs. split.
  - intros Hok.
    exists (set_data_txt (Some (lines_of w ++ [(m, p)])%list) w).
    split; [|split; [reflexivity|split; [reflexivity|]]].
    + unfold VkClient.save_post_mapping, try_except, bind at 1, ask.
      rewrite Hs. cbn [andb].
      destruct u; unfold bind, VkClient.append_data_txt; rewrite Hok;
        reflexivity.
    + unfold VkClient.get_post_by_message_id, try_except, bind, ask, get,
        VkClient.read_data_txt.
      rewrite Hs. cbn [ret data_txt set_data_txt trace].
      destruct (data_txt_error env (trace w) DtRead); [reflexivity|].
      now rewrite scan_data_txt_app.
  - intros Hbad.
    destruct (data_txt_error env (trace w) DtAppend) as [e|] eqn:E1;
      [clear Hbad | contradiction].
    assert (S : VkClient.save_post_mapping m p u ch env w
                = (Ret false,
                   match data_txt_error env (trace w) DtAppendAgain with
                   | Some _ => w
                   | None => set_data_txt (Some (lines_of w ++ [(m, p)])%list) w
                   end)).
    { unfold VkClient.save_post_mapping, try_except, bind at 1, ask.
      rewrite Hs. cbn [andb].
      destruct u; unfold bind, VkClient.append_data_txt; rewrite E1;
        destruct (data_txt_error env (trace w) DtAppendAgain); reflexivity. }
    rewrite S. eexists. split; [reflexivity|].
    destruct (data_txt_error env (trace w) DtAppendAgain); repeat split.
Qed.

Lemma X12_file_mapping_keeps_first_witness :
  (data_txt_error storeless_env [] DtAppend = None ->
   exists w1,
     VkClient.save_post_mapping 42 601 (Some 7) None storeless_env
       (set_data_txt (Some [(42, 600)]) new_world) = (Ret true, w1)
     /\ lines_of w1 = ([(42, 600)] ++ [(42, 601)])%list
     /\ posts w1 = []
     /\ VkClient.get_post_by_message_id 42 storeless_env w1
        = (Ret (Some 600), w1))
  /\ (data_txt_error storeless_env [] DtAppend <> None ->
      exists w1,
        VkClient.save_post_mapping 42 601 (Some 7) None storeless_env
          (set_data_txt (Some [(42, 600)]) new_world) = (Ret false, w1)
        /\ posts w1 = []
        /\ trace w1 = []
        /\ data_txt w1 = Some [(42, 600); (42, 601)]).
Proof.
  apply (X12_file_mapping_keeps_first storeless_env
           (set_data_txt (Some [(42, 600)]) new_world) 42 601 (Some 7) None).
  reflexivity.
Defined.

(** A disk on which [data.txt] cannot be opened: the save without a store
    fails and writes nothing. *)
Example file_mapping_unwritable :
  VkClient.save_post_mapping 42 601 (Some 7) None
    (with_data_txt_error
       (fun _ _ => Some (mkExn OSError "Permission denied: data.txt")) storeless_env)
    new_world
  = (Ret false, new_world).
Proof. reflexivity. Qed.

(** X13. When the first query of the store fails, [save_post_mapping]
    returns [False] and leaves the rows of the store alone; its handler
    appends the line to [data.txt] when the file can be opened, and gives
    up silently when it cannot.  As long as the store keeps failing,
    [get_post_by_message_id] answers [None] without reading [data.txt]. *)
Theorem X13_store_failure_falls_back env w m p u ch e :
  supabase env = true ->
  u <> 0 ->
  db_exec env (trace w) = Some e ->
  exists w1,
    VkClient.save_post_mapping m p (Some u) ch env w = (Ret false, w1)
    /\ lines_of w1
       = match data_txt_error env (trace w) DtAppendAgain with
         | Some _ => lines_of w
         | None => (lines_of w ++ [(m, p)])%list
         end
    /\ (data_txt_error env (trace w) DtAppendAgain <> None -> w1 = w)
    /\ posts w1 = posts w
    /\ trace w1 = trace w
    /\ VkClient.get_post_by_message_id m env w1 = (Ret None, w1).
Proof.
  intros Hs Hu Hdb.
  assert (S : VkClient.save_post_mapping m p (Some u) ch env w
              = (Ret false,
                 match data_txt_error env (trace w) DtAppendAgain with
                 | Some _ => w
                 | None => set_data_txt (Some (lines_of w ++ [(m, p)])%list) w
                 end)).
  { unfold VkClient.save_post_mapping, try_except, bind at 1, ask.
    rewrite Hs. destruct (Z.eqb_spec u 0) as [|_]; [contradiction|].
    cbn [andb negb]. unfold bind at 1, execute. rewrite Hdb.
    unfold bind, VkClient.append_data_txt.
    destruct (data_txt_error env (trace w) DtAppendAgain); reflexivity. }
  rewrite S. eexists. split; [reflexivity|].
  assert (G : forall w1, trace w1 = trace w ->
                VkClient.get_post_by_message_id m env w1 = (Ret None, w1)).
  { intros w1 Ht.
    unfold VkClient.get_post_by_message_id, try_except, bind, ask, execute.
    rewrite Hs, Ht, Hdb. reflexivity. }
  destruct (data_txt_error env (trace w) DtAppendAgain).
  - repeat split. now apply G.
  - repeat split; [intros C; now contradiction C | now apply G].
Qed.

Lemma X13_store_failure_falls_back_witness :
  exists w1,
    VkClient.save_post_mapping 42 600 (Some 7) None broken_store_env new_world
    = (Ret false, w1)
    /\ lines_of w1 = (lines_of new_world ++ [(42, 600)])%list
    /\ (data_txt_error broken_store_env [] DtAppendAgain <> None
        -> w1 = new_world)
    /\ posts w1 = posts new_world
    /\ trace w1 = trace new_world
    /\ VkClient.get_post_by_message_id 42 broken_store_env w1 = (Ret None, w1).
Proof.
  apply (X13_store_failure_falls_back broken_store_env new_world 42 600 7 None
           (mkExn ConnectionError "store unreachable"));
    [reflexivity | lia | reflexivity].
Defined.

(** X14. When the store answers and has a row for the message,
    [get_post_by_message_id] answers from the first such row alone: [None]
    if the stored text is empty, and the post id [p] if the stored text is
    [str(p)], which is what [save_post_mapping] stores.  [data.txt] is not
    consulted, whatever it holds. *)
Theorem X14_store_row_decides env w m row rows :
  supabase env = true ->
  db_exec env (trace w) = None ->
  rows_of_message m w = row :: rows ->
  (pr_vk_post_id row = "" ->
   VkClient.get_post_by_message_id m env w = (Ret None, w))
  /\ (forall p, pr_vk_post_id row = str_of_Z p ->
       VkClient.get_post_by_message_id m env w = (Ret (Some p), w)).
Proof.
  intros Hs Hdb Hrow. unfold rows_of_message in Hrow.
  unfold VkClient.get_post_by_message_id, try_except, bind, ask, execute, get.
  rewrite Hs, Hdb, Hrow. split.
  - intros ->. reflexivity.
  - intros p ->. rewrite str_of_Z_nonempty, int_of_str_of_Z. reflexivity.
Qed.

Lemma X14_store_row_decides_witness :
  ("500" = "" ->
   VkClient.get_post_by_message_id 42 calm_env
     (set_data_txt (Some [(42, 999)]) mapped_world)
   = (Ret None, set_data_txt (Some [(42, 999)]) mapped_world))
  /\ (forall p, "500" = str_of_Z p ->
       VkClient.get_post_by_message_id 42 calm_env
         (set_data_txt (Some [(42, 999)]) mapped_world)
       = (Ret (Some p), set_data_txt (Some [(42, 999)]) mapped_world)).
Proof.
  apply (X14_store_row_decides calm_env
           (set_data_txt (Some [(42, 999)]) mapped_world) 42
           (mkPostRow 42 7 "500" "published" 0%Q None None None (Some 1)) []);
    reflexivity.
Defined.

(** ** utils/file_utils.py: [FileManager.download_file] *)

Lemma sleeps_of_app a b : sleeps_of (a ++ b) = (sleeps_of a ++ sleeps_of b)%list.
Proof.
  induction a as [|e a IH]; [reflexivity|].
  destruct e; cbn [app sleeps_of]; try exact IH. now rewrite IH.
Qed.

Lemma get_file_calls_app a b :
  get_file_calls (a ++ b) = (get_file_calls a + get_file_calls b)%nat.
Proof.
  induction a as [|e a IH]; [reflexivity|].
  destruct e; cbn [app get_file_calls]; try exact IH. now rewrite IH.
Qed.

Lemma created_exists p w : VkClient.path_exists p (FileManager.created p w) = true.
Proof.
  unfold FileManager.created.
  destruct (VkClient.path_exists p w) eqn:E; [exact E|].
  unfold VkClient.path_exists. cbn [fs set_fs existsb].
  now rewrite String.eqb_refl.
Qed.

Lemma existsb_eqb_In x l : existsb (String.eqb x) l = true <-> In x l.
Proof.
  rewrite existsb_exists. split.
  - intros [y [Hy E]]. apply String.eqb_eq in E. now subst.
  - intros H. exists x. split; [exact H | apply String.eqb_refl].
Qed.

(** One attempt: a call of [bot.get_file], possibly a download, no sleep;
    and what each way of returning leaves behind. *)
Lemma download_attempt_run env w file_id dest max_size r w' :
  FileManager.download_attempt file_id dest max_size env w = (r, w') ->
  (exists evs, trace w' = (trace w ++ EvGetFile file_id :: evs)%list
               /\ sleeps_of evs = [] /\ get_file_calls evs = 0%nat)
  /\ match r with
     | Ret (ok, code) =>
         (ok = true /\ code = None
          /\ VkClient.path_exists dest w' = true
          /\ In dest (active_files w') /\ type_allowed env dest)
         \/ (ok = false /\ code = Some "FILE_SIZE_EXCEEDED")
         \/ (ok = false /\ code = Some "INVALID_FILE_TYPE"
             /\ VkClient.path_exists dest w' = false)
     | Raise _ => True
     end.
Proof.
  intros H.
  unfold FileManager.download_attempt, FileManager.bot_get_file,
    FileManager.bot_download_file, FileManager._validate_file_type,
    FileManager._generate_checksum, bind, get, ask in H.
  destruct (tg_get_file env (trace w) file_id) as [file|e];
    cbn [of_res ret raise] in H.
  2:{ injection H as <- <-. split; [|exact I]. now exists []. }
  destruct (tf_file_size file >? max_size).
  { injection H as <- <-. split; [now exists [] | auto]. }
  destruct (tg_download env (trace (log_event (EvGetFile file_id) w))
                        (tf_file_path file) dest) as [|e left] eqn:D.
  - destruct (guess_type env dest) as [mime|] eqn:G; cbn [ret modify] in H.
    + destruct (existsb (String.eqb mime) FileManager.allowed_types) eqn:T;
        cbn [negb] in H.
      * rewrite created_exists in H. injection H as <- <-. split.
        -- exists [EvDownload (tf_file_path file) dest]. split; [|now split].
           unfold FileManager.created.
           destruct (VkClient.path_exists _ _); cbn; now rewrite <- app_assoc.
        -- left. split; [reflexivity|]. split; [reflexivity|]. split.
           ++ change (VkClient.path_exists dest
                        (FileManager.created dest
                           (log_event (EvDownload (tf_file_path file) dest)
                              (log_event (EvGetFile file_id) w))) = true).
              apply created_exists.
           ++ split.
              ** cbn [active_files set_active_files].
                 match goal with
                 | |- In dest (if ?c then _ else _) => destruct c eqn:C
                 end; [now apply existsb_eqb_In in C | now left].
              ** exists mime. split; [exact G|].
                 now apply existsb_eqb_In.
      * unfold FileManager.unlink in H.
        match type of H with
        | context [unlink_error env ?h dest] =>
            destruct (unlink_error env h dest)
        end; injection H as <- <-; (split; [|try exact I]).
        -- exists [EvDownload (tf_file_path file) dest]. split; [|now split].
           unfold FileManager.created.
           destruct (VkClient.path_exists _ _); cbn; now rewrite <- app_assoc.
        -- exists [EvDownload (tf_file_path file) dest]. split; [|now split].
           unfold FileManager.unlinked, FileManager.created.
           destruct (VkClient.path_exists _ _); cbn; now rewrite <- app_assoc.
        -- right. right. repeat split. apply unlinked_absent.
    + cbn [negb] in H. cbv beta iota in H. unfold FileManager.unlink in H.
      match type of H with
      | context [unlink_error env ?h dest] =>
          destruct (unlink_error env h dest)
      end; injection H as <- <-; (split; [|try exact I]).
      * exists [EvDownload (tf_file_path file) dest]. split; [|now split].
        unfold FileManager.created.
        destruct (VkClient.path_exists _ _); cbn; now rewrite <- app_assoc.
      * exists [EvDownload (tf_file_path file) dest]. split; [|now split].
        unfold FileManager.unlinked, FileManager.created.
        destruct (VkClient.path_exists _ _); cbn; now rewrite <- app_assoc.
      * right. right. repeat split. apply unlinked_absent.
  - injection H as <- <-. split; [|exact I].
    exists [EvDownload (tf_file_path file) dest]. split; [|now split].
    unfold FileManager.created.
    destruct left; [destruct (VkClient.path_exists _ _)|]; cbn;
      now rewrite <- app_assoc.
Qed.

(** The loop from attempt [i] on, [n] attempts being left. *)
Lemma download_loop_run env file_id dest max_size retries n :
  forall i w r w',
    (0 < n)%nat -> Z.of_nat (i + n) = retries ->
    FileManager.download_loop file_id dest max_size retries
                              (map Z.of_nat (seq i n)) env w = (r, w') ->
    exists evs k,
      trace w' = (trace w ++ evs)%list
      /\ sleeps_of evs = map (fun j => 2 ^ Z.of_nat j) (seq i k)
      /\ match r with
         | Raise _ => k = n /\ get_file_calls evs = k
         | Ret (ok, code) =>
             (k < n)%nat /\ get_file_calls evs = S k
             /\ ((ok = true /\ code = None
                  /\ VkClient.path_exists dest w' = true
                  /\ In dest (active_files w') /\ type_allowed env dest)
                 \/ (ok = false /\ code = Some "FILE_SIZE_EXCEEDED")
                 \/ (ok = false /\ code = Some "INVALID_FILE_TYPE"
                     /\ VkClient.path_exists dest w' = false))
         end.
Proof.
  induction n as [|n IH]; intros i w r w' Hn Hsum H; [lia|].
  cbn [seq map FileManager.download_loop] in H. unfold try_except in H.
  destruct (FileManager.download_attempt file_id dest max_size env w)
    as [[a|e] w1] eqn:A;
    apply download_attempt_run in A as [[evs0 [T [S0 G0]]] C].
  - injection H as <- <-. destruct a as [ok code].
    exists (EvGetFile file_id :: evs0), 0%nat.
    split; [exact T|]. split; [cbn [sleeps_of]; exact S0|].
    split; [lia|]. split; [cbn [get_file_calls]; now rewrite G0 | exact C].
  - unfold bind, sleep, modify in H.
    destruct (Z.eqb_spec (Z.of_nat i) (retries - 1)) as [Hl|Hl].
    + injection H as <- <-.
      exists (EvGetFile file_id :: evs0 ++ [EvSleep (2 ^ Z.of_nat i)])%list, 1%nat.
      split.
      { cbn [trace slept]. rewrite T, <- app_assoc. reflexivity. }
      split.
      { cbn [sleeps_of]. rewrite sleeps_of_app, S0. reflexivity. }
      split; [lia|].
      cbn [get_file_calls]. rewrite get_file_calls_app, G0. reflexivity.
    + apply IH in H; [|lia|lia].
      destruct H as (evs1 & k & T1 & S1 & C1).
      exists ((EvGetFile file_id :: evs0) ++ EvSleep (2 ^ Z.of_nat i) :: evs1)%list,
             (S k).
      split.
      { rewrite T1. cbn [trace slept]. rewrite T, <- !app_assoc. reflexivity. }
      split.
      { rewrite sleeps_of_app. cbn [sleeps_of]. rewrite S0, S1. reflexivity. }
      rewrite get_file_calls_app. cbn [get_file_calls]. rewrite G0.
      destruct r as [[ok code]|e1].
      * destruct C1 as (C1 & C2 & C3). split; [lia|]. split; [lia | exact C3].
      * destruct C1 as (C1 & C2). split; lia.
Qed.

(** A whole run of [download_file]. *)
Lemma download_file_run env w file_id dest max_size retries r w' :
  FileManager.download_file file_id dest max_size retries env w = (r, w') ->
  (retries <= 0 /\ r = Ret (false, Some "DOWNLOAD_FAILED") /\ w' = w)
  \/ (0 < retries
      /\ exists evs k,
          trace w' = (trace w ++ evs)%list
          /\ sleeps_of evs = map (fun j => 2 ^ Z.of_nat j) (seq 0 k)
          /\ ((r = Ret (false, Some "CRITICAL_ERROR")
               /\ k = Z.to_nat retries /\ get_file_calls evs = k)
              \/ (exists ok code,
                    r = Ret (ok, code)
                    /\ (k < Z.to_nat retries)%nat /\ get_file_calls evs = S k
                    /\ ((ok = true /\ code = None
                         /\ VkClient.path_exists dest w' = true
                         /\ In dest (active_files w') /\ type_allowed env dest)
                        \/ (ok = false /\ code = Some "FILE_SIZE_EXCEEDED")
                        \/ (ok = false /\ code = Some "INVALID_FILE_TYPE"
                            /\ VkClient.path_exists dest w' = false))))).
Proof.
  intros H. unfold FileManager.download_file, try_except, range in H.
  destruct (Z.to_nat retries) as [|n] eqn:En.
  - left. cbn in H. injection H as <- <-. repeat split. lia.
  - right. split; [lia|].
    destruct (FileManager.download_loop file_id dest max_size retries
                (map Z.of_nat (seq 0 (S n))) env w) as [r1 w1] eqn:L.
    apply download_loop_run in L; [|lia|lia].
    destruct L as (evs & k & T & S1 & C). exists evs, k.
    destruct r1 as [[ok code]|e].
    + injection H as <- <-. split; [exact T|]. split; [exact S1|].
      right. exists ok, code. destruct C as (C1 & C2 & C3). auto.
    + cbn [ret] in H. injection H as <- <-. split; [exact T|].
      split; [exact S1|]. left. destruct C as (C1 & C2). auto.
Qed.

(** X15. [download_file] never raises.  It reports success only with the
    file on disk, registered in [active_files] and of an accepted type; a
    failure carries one of four codes; after [INVALID_FILE_TYPE] the file
    is gone; [DOWNLOAD_FAILED] is the answer exactly when no attempt is
    allowed, and then nothing has happened. *)
Theorem X15_download_file_results file_id dest max_size retries env w :
  exists ok code w',
    FileManager.download_file file_id dest max_size retries env w
    = (Ret (ok, code), w')
    /\ (ok = true ->
        code = None /\ VkClient.path_exists dest w' = true
        /\ In dest (active_files w') /\ type_allowed env dest)
    /\ (ok = false -> exists c, code = Some c /\ In c download_codes)
    /\ (code = Some "INVALID_FILE_TYPE" -> VkClient.path_exists dest w' = false)
    /\ (code = Some "DOWNLOAD_FAILED" <-> retries <= 0)
    /\ (retries <= 0 -> w' = w).
Proof.
  destruct (FileManager.download_file file_id dest max_size retries env w)
    as [r w'] eqn:E.
  apply download_file_run in E.
  destruct E as [(Hz & -> & ->) | (Hpos & evs & k & T & S1 & C)].
  - exists false, (Some "DOWNLOAD_FAILED"), w. split; [reflexivity|].
    split; [discriminate|]. split.
    { intros _. eexists. split; [reflexivity|]. simpl. auto. }
    split; [discriminate|]. split; [tauto | auto].
  - destruct C as [(-> & C)|(ok & code & -> & C1 & C2 & C3)].
    + exists false, (Some "CRITICAL_ERROR"), w'. split; [reflexivity|].
      split; [discriminate|]. split.
      { intros _. eexists. split; [reflexivity|]. simpl. auto. }
      split; [discriminate|]. split; [|lia].
      split; [discriminate | lia].
    + exists ok, code, w'. split; [reflexivity|].
      destruct C3 as [(-> & -> & C3)|[(-> & ->)|(-> & -> & C3)]].
      * split; [auto|]. split; [discriminate|]. split; [discriminate|].
        split; [|lia]. split; [discriminate | lia].
      * split; [discriminate|]. split.
        { intros _. eexists. split; [reflexivity|]. simpl. auto. }
        split; [discriminate|]. split; [|lia].
        split; [discriminate | lia].
      * split; [discriminate|]. split.
        { intros _. eexists. split; [reflexivity|]. simpl. auto. }
        split; [auto|]. split; [|lia].
        split; [discriminate | lia].
Qed.

(** X16. The waiting of [download_file]: every failed attempt, the last
    one included, is followed by a sleep of [2^attempt] seconds, so the
    sleeps of a run are 1, 2, 4, ... for its [k] failed attempts;
    [bot.get_file] is called at most [retries] times; and
    [CRITICAL_ERROR] is the answer exactly when all [retries] attempts
    have raised. *)
Theorem X16_download_file_backoff file_id dest max_size retries env w r w' :
  FileManager.download_file file_id dest max_size retries env w = (r, w') ->
  exists evs k,
    trace w' = (trace w ++ evs)%list
    /\ sleeps_of evs = map (fun j => 2 ^ Z.of_nat j) (seq 0 k)
    /\ (k <= Z.to_nat retries)%nat
    /\ (get_file_calls evs <= Z.to_nat retries)%nat
    /\ (r = Ret (false, Some "CRITICAL_ERROR")
        <-> 0 < retries /\ k = Z.to_nat retries).
Proof.
  intros E. apply download_file_run in E.
  destruct E as [(Hz & -> & ->) | (Hpos & evs & k & T & S1 & C)].
  - exists [], 0%nat. rewrite app_nil_r.
    split; [reflexivity|]. split; [reflexivity|].
    split; [lia|]. split; [cbn; lia|].
    split; [discriminate | intros [H _]; lia].
  - exists evs, k. split; [exact T|]. split; [exact S1|].
    destruct C as [(-> & C1 & C2)|(ok & code & -> & C1 & C2 & C3)].
    + split; [lia|]. split; [lia|]. split; [intros _; lia | reflexivity].
    + split; [lia|]. split; [lia|]. split.
      * intros HH. injection HH as -> ->.
        destruct C3 as [(C3 & _)|[(_ & C3)|(_ & C3 & _)]]; discriminate.
      * intros [_ HH]. lia.
Qed.

Lemma X16_download_file_backoff_witness :
  exists evs k,
    trace (snd (FileManager.download_file "AgAD1" "temp_files/photo_0a1b2c3d.jpg"
                  1024 3 lost_file_env new_world))
    = (trace new_world ++ evs)%list
    /\ sleeps_of evs = map (fun j => 2 ^ Z.of_nat j) (seq 0 k)
    /\ (k <= Z.to_nat 3)%nat
    /\ (get_file_calls evs <= Z.to_nat 3)%nat
    /\ (fst (FileManager.download_file "AgAD1" "temp_files/photo_0a1b2c3d.jpg"
               1024 3 lost_file_env new_world)
        = Ret (false, Some "CRITICAL_ERROR")
        <-> 0 < 3 /\ k = Z.to_nat 3).
Proof.
  apply (X16_download_file_backoff "AgAD1" "temp_files/photo_0a1b2c3d.jpg"
           1024 3 lost_file_env new_world).
  reflexivity.
Defined.

(** ** utils/file_utils.py: [get_temp_path] *)

Lemma append_assoc (a b c : string) : ((a ++ b) ++ c = a ++ (b ++ c))%string.
Proof. induction a as [|x a IH]; cbn; [reflexivity | now rewrite IH]. Qed.

Lemma append_nil_r (a : string) : (a ++ "")%string = a.
Proof. induction a as [|x a IH]; cbn; [reflexivity | now rewrite IH]. Qed.

Lemma prefix_append (a b : string) : String.prefix a (a ++ b) = true.
Proof.
  induction a as [|x a IH]; cbn; [now destruct b|].
  destruct (ascii_dec x x); [exact IH | contradiction].
Qed.

Lemma append_inv_l (a b c : string) : (a ++ b = a ++ c)%string -> b = c.
Proof.
  induction a as [|x a IH]; cbn; [auto|].
  intros H. injection H as H. auto.
Qed.

Lemma length_append (a b : string) :
  String.length (a ++ b) = (String.length a + String.length b)%nat.
Proof. induction a as [|x a IH]; cbn; [reflexivity | now rewrite IH]. Qed.

Lemma append_inv_r (a b c : string) : (a ++ c = b ++ c)%string -> a = b.
Proof.
  revert b. induction a as [|x a IH]; intros [|y b] H.
  - reflexivity.
  - apply (f_equal String.length) in H.
    rewrite (length_append (String y b)) in H. cbn in H. lia.
  - apply (f_equal String.length) in H.
    rewrite (length_append (String x a)) in H. cbn in H. lia.
  - cbn in H. injection H as -> H. f_equal. now apply IH.
Qed.

Lemma has_slash_app (a b : string) :
  has_slash (a ++ b) = has_slash a || has_slash b.
Proof.
  induction a as [|c a IH]; cbn [append has_slash]; [reflexivity|].
  now rewrite IH, orb_assoc.
Qed.

Lemma split_slash_nonempty s : split_slash s <> [].
Proof.
  destruct s as [|c s]; cbn [split_slash]; [discriminate|].
  destruct (split_slash s); [discriminate|].
  destruct (Ascii.eqb c "/"); discriminate.
Qed.

Lemma split_slash_plain s : has_slash s = false -> split_slash s = [s].
Proof.
  induction s as [|c s IH]; cbn [has_slash split_slash]; [reflexivity|].
  intros H. apply orb_false_iff in H as [Hc Hs].
  now rewrite (IH Hs), Hc.
Qed.

Lemma split_slash_app a b :
  has_slash a = false -> split_slash (a ++ "/" ++ b) = a :: split_slash b.
Proof.
  induction a as [|c a IH]; cbn [has_slash]; intros H.
  - cbn [append split_slash].
    destruct (split_slash b) eqn:E; [now apply split_slash_nonempty in E|].
    reflexivity.
  - apply orb_false_iff in H as [Hc Ha].
    change (String c a ++ "/" ++ b)%string with (String c (a ++ "/" ++ b)).
    cbn [split_slash]. now rewrite (IH Ha), Hc.
Qed.

Lemma startswith_slash_plain s :
  has_slash s = false -> startswith "/" s = false.
Proof.
  destruct s as [|c s]; [reflexivity|]. cbn [has_slash]. intros H.
  apply orb_false_iff in H as [Hc _]. unfold startswith. cbn [String.prefix].
  destruct (ascii_dec "/" c) as [<-|_]; [discriminate|reflexivity].
Qed.

(** A name of one component stays as it is under the scratch directory. *)
Lemma in_base_dir_plain f :
  has_slash f = false -> f <> "" -> f <> "." ->
  FileManager.in_base_dir f = "temp_files/" ++ f.
Proof.
  intros Hf H0 H1. unfold FileManager.in_base_dir.
  rewrite (startswith_slash_plain _ Hf). unfold FileManager.posix_path_str.
  change ("temp_files/" ++ f)%string with ("temp_files" ++ "/" ++ f)%string.
  rewrite (split_slash_app "temp_files" f eq_refl), (split_slash_plain _ Hf).
  change (startswith "/" ("temp_files" ++ "/" ++ f)) with false.
  cbn [filter]. change ("temp_files" =? "")%string with false.
  change ("temp_files" =? ".")%string with false. cbn [negb andb].
  destruct (String.eqb_spec f "") as [|_]; [contradiction|].
  destruct (String.eqb_spec f ".") as [|_]; [contradiction|].
  cbn [negb andb join]. reflexivity.
Qed.

Lemma underscore_name (prefix rest : string) :
  (prefix ++ String "_" rest)%string <> ""
  /\ (prefix ++ String "_" rest)%string <> ".".
Proof.
  destruct prefix as [|c p]; cbn [append]; split; try discriminate.
  destruct p; discriminate.
Qed.

(** The file name that [get_temp_path] builds. *)
Lemma get_temp_path_shape prefix suffix env w :
  FileManager.get_temp_path prefix suffix env w
  = (Ret (FileManager.in_base_dir
            ((prefix ++ "_" ++ uuid4_hex env (trace w)) ++ dotted suffix)), w).
Proof.
  unfold FileManager.get_temp_path, dotted. destruct suffix as [s|].
  - destruct (s =? "")%string; [now rewrite append_nil_r|].
    destruct (startswith "." s); reflexivity.
  - now rewrite append_nil_r.
Qed.

Lemma has_slash_dotted suffix :
  has_slash (dotted suffix)
  = has_slash (match suffix with Some s => s | None => "" end).
Proof.
  unfold dotted. destruct suffix as [s|]; [|reflexivity].
  destruct (String.eqb_spec s "") as [->|_]; [reflexivity|].
  destruct (startswith "." s); reflexivity.
Qed.

Lemma temp_name_plain prefix hex sfx :
  has_slash prefix = false -> has_slash hex = false -> has_slash sfx = false ->
  FileManager.in_base_dir ((prefix ++ "_" ++ hex) ++ sfx)
  = ("temp_files/" ++ prefix ++ "_" ++ hex ++ sfx)%string.
Proof.
  intros Hp Hh Hs. rewrite (append_assoc prefix ("_" ++ hex) sfx).
  change (("_" ++ hex) ++ sfx)%string with ("_" ++ hex ++ sfx)%string.
  apply in_base_dir_plain.
  - rewrite has_slash_app. cbn [append has_slash].
    rewrite has_slash_app, Hp, Hh, Hs. reflexivity.
  - apply (underscore_name prefix (hex ++ sfx)).
  - apply (underscore_name prefix (hex ++ sfx)).
Qed.

(** X17. [get_temp_path] touches nothing.  An empty suffix counts as none,
    and a suffix is used the same with or without its leading dot.  When
    the prefix, the suffix and the fresh identifier hold no ['/'] (the
    handlers pass fixed prefixes and extensions, and the hexadecimal form
    of a UUID has none), the result is the file
    [temp_files/<prefix>_<identifier><.suffix>] of the scratch directory,
    and two calls that draw different identifiers yield different
    paths. *)
Theorem X17_get_temp_path prefix suffix env w :
  has_slash prefix = false ->
  has_slash (match suffix with Some s => s | None => "" end) = false ->
  has_slash (uuid4_hex env (trace w)) = false ->
  FileManager.get_temp_path prefix suffix env w
  = (Ret ("temp_files/" ++ prefix ++ "_" ++ uuid4_hex env (trace w)
                        ++ dotted suffix), w)
  /\ (exists path,
        FileManager.get_temp_path prefix suffix env w = (Ret path, w)
        /\ startswith ("temp_files/" ++ prefix ++ "_" ++ uuid4_hex env (trace w))
                      path = true)
  /\ FileManager.get_temp_path prefix (Some "") env w
     = FileManager.get_temp_path prefix None env w
  /\ (forall ext,
        ext <> "" -> startswith "." ext = false ->
        FileManager.get_temp_path prefix (Some ("." ++ ext)) env w
        = FileManager.get_temp_path prefix (Some ext) env w)
  /\ (forall env' w' path path',
        has_slash (uuid4_hex env' (trace w')) = false ->
        FileManager.get_temp_path prefix suffix env w = (Ret path, w) ->
        FileManager.get_temp_path prefix suffix env' w' = (Ret path', w') ->
        uuid4_hex env (trace w) <> uuid4_hex env' (trace w') ->
        path <> path').
Proof.
  intros Hp Hs Hh. rewrite <- has_slash_dotted in Hs.
  assert (E : forall env0 w0,
             has_slash (uuid4_hex env0 (trace w0)) = false ->
             FileManager.get_temp_path prefix suffix env0 w0
             = (Ret ("temp_files/" ++ prefix ++ "_" ++ uuid4_hex env0 (trace w0)
                                   ++ dotted suffix), w0)).
  { intros env0 w0 H0. rewrite get_temp_path_shape.
    now rewrite (temp_name_plain _ _ _ Hp H0 Hs). }
  split; [|split; [|split; [|split]]].
  - now apply E.
  - eexists. split; [now apply E|].
    unfold startswith.
    rewrite <- (append_assoc "_" (uuid4_hex env (trace w)) (dotted suffix)).
    rewrite <- (append_assoc prefix ("_" ++ uuid4_hex env (trace w))
                  (dotted suffix)).
    rewrite <- (append_assoc "temp_files/"
                  (prefix ++ "_" ++ uuid4_hex env (trace w)) (dotted suffix)).
    apply prefix_append.
  - reflexivity.
  - intros ext Hne Hdot. destruct ext as [|c ext]; [contradiction|].
    unfold FileManager.get_temp_path. rewrite Hdot. reflexivity.
  - intros env' w' path path' Hh' P P' Hu Heq.
    rewrite (E _ _ Hh) in P. rewrite (E _ _ Hh') in P'.
    injection P as <-. injection P' as <-.
    apply (append_inv_l "temp_files/") in Heq.
    apply (append_inv_l prefix) in Heq.
    apply (append_inv_l "_") in Heq.
    apply append_inv_r in Heq. contradiction.
Qed.

Lemma X17_get_temp_path_witness :
  FileManager.get_temp_path "photo" (Some "jpg") calm_env new_world
  = (Ret "temp_files/photo_0a1b2c3d.jpg", new_world)
  /\ (exists path,
        FileManager.get_temp_path "photo" (Some "jpg") calm_env new_world
        = (Ret path, new_world)
        /\ startswith ("temp_files/" ++ "photo" ++ "_" ++ "0a1b2c3d") path = true)
  /\ FileManager.get_temp_path "photo" (Some "") calm_env new_world
     = FileManager.get_temp_path "photo" None calm_env new_world
  /\ (forall ext,
        ext <> "" -> startswith "." ext = false ->
        FileManager.get_temp_path "photo" (Some ("." ++ ext)) calm_env new_world
        = FileManager.get_temp_path "photo" (Some ext) calm_env new_world)
  /\ (forall env' w' path path',
        has_slash (uuid4_hex env' (trace w')) = false ->
        FileManager.get_temp_path "photo" (Some "jpg") calm_env new_world
        = (Ret path, new_world) ->
        FileManager.get_temp_path "photo" (Some "jpg") env' w' = (Ret path', w') ->
        "0a1b2c3d" <> uuid4_hex env' (trace w') ->
        path <> path').
Proof.
  apply (X17_get_temp_path "photo" (Some "jpg") calm_env new_world);
    reflexivity.
Defined.

(** A prefix that is an absolute path takes the result out of the scratch
    directory, and ['.'] and empty components are dropped, as [pathlib]
    does. *)
Example get_temp_path_absolute_prefix :
  fst (FileManager.get_temp_path "/etc/x" (Some "jpg") calm_env new_world)
  = Ret "/etc/x_0a1b2c3d.jpg"
  /\ fst (FileManager.get_temp_path "a/./b//c" None calm_env new_world)
     = Ret "temp_files/a/b/c_0a1b2c3d".
Proof. split; reflexivity. Qed.

(** ** utils/file_utils.py: [cleanup] and [emergency_cleanup] *)

Lemma path_exists_unlinked q p w :
  VkClient.path_exists q (FileManager.unlinked p w)
  = negb (q =? p)%string && VkClient.path_exists q w.
Proof.
  unfold VkClient.path_exists, FileManager.unlinked. cbn [fs set_fs].
  induction (fs w) as [|x l IH]; [now rewrite andb_false_r|].
  cbn [filter existsb].
  destruct (String.eqb_spec x p) as [->|N]; cbn [negb existsb].
  - rewrite IH. destruct (String.eqb_spec q p) as [->|N]; [|reflexivity].
    reflexivity.
  - rewrite IH.
    destruct (String.eqb_spec q x) as [->|N1]; [|reflexivity].
    destruct (String.eqb_spec x p); [contradiction|reflexivity].
Qed.

Lemma filter_all {A} (f : A -> bool) l :
  (forall x, f x = true) -> filter f l = l.
Proof.
  intros H. induction l as [|x l IH]; [reflexivity|].
  cbn [filter]. now rewrite H, IH.
Qed.

(** What [cleanup] does, whether the file exists or not and whether it can
    be unlinked or not. *)
Lemma cleanup_run p env w :
  exists w',
    FileManager.cleanup p env w = (Ret tt, w')
    /\ (forall q, VkClient.path_exists q w'
                  = negb ((q =? p)%string && cleanup_removes env w p)
                    && VkClient.path_exists q w)
    /\ active_files w'
       = filter (fun q => negb ((q =? p)%string && cleanup_removes env w p))
                (active_files w)
    /\ trace w' = trace w
    /\ (cleanup_removes env w p = false -> w' = w).
Proof.
  unfold FileManager.cleanup, try_except, bind at 1, get, cleanup_removes.
  destruct (VkClient.path_exists p w) eqn:E.
  - unfold bind, FileManager.unlink, modify.
    destruct (unlink_error env (trace w) p) as [e|] eqn:U; cbn [andb].
    + exists w. split; [reflexivity|].
      split; [intros q; now rewrite andb_false_r|].
      split; [|split; reflexivity].
      symmetry. apply filter_all. intros q. now rewrite andb_false_r.
    + eexists. split; [reflexivity|].
      split; [|split; [|split; [reflexivity|discriminate]]].
      * intros q. rewrite andb_true_r. apply path_exists_unlinked.
      * cbn [active_files set_active_files FileManager.unlinked set_fs].
        apply filter_ext. intros q. now rewrite andb_true_r.
  - exists w. split; [reflexivity|]. cbn [andb].
    split; [intros q; now rewrite andb_false_r|].
    split; [|split; reflexivity].
    symmetry. apply filter_all. intros q. now rewrite andb_false_r.
Qed.

(** X18. [cleanup] never raises and makes no request.  When the file is
    there and can be unlinked, it is removed from the disk and from
    [active_files]; when the file does not exist, or the operating system
    refuses to unlink it, nothing changes (the file stays on disk and in
    [active_files]).  Other paths are not affected, and a second [cleanup]
    changes nothing. *)
Theorem X18_cleanup p env w :
  exists w',
    FileManager.cleanup p env w = (Ret tt, w')
    /\ trace w' = trace w
    /\ (unlink_error env (trace w) p = None ->
        VkClient.path_exists p w' = false)
    /\ (forall q, q <> p ->
          VkClient.path_exists q w' = VkClient.path_exists q w
          /\ (In q (active_files w') <-> In q (active_files w)))
    /\ (VkClient.path_exists p w = true ->
        unlink_error env (trace w) p = None -> ~ In p (active_files w'))
    /\ (VkClient.path_exists p w = false
        \/ unlink_error env (trace w) p <> None -> w' = w)
    /\ FileManager.cleanup p env w' = (Ret tt, w').
Proof.
  destruct (cleanup_run p env w) as (w' & E & Hfs & Hact & Ht & Hsame).
  exists w'. split; [exact E|]. split; [exact Ht|].
  split; [|split; [|split; [|split]]].
  - intros Hu. rewrite Hfs, String.eqb_refl. unfold cleanup_removes.
    rewrite Hu. now destruct (VkClient.path_exists p w).
  - intros q Hq. split.
    + rewrite Hfs. destruct (String.eqb_spec q p); [contradiction|reflexivity].
    + rewrite Hact, filter_In.
      destruct (String.eqb_spec q p); [contradiction|]. cbn. tauto.
  - intros Hex Hu. rewrite Hact, filter_In, String.eqb_refl.
    unfold cleanup_removes. rewrite Hex, Hu. cbn.
    intros [_ C]. discriminate.
  - intros H. apply Hsame. unfold cleanup_removes.
    destruct H as [-> | H]; [reflexivity|].
    destruct (unlink_error env (trace w) p); [|contradiction].
    apply andb_false_r.
  - destruct (cleanup_run p env w') as (w2 & E2 & _ & _ & _ & Hsame2).
    rewrite E2. f_equal. apply Hsame2.
    unfold cleanup_removes. rewrite Hfs, String.eqb_refl, Ht.
    unfold cleanup_removes.
    destruct (VkClient.path_exists p w),
      (unlink_error env (trace w) p); reflexivity.
Qed.

(** A file that the operating system refuses to unlink stays where it is,
    on disk and in [active_files], and [cleanup] says nothing. *)
Example cleanup_refused :
  let env := with_unlink_error
               (fun _ _ => Some (mkExn OSError "Permission denied")) calm_env in
  let w := set_active_files ["temp_files/a.jpg"]
             (FileManager.created "temp_files/a.jpg" new_world) in
  FileManager.cleanup "temp_files/a.jpg" env w = (Ret tt, w)
  /\ VkClient.path_exists "temp_files/a.jpg" w = true.
Proof. split; reflexivity. Qed.

Lemma filter_filter {A} (f g : A -> bool) l :
  filter f (filter g l) = filter (fun x => g x && f x) l.
Proof.
  induction l as [|x l IH]; [reflexivity|]. cbn [filter].
  destruct (g x); cbn [filter andb]; [destruct (f x)|]; now rewrite IH.
Qed.

(** After a step that left the history alone, what [cleanup] can still
    remove. *)
Lemma cleanup_removes_after env w w1 p :
  trace w1 = trace w ->
  (forall q, VkClient.path_exists q w1
             = negb ((q =? p)%string && cleanup_removes env w p)
               && VkClient.path_exists q w) ->
  forall q, cleanup_removes env w1 q
            = negb ((q =? p)%string && cleanup_removes env w p)
              && cleanup_removes env w q.
Proof.
  intros T F q. unfold cleanup_removes at 1 3. rewrite T, F.
  now rewrite andb_assoc.
Qed.

Lemma cleanup_all_run l :
  forall env w,
    exists w',
      FileManager.cleanup_all l env w = (Ret tt, w')
      /\ (forall q, VkClient.path_exists q w'
                    = negb (existsb (String.eqb q) l && cleanup_removes env w q)
                      && VkClient.path_exists q w)
      /\ active_files w'
         = filter (fun q => negb (existsb (String.eqb q) l
                                  && cleanup_removes env w q))
                  (active_files w)
      /\ trace w' = trace w.
Proof.
  induction l as [|p rest IH]; intros env w.
  - exists w. split; [reflexivity|]. split; [reflexivity|]. split; [|reflexivity].
    symmetry. now apply filter_all.
  - destruct (cleanup_run p env w) as (w1 & E1 & F1 & A1 & T1 & _).
    destruct (IH env w1) as (w2 & E2 & F2 & A2 & T2).
    pose proof (cleanup_removes_after env w w1 p T1 F1) as R1.
    exists w2. split.
    { cbn [FileManager.cleanup_all]. unfold bind. now rewrite E1. }
    split; [|split; [|congruence]].
    + intros q. rewrite F2, F1, R1. cbn [existsb].
      destruct (String.eqb_spec q p) as [->|N]; cbn [andb orb negb].
      * destruct (existsb (String.eqb p) rest), (cleanup_removes env w p),
          (VkClient.path_exists p w); reflexivity.
      * destruct (existsb (String.eqb q) rest), (cleanup_removes env w q),
          (VkClient.path_exists q w); reflexivity.
    + rewrite A2, A1, filter_filter. apply filter_ext. intros q.
      rewrite R1. cbn [existsb].
      destruct (String.eqb_spec q p) as [->|N]; cbn [negb andb orb].
      * destruct (existsb (String.eqb p) rest), (cleanup_removes env w p);
          reflexivity.
      * reflexivity.
Qed.

(** X19. [emergency_cleanup] never raises and makes no request.
    Afterwards a file registered in [active_files] is on disk only if the
    operating system refused to unlink it; files that were not registered
    are untouched; and the entries left in [active_files] are exactly
    those whose file did not exist or could not be unlinked. *)
Theorem X19_emergency_cleanup env w :
  exists w',
    FileManager.emergency_cleanup env w = (Ret tt, w')
    /\ (forall p, In p (active_files w) ->
                  unlink_error env (trace w) p = None ->
                  VkClient.path_exists p w' = false)
    /\ (forall p, In p (active_files w) ->
                  unlink_error env (trace w) p <> None ->
                  VkClient.path_exists p w' = VkClient.path_exists p w)
    /\ (forall p, ~ In p (active_files w) ->
                  VkClient.path_exists p w' = VkClient.path_exists p w)
    /\ (forall p, In p (active_files w') <->
                  In p (active_files w)
                  /\ (VkClient.path_exists p w = false
                      \/ unlink_error env (trace w) p <> None))
    /\ trace w' = trace w.
Proof.
  destruct (cleanup_all_run (active_files w) env w) as (w' & E & F & A & T).
  exists w'. split; [exact E|].
  assert (R : forall p, cleanup_removes env w p = false <->
                        VkClient.path_exists p w = false
                        \/ unlink_error env (trace w) p <> None).
  { intros p. unfold cleanup_removes.
    destruct (VkClient.path_exists p w), (unlink_error env (trace w) p);
      cbn [andb]; split; intros H; try reflexivity; try discriminate;
      try (now left); try (now right).
    destruct H as [H|H]; [discriminate | now contradiction H]. }
  split; [|split; [|split; [|split; [|exact T]]]].
  - intros p Hin Hu. rewrite F. apply existsb_eqb_In in Hin. rewrite Hin.
    unfold cleanup_removes. rewrite Hu.
    now destruct (VkClient.path_exists p w).
  - intros p Hin Hu. rewrite F.
    assert (X : cleanup_removes env w p = false) by (apply R; now right).
    now rewrite X, andb_false_r.
  - intros p Hnot. rewrite F.
    destruct (existsb (String.eqb p) (active_files w)) eqn:X; [|reflexivity].
    apply existsb_eqb_In in X. contradiction.
  - intros p. rewrite A, filter_In, <- R. split.
    + intros [Hin Hf]. split; [exact Hin|].
      apply existsb_eqb_In in Hin. rewrite Hin in Hf. cbn in Hf.
      now apply negb_true_iff in Hf.
    + intros [Hin Hf]. split; [exact Hin|]. rewrite Hf.
      now rewrite andb_false_r.
Qed.

(** ** utils/file_utils.py: [download_file_with_retries] *)

Lemma trace_created p w : trace (FileManager.created p w) = trace w.
Proof.
  unfold FileManager.created. now destruct (VkClient.path_exists p w).
Qed.

(** One attempt: [bot.get_file], then possibly [bot.download_file]. *)
Lemma download_attempt_once env w file_id dest r w1 :
  (file <- FileManager.bot_get_file file_id ;;
   FileManager.bot_download_file (tf_file_path file) dest) env w = (r, w1) ->
  (exists evs, trace w1 = (trace w ++ EvGetFile file_id :: evs)%list
               /\ sleeps_of evs = [] /\ get_file_calls evs = 0%nat)
  /\ (forall u, r = Ret u -> VkClient.path_exists dest w1 = true).
Proof.
  unfold bind, FileManager.bot_get_file. intros H.
  destruct (tg_get_file env (trace w) file_id) as [file|e];
    cbn [of_res ret raise] in H.
  - unfold FileManager.bot_download_file in H.
    destruct (tg_download env (trace (log_event (EvGetFile file_id) w))
                          (tf_file_path file) dest) as [|e left];
      injection H as <- <-.
    + split.
      * exists [EvDownload (tf_file_path file) dest].
        rewrite trace_created. cbn [trace log_event].
        rewrite <- app_assoc. now repeat split.
      * intros _ _. apply created_exists.
    + split; [|discriminate].
      exists [EvDownload (tf_file_path file) dest].
      destruct left; rewrite ?trace_created; cbn [trace log_event];
        rewrite <- app_assoc; now repeat split.
  - injection H as <- <-. split; [|discriminate].
    exists []. now repeat split.
Qed.

(** The loop from attempt [i] on, [n] attempts being left. *)
Lemma download_with_retries_loop_run env file_id dest retries delay n :
  forall i w r w',
    n = 0%nat \/ Z.of_nat (i + n) = retries ->
    download_with_retries_loop file_id dest retries delay
                               (map Z.of_nat (seq i n)) env w = (r, w') ->
    exists b evs,
      r = Ret b
      /\ trace w' = (trace w ++ evs)%list
      /\ Forall (fun secs => secs = delay) (sleeps_of evs)
      /\ (get_file_calls evs <= n)%nat
      /\ List.length (sleeps_of evs) = pred (get_file_calls evs)
      /\ ((0 < n)%nat -> (0 < get_file_calls evs)%nat)
      /\ (b = true -> VkClient.path_exists dest w' = true)
      /\ (b = false -> get_file_calls evs = n).
Proof.
  induction n as [|n IH]; intros i w r w' Hsum H.
  - cbn in H. injection H as <- <-. exists false, [].
    rewrite app_nil_r. cbn [sleeps_of get_file_calls List.length pred].
    split; [reflexivity|]. split; [reflexivity|]. split; [constructor|].
    split; [lia|]. split; [reflexivity|]. split; [lia|].
    split; [discriminate | reflexivity].
  - destruct Hsum as [Hsum|Hsum]; [discriminate|].
    cbn [seq map download_with_retries_loop] in H.
    match type of H with
    | context [match ?m env w with _ => _ end] =>
        destruct (m env w) as [[u|e] w1] eqn:A
    end;
      apply download_attempt_once in A as [(evs0 & T0 & S0 & G0) P0].
    + injection H as <- <-. exists true, (EvGetFile file_id :: evs0).
      cbn [sleeps_of get_file_calls]. rewrite S0, G0.
      split; [reflexivity|]. split; [exact T0|]. split; [constructor|].
      split; [lia|]. split; [reflexivity|]. split; [lia|].
      split; [intros _; now apply (P0 u) | discriminate].
    + unfold bind at 1 in H.
      destruct (Z.ltb_spec (Z.of_nat i) (retries - 1)) as [Hl|Hl].
      * unfold sleep, modify in H.
        apply IH in H; [|right; lia].
        destruct H as (b & evs & -> & T & F & G & L & Pz & P & Q).
        exists b, ((EvGetFile file_id :: evs0) ++ EvSleep delay :: evs)%list.
        rewrite sleeps_of_app, get_file_calls_app.
        cbn [sleeps_of get_file_calls]. rewrite S0, G0. cbn [app List.length].
        split; [reflexivity|]. split.
        { rewrite T. cbn [trace slept]. rewrite T0, <- !app_assoc.
          reflexivity. }
        split; [constructor; [reflexivity | exact F]|].
        assert (0 < get_file_calls evs)%nat by (apply Pz; lia).
        split; [lia|]. split; [lia|]. split; [lia|].
        split; [exact P | intros Hb; rewrite (Q Hb); lia].
      * unfold ret in H.
        apply IH in H; [|left; lia].
        destruct H as (b & evs & -> & T & F & G & L & Pz & P & Q).
        assert (n = 0%nat) as -> by lia.
        exists b, ((EvGetFile file_id :: evs0) ++ evs)%list.
        rewrite sleeps_of_app, get_file_calls_app.
        cbn [sleeps_of get_file_calls]. rewrite S0, G0. cbn [app].
        assert (G1 : get_file_calls evs = 0%nat) by lia.
        rewrite G1 in *.
        split; [reflexivity|]. split.
        { rewrite T, T0, <- !app_assoc. reflexivity. }
        split; [exact F|]. split; [lia|]. split; [exact L|]. split; [lia|].
        split; [exact P | reflexivity].
Qed.

(** X20. The module-level [download_file_with_retries].  A destination
    without a directory part makes [os.makedirs] raise before Telegram is
    asked, and an error of [os.makedirs] reaches the caller.  Otherwise
    the function never raises: it asks for the file at most [retries]
    times, sleeps [delay] seconds between two attempts and not after the
    last one, answers [True] only with the destination on disk, and
    answers [False] only after [retries] attempts. *)
Theorem X20_download_file_with_retries os_error file_id dest retries delay
        env w r w' :
  download_file_with_retries os_error file_id dest retries delay env w
  = (r, w') ->
  (has_slash dest = false ->
   r = Raise (mkExn FileNotFoundError "") /\ w' = w)
  /\ (has_slash dest = true ->
      forall e, os_error = Some e -> r = Raise e /\ w' = w)
  /\ (has_slash dest = true -> os_error = None ->
      exists b evs,
        r = Ret b
        /\ trace w' = (trace w ++ evs)%list
        /\ Forall (fun secs => secs = delay) (sleeps_of evs)
        /\ (get_file_calls evs <= Z.to_nat retries)%nat
        /\ List.length (sleeps_of evs) = pred (get_file_calls evs)
        /\ (b = true -> VkClient.path_exists dest w' = true)
        /\ (b = false -> get_file_calls evs = Z.to_nat retries)).
Proof.
  intros H.
  unfold download_file_with_retries, makedirs_dirname, bind at 1, range in H.
  destruct (has_slash dest).
  - destruct os_error as [e|]; cbn [raise ret] in H.
    + injection H as <- <-. split; [discriminate|]. split; [|discriminate].
      intros _ e0 He. injection He as <-. auto.
    + split; [discriminate|]. split; [discriminate|]. intros _ _.
      apply download_with_retries_loop_run in H.
      * destruct H as (b & evs & Hr & T & F & G & L & _ & P & Q).
        exists b, evs. auto 10.
      * destruct (Z.to_nat retries) eqn:E; [now left | right; lia].
  - cbn [raise] in H. injection H as <- <-.
    split; [auto|]. split; discriminate.
Qed.

Lemma X20_download_file_with_retries_witness :
  (has_slash "temp_files/a.jpg" = false ->
   fst (download_file_with_retries None "AgAD1" "temp_files/a.jpg" 3 5
          lost_file_env new_world)
   = Raise (mkExn FileNotFoundError "")
   /\ snd (download_file_with_retries None "AgAD1" "temp_files/a.jpg" 3 5
             lost_file_env new_world) = new_world)
  /\ (has_slash "temp_files/a.jpg" = true ->
      forall e, @None exn = Some e ->
        fst (download_file_with_retries None "AgAD1" "temp_files/a.jpg" 3 5
               lost_file_env new_world) = Raise e
        /\ snd (download_file_with_retries None "AgAD1" "temp_files/a.jpg" 3 5
                  lost_file_env new_world) = new_world)
  /\ (has_slash "temp_files/a.jpg" = true -> @None exn = None ->
      exists b evs,
        fst (download_file_with_retries None "AgAD1" "temp_files/a.jpg" 3 5
               lost_file_env new_world) = Ret b
        /\ trace (snd (download_file_with_retries None "AgAD1"
                         "temp_files/a.jpg" 3 5 lost_file_env new_world))
           = (trace new_world ++ evs)%list
        /\ Forall (fun secs => secs = 5) (sleeps_of evs)
        /\ (get_file_calls evs <= Z.to_nat 3)%nat
        /\ List.length (sleeps_of evs) = pred (get_file_calls evs)
        /\ (b = true ->
            VkClient.path_exists "temp_files/a.jpg"
              (snd (download_file_with_retries None "AgAD1"
                      "temp_files/a.jpg" 3 5 lost_file_env new_world)) = true)
        /\ (b = false -> get_file_calls evs = Z.to_nat 3)).
Proof.
  apply (X20_download_file_with_retries None "AgAD1" "temp_files/a.jpg" 3 5
           lost_file_env new_world).
  reflexivity.
Defined.

(** ** handlers/telegram/media_handler.py *)

Lemma respects_bot_get_file P file_id :
  P (EvGetFile file_id) -> respects (ext P) (FileManager.bot_get_file file_id).
Proof.
  intros HP env w r w' H. unfold FileManager.bot_get_file in H.
  destruct (tg_get_file env (trace w) file_id); injection H as <- <-;
    now apply ext_log.
Qed.

Lemma respects_bot_download_file P path dest :
  P (EvDownload path dest) ->
  respects (ext P) (FileManager.bot_download_file path dest).
Proof.
  intros HP env w r w' H. unfold FileManager.bot_download_file in H.
  assert (X : forall w0, trace w0 = trace (log_event (EvDownload path dest) w) ->
                         ext P w w0).
  { intros w0 E. exists [EvDownload path dest]. split; [exact E|].
    now constructor. }
  destruct (tg_download env (trace w) path dest) as [|e left];
    injection H as <- <-; apply X; [|destruct left];
    rewrite ?trace_created; reflexivity.
Qed.

Lemma respects_download_file P file_id dest max_size retries :
  P (EvGetFile file_id) -> (forall path, P (EvDownload path dest)) ->
  (forall secs, P (EvSleep secs)) ->
  respects (ext P) (FileManager.download_file file_id dest max_size retries).
Proof.
  intros H1 H2 H3.
  assert (A : respects (ext P)
                (FileManager.download_attempt file_id dest max_size)).
  { unfold FileManager.download_attempt, FileManager._validate_file_type,
      FileManager._generate_checksum.
    apply (respects_bind (ext P)); [now apply respects_bot_get_file|].
    intros file. destruct (tf_file_size file >? max_size);
      [apply (respects_ret (ext P))|].
    apply (respects_bind (ext P)); [now apply respects_bot_download_file|].
    intros _. respects_auto; apply ext_same_trace; reflexivity. }
  unfold FileManager.download_file.
  apply (respects_try_except (ext P)); [|intros; apply (respects_ret (ext P))].
  induction (range retries) as [|attempt rest IH];
    cbn [FileManager.download_loop]; [apply (respects_ret (ext P))|].
  apply (respects_try_except (ext P)); [exact A|]. intros e.
  apply (respects_bind (ext P)).
  - apply (respects_sleep (ext P)). intros. now apply ext_slept.
  - intros _. destruct (attempt =? retries - 1);
      [apply (respects_raise (ext P)) | exact IH].
Qed.

Lemma respects_upload_media P file_path media_type kwargs :
  (forall rt, P (EvHttpRefresh rt)) -> (forall secs, P (EvSleep secs)) ->
  P (EvVk (Upload media_type file_path kwargs)) ->
  respects (ext P) (VkClient.upload_media file_path media_type kwargs).
Proof.
  intros H1 H2 H3. unfold VkClient.upload_media.
  apply (respects_bind (ext P)); [apply (respects_get (ext P))|]. intros w0.
  destruct (negb (upload w0)); [apply (respects_raise (ext P))|].
  destruct (negb (existsb (String.eqb media_type) VkClient.supported_media));
    [apply (respects_raise (ext P))|].
  apply (respects_try_except (ext P)); [|intros; apply (respects_ret (ext P))].
  apply (respects_bind (ext P)); [apply (respects_get (ext P))|]. intros w1.
  apply (respects_bind (ext P)); [apply (respects_ask (ext P))|]. intros env.
  destruct (negb (VkClient.path_exists file_path w1));
    [apply (respects_raise (ext P))|].
  destruct (os_getsize env (trace w1) file_path >? VkClient.max_size_of media_type);
    [apply (respects_raise (ext P))|].
  apply (respects_bind (ext P)).
  { apply respects_refresh_configured; [typeclasses eauto|].
    intros t. now apply refresh_ext. }
  intros _. apply (respects_bind (ext P)).
  - apply (respects_execute_with_retry (ext P)).
    + apply (respects_vk_call (ext P)). intros. now apply ext_log.
    + intros. now apply ext_slept.
  - intros result. apply (respects_of_res (ext P)).
Qed.

Lemma respects_cleanup P path : respects (ext P) (FileManager.cleanup path).
Proof.
  unfold FileManager.cleanup. respects_auto; apply ext_same_trace; reflexivity.
Qed.

(** A file within the limit: downloaded and uploaded, perhaps, but not
    posted. *)
Lemma transfer_within_limit env w message context file file_type prefix
      suffix media_type kwargs r w' :
  file_size file <= MAX_FILE_SIZE env ->
  MediaHandler.transfer message context file file_type prefix suffix
                        media_type kwargs env w = (r, w') ->
  ext not_wall_post w w' /\ forall post_id, r <> Ret (Some post_id).
Proof.
  intros Hsize H. unfold MediaHandler.transfer, bind at 1, ask in H.
  destruct (Z.gtb_spec (file_size file) (MAX_FILE_SIZE env)) as [|_]; [lia|].
  unfold bind at 1, FileManager.get_temp_path at 1 in H.
  set (p := FileManager.in_base_dir _) in H.
  unfold bind at 1 in H.
  destruct (FileManager.download_file (file_id file) p (MAX_FILE_SIZE env) 3
              env w) as [[outcome|e] w1] eqn:D.
  2:{ injection H as <- <-. split; [|discriminate].
      eapply respects_elim; [|exact D].
      apply respects_download_file; intros; exact I. }
  assert (X1 : ext not_wall_post w w1).
  { eapply respects_elim; [|exact D].
    apply respects_download_file; intros; exact I. }
  destruct (fst outcome); cbn [negb] in H.
  2:{ injection H as <- <-. split; [exact X1 | discriminate]. }
  split.
  - eapply step_trans; [exact X1|].
    eapply respects_elim; [|exact H].
    apply (respects_try_finally (ext not_wall_post));
      [|apply respects_cleanup].
    apply (respects_bind (ext not_wall_post)).
    + apply respects_upload_media; intros; exact I.
    + intros a. unfold MediaHandler._publish_post.
      respects_auto.
  - intros post_id ->. unfold try_finally in H.
    destruct ((attachment <- VkClient.upload_media p media_type kwargs;;
               MediaHandler._publish_post message context [attachment]) env w1)
      as [r1 w2] eqn:B.
    destruct (FileManager.cleanup p env w2) as [[u|e] w3]; [|discriminate].
    injection H as -> _.
    apply bind_inv in B as (a & w4 & _ & B).
    unfold MediaHandler._publish_post, try_except, raise, ret in B.
    discriminate.
Qed.

Lemma dispatch_within_limit env w message context r w' :
  (forall file file_type,
      selected_file message = Some (file, file_type) ->
      file_size file <= MAX_FILE_SIZE env) ->
  MediaHandler.dispatch message context env w = (r, w') ->
  ext not_wall_post w w' /\ forall post_id, r <> Ret (Some post_id).
Proof.
  intros Hsmall H.
  assert (Done : forall (x : res (option Z)),
             (x, w) = (r, w') -> (forall post_id, x <> Ret (Some post_id)) ->
             ext not_wall_post w w' /\ forall post_id, r <> Ret (Some post_id)).
  { intros x E Hx. injection E as <- <-. split; [apply step_refl | exact Hx]. }
  unfold MediaHandler.dispatch in H. unfold selected_file in Hsmall.
  destruct (content_type message).
  all: try (apply (Done _ H); discriminate).
  - unfold MediaHandler._handle_photo in H.
    destruct (rev (photo message)) as [|file rest];
      [apply (Done _ H); discriminate|].
    eapply transfer_within_limit; [|exact H]. eapply Hsmall. reflexivity.
  - unfold MediaHandler._handle_video in H.
    destruct (video message) as [file|];
      [|apply (Done _ H); discriminate].
    eapply transfer_within_limit; [|exact H]. eapply Hsmall. reflexivity.
  - unfold MediaHandler._handle_document in H.
    destruct (document message) as [file|];
      [|apply (Done _ H); discriminate].
    eapply transfer_within_limit; [|exact H]. eapply Hsmall. reflexivity.
  - unfold MediaHandler._handle_video_note in H.
    destruct (video_note message) as [file|];
      [|apply (Done _ H); discriminate].
    eapply transfer_within_limit; [|exact H]. eapply Hsmall. reflexivity.
Qed.

(** ** handlers/telegram/base_handler.py: [setup] *)

(** X21. [BaseHandler.setup] never raises and asks Telegram for the chat
    at most once.  When it returns a context, the message is not a forward
    from a user, the settings found for the chat are active, the client
    has been configured with their token, [abs(target_id)] and mode and
    has a session, and the context carries the chat and the link
    [generate_source_link] builds for it.  When the channel has no
    settings, or inactive ones, the result is [None] and the client is
    left as it was. *)
Theorem X21_setup_outcomes message env w :
  exists o w',
    BaseHandler.setup message env w = (Ret o, w')
    /\ (trace w' = trace w
        \/ trace w' = (trace w ++ [EvGetChat (chat_id message)])%list)
    /\ (forall context, o = Some context ->
          user_forward message = false
          /\ tg_get_chat env (trace w) (chat_id message) = Ret (ctx_chat context)
          /\ get_channel_settings_by_id env
               (trace w ++ [EvGetChat (chat_id message)])%list
               (chat_ident (ctx_chat context))
             = Ret (Some (ctx_settings context))
          /\ st_is_active (ctx_settings context) = true
          /\ ctx_source_link context
             = BaseHandler.generate_source_link (ctx_chat context)
                                                (message_id message)
          /\ config w'
             = mkConfig (Some (st_access_token (ctx_settings context)))
                        (Some (Z.abs (st_target_id (ctx_settings context))))
                        (Some (post_as_group_of (ctx_settings context)))
          /\ api w' = true /\ upload w' = true)
    /\ (forall chat,
          user_forward message = false ->
          tg_get_chat env (trace w) (chat_id message) = Ret chat ->
          match get_channel_settings_by_id env
                  (trace w ++ [EvGetChat (chat_id message)])%list
                  (chat_ident chat) with
          | Ret (Some settings) => st_is_active settings = false
          | Ret None => True
          | Raise _ => True
          end ->
          o = None /\ w' = log_event (EvGetChat (chat_id message)) w).
Proof.
  unfold BaseHandler.setup, try_except, bind at 1, BaseHandler.is_user_forward,
    ret at 1.
  fold (user_forward message).
  destruct (user_forward message) eqn:F.
  { exists None, w. split; [reflexivity|]. split; [now left|].
    split; [discriminate|]. intros chat C. discriminate. }
  unfold bind at 1, BaseHandler.bot_get_chat.
  destruct (tg_get_chat env (trace w) (chat_id message)) as [chat|e] eqn:C;
    cbn [of_res ret raise].
  2:{ exists None, (log_event (EvGetChat (chat_id message)) w).
      split; [reflexivity|]. split; [now right|].
      split; [discriminate|]. intros chat _ C'. discriminate. }
  unfold bind at 1. cbn [trace log_event].
  destruct (get_channel_settings_by_id env
              (trace w ++ [EvGetChat (chat_id message)])%list (chat_ident chat))
    as [[settings|]|e] eqn:S; cbn [of_res ret raise].
  2,3: (exists None, (log_event (EvGetChat (chat_id message)) w);
        split; [reflexivity|]; split; [now right|];
        split; [discriminate|]; intros chat' _ C'; auto).
  destruct (st_is_active settings) eqn:Act; cbn [negb].
  2:{ exists None, (log_event (EvGetChat (chat_id message)) w).
      split; [reflexivity|]. split; [now right|].
      split; [discriminate|]. intros chat' _ C'. auto. }
  unfold bind at 1. fold (post_as_group_of settings).
  destruct (VkClient.configure (st_access_token settings) (st_target_id settings)
              (post_as_group_of settings) env
              (log_event (EvGetChat (chat_id message)) w))
    as [[[]|e] w1] eqn:K.
  - apply configure_ok in K as (K1 & K2 & K3 & _ & _ & K4).
    eexists. exists w1. split; [reflexivity|]. split; [now right|]. split.
    + intros context Hc. injection Hc as <-. cbn [ctx_chat ctx_settings
        ctx_source_link]. repeat split; auto.
    + intros chat' _ C'. injection C' as <-. rewrite S, Act. discriminate.
  - assert (T : trace w1 = trace (log_event (EvGetChat (chat_id message)) w)).
    { unfold VkClient.configure in K.
      destruct (negb _) in K; [now injection K as _ <-|].
      unfold bind, modify, VkClient._reinitialize_client, get, ask, bind in K.
      cbn [config set_config cfg_access_token trace] in K.
      destruct (vk_session env _ _) in K; [now injection K as _ <-|].
      discriminate. }
    exists None, w1. split; [reflexivity|]. split; [now right|].
    split; [discriminate|].
    intros chat' _ C'. injection C' as <-. rewrite S, Act. discriminate.
Qed.

(** [setup] never raises; its only interaction is [bot.get_chat]. *)
Lemma setup_trace message env w r w' :
  BaseHandler.setup message env w = (r, w') ->
  (exists o, r = Ret o)
  /\ (trace w' = trace w
      \/ trace w' = (trace w ++ [EvGetChat (chat_id message)])%list).
Proof.
  intros H.
  unfold BaseHandler.setup, try_except, bind, BaseHandler.is_user_forward,
    BaseHandler.bot_get_chat, VkClient.configure, VkClient._reinitialize_client,
    get, ask, bind in H.
  run_cases H; pairs_inv; split; eauto.
Qed.

Lemma setup_ext message :
  respects (ext not_wall_post) (BaseHandler.setup message).
Proof.
  intros env w r w' H. apply setup_trace in H as [_ [T|T]].
  - now apply ext_same_trace.
  - exists [EvGetChat (chat_id message)]. split; [exact T|].
    constructor; [exact I | constructor].
Qed.

(** ** handlers/telegram/media_handler.py: [handle] *)

(** X22. [MediaHandler.handle] never raises.  Unless the attachment the
    handler selects is larger than [MAX_FILE_SIZE], it returns [None] and
    sends no [wall.post] request: the file may be downloaded and uploaded,
    but [_publish_post] stops at its first line, where it calls
    [refresh_token_if_needed], a name the module does not bind. *)
Theorem X22_media_within_limit_not_posted message env w :
  exists o w',
    MediaHandler.handle message env w = (Ret o, w')
    /\ ((forall file file_type,
            selected_file message = Some (file, file_type) ->
            file_size file <= MAX_FILE_SIZE env) ->
        o = None /\ ext not_wall_post w w').
Proof.
  unfold MediaHandler.handle, bind at 1, BaseHandler.is_user_forward, ret at 1.
  destruct (forward_from message && negb (forward_from_chat message)).
  { exists None, w. split; [reflexivity|]. intros _.
    split; [reflexivity | apply step_refl]. }
  unfold bind at 1.
  destruct (BaseHandler.setup message env w) as [r1 w1] eqn:S.
  pose proof (setup_ext message _ _ _ _ S) as X1.
  apply setup_trace in S as [[c ->] _].
  destruct c as [context|].
  2:{ exists None, w1. split; [reflexivity|]. intros _. now split. }
  unfold try_except.
  destruct (MediaHandler.dispatch message context env w1) as [r2 w2] eqn:D.
  assert (Small : (forall file file_type,
                      selected_file message = Some (file, file_type) ->
                      file_size file <= MAX_FILE_SIZE env) ->
                  ext not_wall_post w w2
                  /\ forall post_id, r2 <> Ret (Some post_id)).
  { intros Hs. destruct (dispatch_within_limit _ _ _ _ _ _ Hs D) as [X2 N].
    split; [eapply step_trans; eauto | exact N]. }
  destruct r2 as [o|e].
  - exists o, w2. split; [reflexivity|]. intros Hs.
    destruct (Small Hs) as [X N]. split; [|exact X].
    destruct o as [post_id|]; [now destruct (N post_id) | reflexivity].
  - exists None, w2. split; [reflexivity|]. intros Hs.
    destruct (Small Hs) as [X _]. now split.
Qed.

Lemma X22_media_within_limit_not_posted_witness :
  exists o w',
    MediaHandler.handle small_photo_message calm_env new_world = (Ret o, w')
    /\ o = None /\ ext not_wall_post new_world w'.
Proof.
  destruct (X22_media_within_limit_not_posted small_photo_message calm_env
              new_world) as (o & w' & H & K).
  exists o, w'. split; [exact H|]. apply K.
  intros file file_type E. vm_compute in E. injection E as <- _.
  vm_compute. discriminate.
Defined.

(** ** handlers/telegram/text_handler.py *)

(** X23. [TextHandler.handle] never posts.  Its only interaction is the
    [bot.get_chat] of [setup]; it returns when [setup] yields no context,
    and otherwise raises the [AttributeError] of the call to
    [self.get_source_link], a method no class defines, before the [try]
    that holds [create_post] is entered. *)
Theorem X23_text_handler_never_posts message env w :
  exists r w',
    TextHandler.handle message env w = (r, w')
    /\ (trace w' = trace w
        \/ trace w' = (trace w ++ [EvGetChat (chat_id message)])%list)
    /\ (fst (BaseHandler.setup message env w) = Ret None -> r = Ret tt)
    /\ (forall context,
          fst (BaseHandler.setup message env w) = Ret (Some context) ->
          exists msg, r = Raise (mkExn AttributeError msg)).
Proof.
  unfold TextHandler.handle, bind.
  destruct (BaseHandler.setup message env w) as [r1 w1] eqn:S.
  destruct (setup_trace _ _ _ _ _ S) as [[c ->] T].
  destruct c as [context|]; cbn [fst]; do 2 eexists;
    (split; [reflexivity|]); (split; [exact T|]); split;
    try discriminate; try reflexivity.
  intros context0 _. eexists. reflexivity.
Qed.

(** ** services/vk/client.py: [edit_post] *)

Lemma wall_edit_calls_app a b :
  wall_edit_calls (a ++ b) = (wall_edit_calls a + wall_edit_calls b)%nat.
Proof.
  induction a as [|e a IH]; [reflexivity|].
  destruct e as [| [] | | | |]; cbn [app wall_edit_calls]; try exact IH.
  now rewrite IH.
Qed.

Lemma ext_no_wall_edit w w' :
  ext not_wall_edit w w' ->
  wall_edit_calls (trace w') = wall_edit_calls (trace w).
Proof.
  intros [evs [T F]]. rewrite T, wall_edit_calls_app.
  assert (Z0 : wall_edit_calls evs = 0%nat).
  { clear T. induction F as [|e l He Hl IH]; [reflexivity|].
    destruct e as [| [] | | | |]; cbn [wall_edit_calls]; try exact IH.
    exfalso. exact He. }
  lia.
Qed.

(** X25. [edit_post] never raises.  A client without an API object
    answers [False] at once.  When the existing post cannot be read (every
    [wall.getById] fails or returns no post) the answer is [False] and no
    [wall.edit] request is sent. *)
Theorem X25_edit_post_fails_closed post_id new_text message_id env w :
  exists b w',
    VkClient.edit_post post_id new_text message_id env w = (Ret b, w')
    /\ (api w = false -> b = false /\ w' = w)
    /\ ((forall h p first rest, wall_getById env h p <> Ret (first :: rest)) ->
        b = false
        /\ wall_edit_calls (trace w') = wall_edit_calls (trace w)).
Proof.
  unfold VkClient.edit_post, bind at 1, get at 1.
  destruct (api w) eqn:Ha; cbn [negb].
  2:{ exists false, w. split; [reflexivity|]. split; auto. }
  unfold bind at 1.
  destruct (VkClient.refresh_configured_target env w) as [[[]|e] w1] eqn:R.
  2:{ now apply refresh_configured_returns in R. }
  assert (X1 : ext not_wall_edit w w1).
  { eapply (respects_refresh_configured (ext _)); [|exact R].
    intros t. apply refresh_ext. intros; exact I. }
  match goal with
  | |- context [try_except ?body ?h env w1] =>
      destruct (try_except body h env w1) as [r w'] eqn:E
  end.
  destruct (try_except_ret_inv _ _ _ _ _ _ E) as (b & -> & B).
  exists b, w'. split; [reflexivity|]. split; [congruence|].
  intros Hno. clear E.
  assert (Body : forall rb wb,
             (w0 <- get;;
              owner_id <- of_res (VkClient.owner_id_of (config w0));;
              old_post <- VkClient._execute_with_retry
                            (vk_call
                               (WallGetById (str_of_opt_Z owner_id ++ "_"
                                                          ++ str_of_Z post_id))
                               (fun env h =>
                                  wall_getById env h
                                    (str_of_opt_Z owner_id ++ "_"
                                                  ++ str_of_Z post_id)));;
              match old_post with
              | Some (first :: _) =>
                  attachments <-
                    of_res (VkClient.collect_attachments
                              match wp_attachments first with
                              | Some l => l
                              | None => []
                              end);;
                  source_link <-
                    match message_id with
                    | Some m =>
                        if m =? 0 then ret None
                        else (l <- VkClient.get_source_link_for_edit m;;
                              ret (Some l))
                    | None => ret None
                    end;;
                  VkClient._execute_with_retry
                    (vk_call
                       (WallEdit (mkEditParams owner_id post_id new_text
                                    (VkClient.join_attachments (Some attachments))
                                    source_link))
                       (fun env h =>
                          wall_edit env h
                            (mkEditParams owner_id post_id new_text
                               (VkClient.join_attachments (Some attachments))
                               source_link)));;;
                  ret true
              | _ => ret false
              end) env w1 = (rb, wb) ->
             rb <> Ret true /\ ext not_wall_edit w1 wb).
  { intros rb wb H. unfold bind at 1, get at 1 in H.
    destruct (VkClient.owner_id_of (config w1)) as [o|e0];
      cbn [of_res] in H; unfold bind at 1 in H.
    2:{ unfold raise at 1 in H. injection H as <- <-.
        split; [discriminate | apply step_refl]. }
    unfold ret at 1 in H. unfold bind at 1 in H.
    match type of H with
    | context [VkClient._execute_with_retry ?f env w1] =>
        destruct (VkClient._execute_with_retry f env w1) as [ro w3] eqn:G
    end.
    assert (X3 : ext not_wall_edit w1 w3).
    { eapply respects_elim; [|exact G].
      apply (respects_execute_with_retry (ext _)).
      - apply (respects_vk_call (ext _)). intros. now apply ext_log.
      - intros. now apply ext_slept. }
    destruct ro as [[[|first rest]|]|e1].
    - injection H as <- <-. split; [discriminate | exact X3].
    - exfalso. rewrite execute_with_retry_unfold in G.
      apply retry_loop_success in G as (evs & _ & An & _).
      exact (Hno _ _ _ _ An).
    - injection H as <- <-. split; [discriminate | exact X3].
    - injection H as <- <-. split; [discriminate | exact X3]. }
  destruct B as [B|[-> [e B]]]; apply Body in B as [N X2].
  - split.
    + destruct b; [now destruct N | reflexivity].
    + apply ext_no_wall_edit. eapply step_trans; eauto.
  - split; [reflexivity|].
    apply ext_no_wall_edit. eapply step_trans; eauto.
Qed.

(** ** services/database/repository.py: [get_channel_settings] *)

Lemma get_channel_settings_pure db channel_id env w r w' :
  DatabaseRepository.get_channel_settings db channel_id env w = (r, w') ->
  w' = w /\ exists o, r = Ret o.
Proof.
  intros H. split.
  - change (keeps (fun w => w) w w').
    eapply respects_elim; [|exact H].
    unfold DatabaseRepository.get_channel_settings.
    respects_auto; reflexivity.
  - destruct r as [o|e]; [eauto|].
    now apply (try_except_ret_returns _ (fun _ => None)) in H.
Qed.

(** X26. [get_channel_settings] never raises and changes nothing; without
    a store it answers [None].  Settings it returns are read from a
    channel row, an active cross-posting row of that channel and the
    active target row that this row names. *)
Theorem X26_channel_settings_sound db channel_id env w :
  exists o,
    DatabaseRepository.get_channel_settings db channel_id env w = (Ret o, w)
    /\ (supabase env = false -> o = None)
    /\ (forall s, o = Some s ->
          exists c cs tr,
            In c (tb_channels db) /\ In cs (tb_crosspost db)
            /\ In tr (tb_targets db)
            /\ cs_is_active cs = true /\ vt_is_active (tr_data tr) = true
            /\ cs_telegram_channel_id cs = tc_id c
            /\ tr_id tr = cs_vk_target_id cs
            /\ gs_channel_id s = tc_id c /\ gs_user_id s = tc_user_id c
            /\ gs_channel_username s = tc_channel_username c
            /\ gs_post_as_group s = cs_post_as_group cs
            /\ gs_vk_target_id s = tr_id tr
            /\ gs_target_id s = vt_target_id (tr_data tr)
            /\ gs_access_token s = vt_access_token (tr_data tr)
            /\ gs_refresh_token s = vt_refresh_token (tr_data tr)
            /\ gs_expires_at s = vt_expires_at (tr_data tr)).
Proof.
  destruct (DatabaseRepository.get_channel_settings db channel_id env w)
    as [r w'] eqn:H.
  destruct (get_channel_settings_pure _ _ _ _ _ _ H) as [-> [o ->]].
  exists o. split; [reflexivity|]. split.
  - intros Hs.
    unfold DatabaseRepository.get_channel_settings, try_except, bind at 1,
      ask in H.
    rewrite Hs in H. cbn in H. now injection H as <-.
  - intros s ->.
    unfold DatabaseRepository.get_channel_settings in H.
    apply try_except_ret_inv in H as (x & Hx & [B|[C _]]);
      [|injection Hx as <-; discriminate].
    injection Hx as <-.
    apply bind_inv in B as (env0 & w0 & A & B).
    apply ask_inv in A as [-> ->].
    destruct (negb (supabase env)); [discriminate|].
    apply bind_inv in B as ([] & w1 & _ & B).
    apply bind_inv in B as (found & w2 & Hfound & B).
    assert (Hin : forall c, In c found -> In c (tb_channels db)).
    { intros c Hc.
      assert (Sub : forall i, In c (DatabaseRepository.channels_by_id db i) ->
                              In c (tb_channels db)).
      { intros i Hi. unfold DatabaseRepository.channels_by_id in Hi.
        now apply filter_In in Hi as [Hi _]. }
      destruct (DatabaseRepository.channels_by_id db channel_id)
        as [|c0 l0] eqn:E0.
      - destruct (startswith "-100" (str_of_Z channel_id));
          match type of Hfound with
          | context [int_of_str ?x] => destruct (int_of_str x) as [q|]
          end; try discriminate;
          apply bind_inv in Hfound as ([] & w3 & _ & Hfound);
          injection Hfound as <- _; eapply Sub; eauto.
      - injection Hfound as <- _. apply (Sub channel_id). now rewrite E0. }
    destruct found as [|c rest]; [discriminate|].
    apply bind_inv in B as ([] & w3 & _ & B).
    match type of B with
    | context [filter ?f (tb_crosspost db)] =>
        destruct (filter f (tb_crosspost db)) as [|cs l1] eqn:E1
    end; [discriminate|].
    apply bind_inv in B as ([] & w4 & _ & B).
    match type of B with
    | context [filter ?f (tb_targets db)] =>
        destruct (filter f (tb_targets db)) as [|tr l2] eqn:E2
    end; [discriminate|].
    injection B as <- _.
    assert (I1 : In cs (cs :: l1)) by now left.
    rewrite <- E1 in I1. apply filter_In in I1 as [I1 P1].
    apply andb_true_iff in P1 as [P1 P1'].
    assert (I2 : In tr (tr :: l2)) by now left.
    rewrite <- E2 in I2. apply filter_In in I2 as [I2 P2].
    apply andb_true_iff in P2 as [P2 P2'].
    exists c, cs, tr. cbn.
    repeat split; auto; try lia. apply Hin. now left.
Qed.

Lemma X26_channel_settings_sound_witness :
  exists o,
    DatabaseRepository.get_channel_settings demo_tables 1234 calm_env new_world
    = (Ret o, new_world)
    /\ o = Some (mkChannelSettings 7 None 100 (Some "tok") (Some "r1") ExpNone
                                   (Some 1) 3 11).
Proof.
  destruct (X26_channel_settings_sound demo_tables 1234 calm_env new_world)
    as (o & H & _).
  exists o. split; [exact H|].
  vm_compute in H. now injection H as <-.
Defined.

Lemma bind_cong_k {A B} (m : M A) (k1 k2 : A -> M B) env w :
  (forall a w1, m env w = (Ret a, w1) -> k1 a env w1 = k2 a env w1) ->
  bind m k1 env w = bind m k2 env w.
Proof.
  intros H. unfold bind. destruct (m env w) as [[a|e] w1]; [|reflexivity].
  now apply H.
Qed.

Lemma bind_cong_m {A B} (m1 m2 : M A) (k : A -> M B) env w :
  m1 env w = m2 env w -> bind m1 k env w = bind m2 k env w.
Proof. intros H. unfold bind. now rewrite H. Qed.

Lemma try_except_cong {A} (m1 m2 : M A) h env w :
  m1 env w = m2 env w -> try_except m1 h env w = try_except m2 h env w.
Proof. intros H. unfold try_except. now rewrite H. Qed.

Lemma substring_all s : substring 0 (String.length s) s = s.
Proof. induction s as [|c s IH]; cbn; [reflexivity | now rewrite IH]. Qed.

Lemma strip_100 q s :
  str_of_Z q = ("-100" ++ s)%string ->
  startswith "-100" (str_of_Z q) = true
  /\ substring 4 (String.length (str_of_Z q) - 4) (str_of_Z q) = s.
Proof.
  intros ->. split; [now destruct s|].
  cbn. rewrite Nat.sub_0_r. apply substring_all.
Qed.

(** The first query of [get_channel_settings] and its second try under
    the converted id. *)
Lemma channels_stage_direct db i c l (k : list tc_row -> M (option ChannelSettings))
      env w :
  DatabaseRepository.channels_by_id db i = c :: l ->
  bind match DatabaseRepository.channels_by_id db i with
       | [] =>
           if startswith "-100" (str_of_Z i) then
             match int_of_str (substring 4 (String.length (str_of_Z i) - 4)
                                         (str_of_Z i)) with
             | Some converted_id =>
                 execute ;;; ret (DatabaseRepository.channels_by_id db converted_id)
             | None => raise (mkExn ValueError "invalid literal for int()")
             end
           else
             match int_of_str ("-100" ++ str_of_Z i) with
             | Some converted_id =>
                 execute ;;; ret (DatabaseRepository.channels_by_id db converted_id)
             | None => raise (mkExn ValueError "invalid literal for int()")
             end
       | found => ret found
       end k env w
  = k (c :: l) env w.
Proof. intros ->. reflexivity. Qed.

(** X27. The id conversion of [get_channel_settings].  Let [q] be the id
    whose decimal form is [-100] followed by that of [n].  When the
    channel is stored under [n] only, a lookup by [q] answers what a
    lookup by [n] answers; when it is stored under [q] only, a lookup by
    [n] answers what a lookup by [q] answers. *)
Theorem X27_channel_id_conversion db q n env w :
  str_of_Z q = ("-100" ++ str_of_Z n)%string ->
  (DatabaseRepository.channels_by_id db q = [] ->
   DatabaseRepository.channels_by_id db n <> [] ->
   DatabaseRepository.get_channel_settings db q env w
   = DatabaseRepository.get_channel_settings db n env w)
  /\ (DatabaseRepository.channels_by_id db n = [] ->
      DatabaseRepository.channels_by_id db q <> [] ->
      startswith "-100" (str_of_Z n) = false ->
      DatabaseRepository.get_channel_settings db n env w
      = DatabaseRepository.get_channel_settings db q env w).
Proof.
  intros Hq. destruct (strip_100 _ _ Hq) as [Hp Hs].
  assert (Start : forall a b,
             (forall w1, db_exec env (trace w1) = None -> trace w1 = trace w ->
                         DatabaseRepository.channels_by_id db a = [] ->
                         exists c l,
                           DatabaseRepository.channels_by_id db b = c :: l
                           /\ (if startswith "-100" (str_of_Z a) then
                                 match int_of_str
                                         (substring 4
                                            (String.length (str_of_Z a) - 4)
                                            (str_of_Z a)) with
                                 | Some converted_id =>
                                     execute ;;;
                                     ret (DatabaseRepository.channels_by_id
                                            db converted_id)
                                 | None =>
                                     raise (mkExn ValueError
                                              "invalid literal for int()")
                                 end
                               else
                                 match int_of_str ("-100" ++ str_of_Z a) with
                                 | Some converted_id =>
                                     execute ;;;
                                     ret (DatabaseRepository.channels_by_id
                                            db converted_id)
                                 | None =>
                                     raise (mkExn ValueError
                                              "invalid literal for int()")
                                 end) env w1
                              = (Ret (c :: l), w1)) ->
             DatabaseRepository.channels_by_id db a = [] ->
             DatabaseRepository.get_channel_settings db a env w
             = DatabaseRepository.get_channel_settings db b env w).
  { intros a b Hstage Ha.
    unfold DatabaseRepository.get_channel_settings.
    apply try_except_cong, bind_cong_k. intros env0 w0 A.
    apply ask_inv in A as [-> ->].
    destruct (negb (supabase env)); [reflexivity|].
    apply bind_cong_k. intros [] w1 E.
    assert (E1 : w1 = w /\ db_exec env (trace w) = None).
    { unfold execute in E. destruct (db_exec env (trace w));
        [discriminate | now injection E as <-]. }
    destruct E1 as [-> Hdb].
    destruct (Hstage w Hdb eq_refl Ha) as (c & l & Hb & St).
    rewrite (channels_stage_direct db b c l _ env w Hb).
    rewrite Ha. unfold bind at 1. rewrite St. reflexivity. }
  split.
  - intros Hnone Hsome. apply Start; [|exact Hnone].
    intros w1 Hdb _ _.
    destruct (DatabaseRepository.channels_by_id db n) as [|c l] eqn:E;
      [contradiction|].
    exists c, l. split; [reflexivity|].
    rewrite Hp, Hs, int_of_str_of_Z. unfold bind, execute, ret.
    now rewrite Hdb, E.
  - intros Hnone Hsome Hnp. apply Start; [|exact Hnone].
    intros w1 Hdb _ _.
    destruct (DatabaseRepository.channels_by_id db q) as [|c l] eqn:E;
      [contradiction|].
    exists c, l. split; [reflexivity|].
    rewrite Hnp, <- Hq, int_of_str_of_Z. unfold bind, execute, ret.
    now rewrite Hdb, E.
Qed.

Lemma X27_channel_id_conversion_witness :
  (DatabaseRepository.channels_by_id demo_tables (-1001234) = [] ->
   DatabaseRepository.channels_by_id demo_tables 1234 <> [] ->
   DatabaseRepository.get_channel_settings demo_tables (-1001234) calm_env
                                           new_world
   = DatabaseRepository.get_channel_settings demo_tables 1234 calm_env
                                             new_world)
  /\ (DatabaseRepository.channels_by_id demo_tables 1234 = [] ->
      DatabaseRepository.channels_by_id demo_tables (-1001234) <> [] ->
      startswith "-100" (str_of_Z 1234) = false ->
      DatabaseRepository.get_channel_settings demo_tables 1234 calm_env
                                              new_world
      = DatabaseRepository.get_channel_settings demo_tables (-1001234)
                                                calm_env new_world).
Proof.
  apply (X27_channel_id_conversion demo_tables (-1001234) 1234 calm_env
           new_world).
  reflexivity.
Defined.

Lemma int_of_str_double_minus r : int_of_str ("-100" ++ String "-" r) = None.
Proof.
  unfold int_of_str. cbn. now destruct (NilEmpty.uint_of_string r).
Qed.

Lemma str_of_Z_negative z : z < 0 -> exists r, str_of_Z z = String "-" r.
Proof.
  intros H. destruct z as [|p|p]; try lia.
  unfold str_of_Z. cbn [Z.to_int NilZero.string_of_int]. eauto.
Qed.

(** X28. Ids that the conversion of [get_channel_settings] cannot
    handle.  For a channel id that is not stored as it is, and which is
    either [-100] itself or negative without the [-100] prefix, the
    converted id is not a number; the [ValueError] of [int] is caught and
    the answer is [None]. *)
Theorem X28_channel_id_not_convertible db channel_id env w :
  DatabaseRepository.channels_by_id db channel_id = [] ->
  channel_id = -100
  \/ (channel_id < 0 /\ startswith "-100" (str_of_Z channel_id) = false) ->
  DatabaseRepository.get_channel_settings db channel_id env w = (Ret None, w)
  /\ (if startswith "-100" (str_of_Z channel_id)
      then int_of_str (substring 4 (String.length (str_of_Z channel_id) - 4)
                                 (str_of_Z channel_id))
      else int_of_str ("-100" ++ str_of_Z channel_id)) = None.
Proof.
  intros Hnone Hbad.
  assert (Conv : (if startswith "-100" (str_of_Z channel_id)
                  then int_of_str
                         (substring 4 (String.length (str_of_Z channel_id) - 4)
                                    (str_of_Z channel_id))
                  else int_of_str ("-100" ++ str_of_Z channel_id)) = None).
  { destruct Hbad as [->|[Hneg Hnp]]; [reflexivity|].
    rewrite Hnp. destruct (str_of_Z_negative _ Hneg) as [r ->].
    apply int_of_str_double_minus. }
  split; [|exact Conv].
  unfold DatabaseRepository.get_channel_settings, try_except, bind at 1, ask.
  destruct (negb (supabase env)); [reflexivity|].
  unfold bind at 1, execute.
  destruct (db_exec env (trace w)); [reflexivity|].
  unfold bind at 1. rewrite Hnone.
  destruct (startswith "-100" (str_of_Z channel_id)); rewrite Conv; reflexivity.
Qed.

Lemma X28_channel_id_not_convertible_witness :
  DatabaseRepository.get_channel_settings demo_tables (-5) calm_env new_world
  = (Ret None, new_world)
  /\ (if startswith "-100" (str_of_Z (-5))
      then int_of_str (substring 4 (String.length (str_of_Z (-5)) - 4)
                                 (str_of_Z (-5)))
      else int_of_str ("-100" ++ str_of_Z (-5))) = None.
Proof.
  apply (X28_channel_id_not_convertible demo_tables (-5) calm_env new_world).
  - reflexivity.
  - right. split; [lia | reflexivity].
Defined.

(** ** utils/file_utils.py: [cleanup_old_files] *)

Lemma cleanup_old_loop_run current_time max_age_hours entries :
  forall count,
    let r := cleanup_old_loop current_time (max_age_hours * 3600) count entries in
    fst r - count + Z.of_nat (List.length (snd r)) = Z.of_nat (List.length entries)
    /\ count <= fst r
    /\ (forall e, In e (snd r) -> In e entries)
    /\ (forall e, In e entries ->
                  is_old current_time max_age_hours e = false -> In e (snd r))
    /\ (Forall entry_ok entries ->
        snd r = filter (fun e => negb (is_old current_time max_age_hours e))
                       entries).
Proof.
  induction entries as [|e0 rest IH]; intros count; cbn zeta.
  - cbn. repeat split; auto; lia.
  - cbn [cleanup_old_loop filter]. unfold is_old at 2.
    pose proof (IH count) as IH0. pose proof (IH (count + 1)) as IH1.
    cbn zeta in IH0, IH1.
    destruct (cleanup_old_loop current_time (max_age_hours * 3600) count rest)
      as [n0 k0].
    destruct (cleanup_old_loop current_time (max_age_hours * 3600) (count + 1)
                rest) as [n1 k1].
    cbn [fst snd] in IH0, IH1.
    destruct IH0 as (A0 & B0 & C0 & D0 & E0).
    destruct IH1 as (A1 & B1 & C1 & D1 & E1).
    assert (Keep : forall n k,
               n - count + Z.of_nat (List.length k) = Z.of_nat (List.length rest) ->
               count <= n ->
               (forall e, In e k -> In e rest) ->
               (forall e, In e rest ->
                          is_old current_time max_age_hours e = false -> In e k) ->
               n - count + Z.of_nat (List.length (e0 :: k))
               = Z.of_nat (List.length (e0 :: rest))
               /\ count <= n
               /\ (forall e, In e (e0 :: k) -> In e (e0 :: rest))
               /\ (forall e, In e (e0 :: rest) ->
                             is_old current_time max_age_hours e = false ->
                             In e (e0 :: k))).
    { intros n k A B C D. cbn [List.length]. split; [lia|]. split; [lia|].
      split.
      - intros e [->|H]; [now left | right; auto].
      - intros e [->|H] Y; [now left | right; auto]. }
    destruct (de_is_file e0) eqn:F; cbn [negb andb].
    2:{ cbn [fst snd].
        destruct (Keep n0 k0 A0 B0 C0 D0) as (K1 & K2 & K3 & K4).
        repeat split; auto. intros Ok. inversion Ok; subst.
        now rewrite E0. }
    destruct (de_mtime e0) as [mtime|err] eqn:Mt.
    2:{ cbn [fst snd]. split; [lia|]. split; [lia|]. split; [auto|].
        split; [auto|]. intros Ok. inversion Ok as [|x l [[m Hm] _] _]; subst.
        congruence. }
    destruct (Qle_bool (current_time - mtime) (inject_Z (max_age_hours * 3600)))
      eqn:Age; cbn [negb].
    { cbn [fst snd].
      destruct (Keep n0 k0 A0 B0 C0 D0) as (K1 & K2 & K3 & K4).
      repeat split; auto. intros Ok. inversion Ok; subst. now rewrite E0. }
    destruct (de_unlink e0) as [err|] eqn:Un.
    { cbn [fst snd].
      destruct (Keep n0 k0 A0 B0 C0 D0) as (K1 & K2 & K3 & K4).
      repeat split; auto. intros Ok. inversion Ok as [|x l [_ Hu] _]; subst.
      congruence. }
    cbn [fst snd List.length]. split; [lia|]. split; [lia|]. split.
    { intros e H. right. auto. }
    split.
    { intros e [<-|H] Y; [|auto].
      unfold is_old in Y. rewrite F, Mt, Age in Y. discriminate. }
    intros Ok. inversion Ok; subst. auto.
Qed.

(** X29. [cleanup_old_files] returns the number of entries it removed,
    and what it leaves is part of what was there.  A directory, and a file
    that is not older than [max_age_hours], is never removed.  When
    [stat] and [unlink] succeed on every entry, exactly the regular files
    older than [max_age_hours] are removed. *)
Theorem X29_cleanup_old_files current_time max_age_hours entries :
  let count := fst (cleanup_old_files current_time max_age_hours entries) in
  let kept := snd (cleanup_old_files current_time max_age_hours entries) in
  count + Z.of_nat (List.length kept) = Z.of_nat (List.length entries)
  /\ 0 <= count
  /\ (forall e, In e kept -> In e entries)
  /\ (forall e, In e entries ->
                is_old current_time max_age_hours e = false -> In e kept)
  /\ (Forall entry_ok entries ->
      kept = filter (fun e => negb (is_old current_time max_age_hours e))
                    entries).
Proof.
  intros count kept. subst count kept. unfold cleanup_old_files.
  destruct (cleanup_old_loop_run current_time max_age_hours entries 0)
    as (A & B & C & D & E).
  repeat split; auto. lia.
Qed.
